(** * chrombpnet.dataset: region splitting, negative sampling and the epoch dataset

    A shallow embedding of [src/chrombpnet/dataset.py], and of
    [src/chrombpnet/logger.py] over a model of Python's [logging].

    - Python exceptions are values of [exn]; a call that may raise returns a
      [result].
    - Code that reads or writes an object, or draws from numpy's global
      generator, is written in the state-and-exception monad [SE]: an
      exception leaves the state as it was when it was raised, as in Python.
    - numpy arrays are [ndarray]s: the rows along axis 0 together with the
      trailing shape.  dataset.py never writes into an array in place, so
      arrays are values.  Region frames are lists of rows; the one frame
      that is written in place ([split_peak_and_nonpeak] assigns a column of
      its argument) is the state of that call.
    - The sampling ratio is a rational number: [int(ratio * n)] is computed
      on the exact product (binary rounding of the product is not modelled).
    - [data_utils] (load_region_df, load_data, random_crop,
      crop_revcomp_augment) is imported by dataset.py but its source is not
      at hand: these functions are the fields of the class [DataUtils].
    - [DataFrame.sample] without a random state draws from numpy's global
      generator, like [np.random.choice].
    - [median_count] (pyBigWig, get_cts) and the torch data loaders are not
      modelled. *)

From Stdlib Require Import ZArith QArith Qround.
From stdpp Require Import base tactics option list numbers strings gmap.

Set Default Proof Using "Type*".
Local Open Scope string_scope.
Local Open Scope Z_scope.

(* ===================================================================== *)
(** ** Exceptions and the state-and-exception monad                       *)
(* ===================================================================== *)

Inductive exn : Type :=
| ValueError (msg : string)
| IndexError (index size : Z)
| TypeError (msg : string)
| AttributeError (attr : string)
| ExternalError (origin : string).

Inductive result (A : Type) : Type :=
| Ok (a : A)
| Raise (e : exn).
Arguments Ok {A} a.
Arguments Raise {A} e.

Definition SE (S A : Type) : Type := S → result A * S.

Definition se_ret {S A} (a : A) : SE S A := λ s, (Ok a, s).

Definition se_raise {S A} (e : exn) : SE S A := λ s, (Raise e, s).

Definition se_bind {S A B} (m : SE S A) (k : A → SE S B) : SE S B :=
  λ s, match m s with
       | (Ok a, s') => k a s'
       | (Raise e, s') => (Raise e, s')
       end.

Definition se_get {S} : SE S S := λ s, (Ok s, s).

Definition se_modify {S} (f : S → S) : SE S unit := λ s, (Ok tt, f s).

Definition se_of_result {S A} (r : result A) : SE S A := λ s, (r, s).

(** Run a computation on the second component of the state. *)
Definition se_snd {S T A} (m : SE T A) : SE (S * T) A :=
  λ '(s, t), let '(r, t') := m t in (r, (s, t')).

Notation "x <- m ;; k" := (se_bind m (λ x, k))
  (at level 100, m at next level, right associativity).
Notation "m ;;; k" := (se_bind m (λ _, k))
  (at level 100, right associativity).

(* ===================================================================== *)
(** ** numpy: arrays, indexing, stacking                                  *)
(* ===================================================================== *)

(** An array of shape [(length rows, tail_shape...)]. *)
Record ndarray (R : Type) : Type := NdArray {
  tail_shape : list nat;
  rows : list R
}.
Arguments NdArray {R} tail_shape rows.
Arguments tail_shape {R} _.
Arguments rows {R} _.

(** [len(a)] *)
Definition len {R} (a : ndarray R) : Z := Z.of_nat (length (rows a)).

(** [a[idx]] for an integer [idx]: negative indices count from the end;
    outside [-len(a), len(a))] numpy raises IndexError. *)
Definition ndarray_getitem {R} (a : ndarray R) (idx : Z) : result R :=
  let n := len a in
  if (idx <? - n) || (n <=? idx) then Raise (IndexError idx n)
  else
    let i := if idx <? 0 then idx + n else idx in
    match rows a !! Z.to_nat i with
    | Some r => Ok r
    | None => Raise (IndexError idx n)
    end.

(** [a[indices]] for an array of non-negative integer indices: a new array
    holding the selected rows; IndexError (for the first index out of
    bounds) when there is one. *)
Definition ndarray_take {R} (a : ndarray R) (indices : list nat)
  : result (ndarray R) :=
  match mapM (λ i, rows a !! i) indices with
  | Some rs => Ok (NdArray (tail_shape a) rs)
  | None =>
      let beyond := List.filter (λ i, length (rows a) <=? i)%nat indices in
      Raise (IndexError (Z.of_nat (default 0%nat (head beyond))) (len a))
  end.

(** [np.vstack([a, b])] for arrays of two or more dimensions: the rows of
    [a] followed by those of [b]; the trailing shapes must agree. *)
Definition shape_mismatch : exn :=
  ValueError
    "all the input array dimensions except for the concatenation axis must match exactly".

Definition vstack {R} (a b : ndarray R) : result (ndarray R) :=
  if decide (tail_shape a = tail_shape b)
  then Ok (NdArray (tail_shape a) (rows a ++ rows b))
  else Raise shape_mismatch.

Global Arguments vstack : simpl never.

(** [m.transpose()] of a two-dimensional array with [ncols] columns. *)
Fixpoint transpose {A} (ncols : nat) (m : list (list A)) : list (list A) :=
  match m with
  | [] => replicate ncols []
  | r :: m' => zip_with cons r (transpose ncols m')
  end.

(** Python's [int(x)]: truncation toward zero. *)
Definition py_int (x : Q) : Z := Z.quot (Qnum x) (Z.pos (Qden x)).

(* ===================================================================== *)
(** ** numpy.random: the global generator                                 *)
(* ===================================================================== *)

(** The state of [np.random] and its bounded draw: [random_interval m]
    returns an integer in [0, m]. *)
Class NumpyRandom : Type := {
  rng : Type;
  random_interval : nat → rng → nat * rng;
  random_interval_le : ∀ m g, ((random_interval m g).1 <= m)%nat
}.

Section numpy_random.
Context `{NumpyRandom}.

(** [x[i], x[j] = x[j], x[i]] *)
Definition swap {A} (x : list A) (i j : nat) : list A :=
  match x !! i, x !! j with
  | Some a, Some b => <[j:=a]> (<[i:=b]> x)
  | _, _ => x
  end.

(** The loop of [shuffle]:
    [for i in reversed(range(1, n)): j = random_interval(i); swap]. *)
Fixpoint shuffle_loop {A} (i : nat) (x : list A) (g : rng) : list A * rng :=
  match i with
  | O => (x, g)
  | S i' =>
      let '(j, g1) := random_interval i g in
      shuffle_loop i' (swap x i j) g1
  end.

Definition shuffle {A} (x : list A) (g : rng) : list A * rng :=
  shuffle_loop (length x - 1)%nat x g.

(** [np.random.permutation(n)]: shuffle [arange(n)]. *)
Definition permutation (n : nat) (g : rng) : list nat * rng :=
  shuffle (seq 0 n) g.

(** [np.random.choice(a, size=size, replace=False)] for an integer [a]. *)
Definition choice (a size : Z) : SE rng (list nat) :=
  if (a <=? 0) && negb (size =? 0)
  then se_raise (ValueError "a must be greater than 0 unless no samples are taken")
  else if a <? size
  then se_raise (ValueError "Cannot take a larger sample than population when 'replace=False'")
  else if size <? 0
  then se_raise (ValueError "negative dimensions are not allowed")
  else λ g, let '(p, g') := permutation (Z.to_nat a) g in
            (Ok (take (Z.to_nat size) p), g').
End numpy_random.

(* ===================================================================== *)
(** ** pandas: region frames                                              *)
(* ===================================================================== *)

(** A cell of the [is_peak] column: pandas holds it as a bool or as an
    integer, which is why the code coerces it. *)
Inductive cell : Type :=
| CBool (b : bool)
| CInt (z : Z).

(** One row of a region frame: column 0 is the chromosome, [is_peak] is
    read by name, the other columns are not interpreted by dataset.py. *)
Record Region : Type := {
  chrom : string;
  other : list Z;
  is_peak : cell
}.

Definition DataFrame : Type := list Region.

Global Instance cell_eq_dec : EqDecision cell.
Proof. solve_decision. Defined.

Global Instance Region_eq_dec : EqDecision Region.
Proof. solve_decision. Defined.

(** [series.astype(int)] then [.astype(bool)], cell by cell. *)
Definition astype_int (c : cell) : Z :=
  match c with
  | CBool b => if b then 1 else 0
  | CInt z => z
  end.

Definition astype_bool (z : Z) : bool := negb (z =? 0).

(** [df[df.iloc[:, 0].isin(chroms)].reset_index(drop=True)] *)
Definition isin (chroms : list string) (r : Region) : bool :=
  bool_decide (chrom r ∈ chroms).

Definition select_chroms (df : DataFrame) (chroms : list string) : DataFrame :=
  List.filter (isin chroms) df.

(** [pd.concat(objs, ignore_index=True)]: None entries are dropped; it is
    an error to pass no frame at all. *)
Definition pd_concat (objs : list (option DataFrame)) : result DataFrame :=
  match objs with
  | [] => Raise (ValueError "No objects to concatenate")
  | _ =>
      match omap id objs with
      | [] => Raise (ValueError "All objects passed were None")
      | frames => Ok (concat frames)
      end
  end.

(** [df.sample(n=n, random_state=seed)]: a seeded draw, which does not touch
    numpy's global generator. *)
Class Pandas : Type := {
  DataFrame_sample : DataFrame → Z → Z → result DataFrame
}.

(** [split_peak_and_nonpeak(data)].  The first statement assigns to a column
    of the frame it was given, so the frame is the state of the call. *)
Definition coerce_is_peak (r : Region) : Region :=
  {| chrom := chrom r; other := other r;
     is_peak := CBool (astype_bool (astype_int (is_peak r))) |}.

Definition is_peak_mask (r : Region) : bool :=
  match is_peak r with
  | CBool b => b
  | CInt z => astype_bool z
  end.

Definition split_peak_and_nonpeak : SE DataFrame (DataFrame * DataFrame) :=
  se_modify (map coerce_is_peak) ;;;
  data <- se_get ;;
  let non_peaks := List.filter (λ r, negb (is_peak_mask r)) data in
  let peaks := List.filter is_peak_mask data in
  se_ret (peaks, non_peaks).

(* ===================================================================== *)
(** ** data_utils and element types                                       *)
(* ===================================================================== *)

(** Element types of the arrays: [num] is what the arrays hold, [float32]
    what [astype(np.float32)] produces; [coord] is one row of a
    coordinate array. *)
Class Dtypes : Type := {
  num : Type;
  float32 : Type;
  coord : Type;
  astype_float32 : num → float32
}.

Section array_types.
Context `{Dtypes}.
(** one-hot windows, shape (n, length, 4) *)
Definition seqs_array : Type := ndarray (list (list num)).
(** count profiles, shape (n, length) *)
Definition cts_array : Type := ndarray (list num).
Definition coords_array : Type := ndarray coord.
Definition arrays : Type := (seqs_array * cts_array * coords_array)%type.
End array_types.

(** Modelled from the spec: the functions dataset.py imports from
    [.data_utils], whose source is not at hand.  The spec (4.3) has the
    extraction a pure function of its inputs and (4.5) has all randomness
    driven by a single random source: [load_region_df] and [load_data] are
    functions of their arguments, [random_crop] and [crop_revcomp_augment]
    are functions of their arguments and of the state of numpy's global
    generator, and all of them return new objects.  [None] is an exception
    raised inside the function; the caller sees it as
    [ExternalError name]. *)
Class DataUtils `{NumpyRandom} `{Dtypes} : Type := {
  load_region_df :
    string → string → Z → Z → bool → option DataFrame;
  load_data :
    option DataFrame → option DataFrame → string → string → Z → Z → Z →
    option (option seqs_array * option cts_array * option coords_array *
            option seqs_array * option cts_array * option coords_array);
  random_crop :
    seqs_array → cts_array → Z → Z → coords_array →
    rng → option arrays * rng;
  crop_revcomp_augment :
    seqs_array → cts_array → coords_array → Z → Z → bool → bool →
    rng → option arrays * rng
}.

(** A call into [data_utils]. *)
Definition external {A} (name : string) (r : option A) : result A :=
  match r with
  | Some a => Ok a
  | None => Raise (ExternalError name)
  end.

Definition external_random {S A} (name : string) (f : S → option A * S)
  : SE S A :=
  λ s, let '(r, s') := f s in (external name r, s').

(* ===================================================================== *)
(** ** subsample_nonpeak_data                                             *)
(* ===================================================================== *)

Section subsample.
Context `{NumpyRandom} `{Dtypes}.

Definition subsample_nonpeak_data
    (nonpeak_seqs : seqs_array) (nonpeak_cts : cts_array)
    (nonpeak_coords : coords_array)
    (peak_data_size : Z) (negative_sampling_ratio : Q) : SE rng arrays :=
  let num_nonpeak_samples :=
    py_int (negative_sampling_ratio * inject_Z peak_data_size) in
  nonpeak_indices_to_keep <-
    choice (len nonpeak_seqs)
           (Z.min num_nonpeak_samples (len nonpeak_seqs)) ;;
  nonpeak_seqs' <- se_of_result (ndarray_take nonpeak_seqs nonpeak_indices_to_keep) ;;
  nonpeak_cts' <- se_of_result (ndarray_take nonpeak_cts nonpeak_indices_to_keep) ;;
  nonpeak_coords' <- se_of_result (ndarray_take nonpeak_coords nonpeak_indices_to_keep) ;;
  se_ret (nonpeak_seqs', nonpeak_cts', nonpeak_coords').
End subsample.

(* ===================================================================== *)
(** ** class ChromBPNetDataset                                            *)
(* ===================================================================== *)

Module ChromBPNetDataset.
Section methods.
Context `{DataUtils}.

(** The attributes assigned by [crop_revcomp_data]; [None] is an
    attribute that has not been assigned yet (or was assigned None). *)
Record cache : Type := {
  sampled_nonpeak_seqs : option seqs_array;
  sampled_nonpeak_cts : option cts_array;
  sampled_nonpeak_coords : option coords_array;
  seqs : option seqs_array;
  cts : option cts_array;
  coords : option coords_array;
  cur_seqs : option seqs_array;
  cur_cts : option cts_array;
  cur_coords : option coords_array
}.

(** The object: the attributes stored by [__init__], then the cache. *)
Record t : Type := {
  peak_seqs : option seqs_array;
  nonpeak_seqs : option seqs_array;
  peak_cts : option cts_array;
  nonpeak_cts : option cts_array;
  peak_coords : option coords_array;
  nonpeak_coords : option coords_array;
  negative_sampling_ratio : Q;
  inputlen : Z;
  outputlen : Z;
  batch_size : Z;
  add_revcomp : bool;
  return_coords : bool;
  shuffle_at_epoch_start : bool;
  regions : DataFrame;
  attrs : cache
}.

Definition no_cache : cache :=
  {| sampled_nonpeak_seqs := None; sampled_nonpeak_cts := None;
     sampled_nonpeak_coords := None; seqs := None; cts := None;
     coords := None; cur_seqs := None; cur_cts := None;
     cur_coords := None |}.

Definition with_attrs (f : cache → cache) (self : t) : t :=
  {| peak_seqs := peak_seqs self; nonpeak_seqs := nonpeak_seqs self;
     peak_cts := peak_cts self; nonpeak_cts := nonpeak_cts self;
     peak_coords := peak_coords self; nonpeak_coords := nonpeak_coords self;
     negative_sampling_ratio := negative_sampling_ratio self;
     inputlen := inputlen self; outputlen := outputlen self;
     batch_size := batch_size self; add_revcomp := add_revcomp self;
     return_coords := return_coords self;
     shuffle_at_epoch_start := shuffle_at_epoch_start self;
     regions := regions self; attrs := f (attrs self) |}.

Definition set_sampled_nonpeak (v : arrays) (c : cache) : cache :=
  {| sampled_nonpeak_seqs := Some v.1.1; sampled_nonpeak_cts := Some v.1.2;
     sampled_nonpeak_coords := Some v.2;
     seqs := seqs c; cts := cts c; coords := coords c;
     cur_seqs := cur_seqs c; cur_cts := cur_cts c;
     cur_coords := cur_coords c |}.

Definition set_seqs (v : option seqs_array) (c : cache) : cache :=
  {| sampled_nonpeak_seqs := sampled_nonpeak_seqs c;
     sampled_nonpeak_cts := sampled_nonpeak_cts c;
     sampled_nonpeak_coords := sampled_nonpeak_coords c;
     seqs := v; cts := cts c; coords := coords c;
     cur_seqs := cur_seqs c; cur_cts := cur_cts c;
     cur_coords := cur_coords c |}.

Definition set_cts (v : option cts_array) (c : cache) : cache :=
  {| sampled_nonpeak_seqs := sampled_nonpeak_seqs c;
     sampled_nonpeak_cts := sampled_nonpeak_cts c;
     sampled_nonpeak_coords := sampled_nonpeak_coords c;
     seqs := seqs c; cts := v; coords := coords c;
     cur_seqs := cur_seqs c; cur_cts := cur_cts c;
     cur_coords := cur_coords c |}.

Definition set_coords (v : option coords_array) (c : cache) : cache :=
  {| sampled_nonpeak_seqs := sampled_nonpeak_seqs c;
     sampled_nonpeak_cts := sampled_nonpeak_cts c;
     sampled_nonpeak_coords := sampled_nonpeak_coords c;
     seqs := seqs c; cts := cts c; coords := v;
     cur_seqs := cur_seqs c; cur_cts := cur_cts c;
     cur_coords := cur_coords c |}.

Definition set_cur (v : arrays) (c : cache) : cache :=
  {| sampled_nonpeak_seqs := sampled_nonpeak_seqs c;
     sampled_nonpeak_cts := sampled_nonpeak_cts c;
     sampled_nonpeak_coords := sampled_nonpeak_coords c;
     seqs := seqs c; cts := cts c; coords := coords c;
     cur_seqs := Some v.1.1; cur_cts := Some v.1.2;
     cur_coords := Some v.2 |}.

(** Methods run on the object and numpy's global generator. *)
Definition M (A : Type) : Type := SE (t * rng) A.

(** [self], and an assignment [self.attr = v]. *)
Definition self_ : M t := λ w, (Ok w.1, w).

Definition setattr (f : cache → cache) : M unit :=
  λ w, (Ok tt, (with_attrs f w.1, w.2)).

(** A call that draws from [np.random]. *)
Definition np_random {A} (m : SE rng A) : M A := se_snd m.

(** An argument that must be an array: a None there makes the callee
    raise at its first use; the model raises TypeError. *)
Definition array {A} (o : option A) : M A :=
  match o with
  | Some a => se_ret a
  | None => se_raise (TypeError "'NoneType' object where an array is needed")
  end.

(** Reading an attribute that [crop_revcomp_data] has not assigned yet. *)
Definition getattr {A} (name : string) (o : option A) : M A :=
  match o with
  | Some a => se_ret a
  | None => se_raise (AttributeError name)
  end.

(** The three [np.vstack([cropped_..., ...])] assignments to [self.seqs],
    [self.cts] and [self.coords], which the two branches of the sampling test
    share. *)
Definition stack_peaks_and (cropped : arrays)
    (nseqs : option seqs_array) (ncts : option cts_array)
    (ncoords : option coords_array) : M unit :=
  nseqs <- array nseqs ;;
  v <- se_of_result (vstack cropped.1.1 nseqs) ;;
  setattr (set_seqs (Some v)) ;;;
  ncts <- array ncts ;;
  v <- se_of_result (vstack cropped.1.2 ncts) ;;
  setattr (set_cts (Some v)) ;;;
  ncoords <- array ncoords ;;
  v <- se_of_result (vstack cropped.2 ncoords) ;;
  setattr (set_coords (Some v)).

(** [random_crop(self.peak_seqs, self.peak_cts, self.inputlen,
    self.outputlen, self.peak_coords)], which two branches share. *)
Definition crop_peaks (pseqs : seqs_array) : M arrays :=
  self <- self_ ;;
  pcts <- array (peak_cts self) ;;
  pcoords <- array (peak_coords self) ;;
  np_random
    (external_random "random_crop"
       (random_crop pseqs pcts (inputlen self) (outputlen self) pcoords)).

Definition crop_revcomp_data : M unit :=
  self <- self_ ;;
  (match peak_seqs self, nonpeak_seqs self return M unit with
  | Some pseqs, Some nseqs =>
      (* Crop peak data *)
      cropped <- crop_peaks pseqs ;;
      (* Sample negative examples *)
      if Qlt_le_dec 0 (negative_sampling_ratio self) then
        ncts <- array (nonpeak_cts self) ;;
        ncoords <- array (nonpeak_coords self) ;;
        sampled <- np_random
          (subsample_nonpeak_data nseqs ncts ncoords (len pseqs)
             (negative_sampling_ratio self)) ;;
        setattr (set_sampled_nonpeak sampled) ;;;
        stack_peaks_and cropped
          (Some sampled.1.1) (Some sampled.1.2) (Some sampled.2)
      else
        stack_peaks_and cropped
          (Some nseqs) (nonpeak_cts self) (nonpeak_coords self)
  | Some pseqs, None =>
      (* Only peak data *)
      cropped <- crop_peaks pseqs ;;
      setattr (set_seqs (Some cropped.1.1)) ;;;
      setattr (set_cts (Some cropped.1.2)) ;;;
      setattr (set_coords (Some cropped.2))
  | None, Some nseqs =>
      (* Only non-peak data *)
      setattr (set_seqs (Some nseqs)) ;;;
      setattr (set_cts (nonpeak_cts self)) ;;;
      setattr (set_coords (nonpeak_coords self))
  | None, None =>
      se_raise (ValueError "Both peak and non-peak arrays are empty")
  end) ;;;
  (* Apply augmentation *)
  self <- self_ ;;
  s <- array (seqs (attrs self)) ;;
  c <- array (cts (attrs self)) ;;
  co <- array (coords (attrs self)) ;;
  cur <- np_random
    (external_random "crop_revcomp_augment"
       (crop_revcomp_augment s c co (inputlen self) (outputlen self)
          (add_revcomp self) (shuffle_at_epoch_start self))) ;;
  setattr (set_cur cur).

Definition __init__
    (peak_regions nonpeak_regions : option DataFrame)
    (genome_fasta : string) (batch_size inputlen outputlen max_jitter : Z)
    (negative_sampling_ratio : Q) (cts_bw_file : string)
    (add_revcomp return_coords shuffle_at_epoch_start : bool)
  : SE rng t :=
  (* Load data *)
  loaded <- se_of_result
    (external "load_data"
       (load_data peak_regions nonpeak_regions genome_fasta cts_bw_file
          inputlen outputlen max_jitter)) ;;
  let '(peak_seqs, peak_cts, peak_coords,
        nonpeak_seqs, nonpeak_cts, nonpeak_coords) := loaded in
  regions <- se_of_result (pd_concat [peak_regions; nonpeak_regions]) ;;
  let self :=
    {| peak_seqs := peak_seqs; nonpeak_seqs := nonpeak_seqs;
       peak_cts := peak_cts; nonpeak_cts := nonpeak_cts;
       peak_coords := peak_coords; nonpeak_coords := nonpeak_coords;
       negative_sampling_ratio := negative_sampling_ratio;
       inputlen := inputlen; outputlen := outputlen;
       batch_size := batch_size; add_revcomp := add_revcomp;
       return_coords := return_coords;
       shuffle_at_epoch_start := shuffle_at_epoch_start;
       regions := regions; attrs := no_cache |} in
  (* Initialize data *)
  λ g, match crop_revcomp_data (self, g) with
       | (Ok _, (self', g')) => (Ok self', g')
       | (Raise e, (_, g')) => (Raise e, g')
       end.

Definition __len__ : M Z :=
  self <- self_ ;;
  cur_seqs <- getattr "cur_seqs" (cur_seqs (attrs self)) ;;
  se_ret (len cur_seqs).

(** The dictionary returned by [__getitem__]. *)
Record sample : Type := {
  onehot_seq : list (list float32);
  profile : list float32
}.

Definition __getitem__ (idx : Z) : M sample :=
  self <- self_ ;;
  cur_seqs <- getattr "cur_seqs" (cur_seqs (attrs self)) ;;
  row <- se_of_result (ndarray_getitem cur_seqs idx) ;;
  let onehot :=
    transpose (default 0%nat (last (tail_shape cur_seqs)))
      (map (map astype_float32) row) in
  cur_cts <- getattr "cur_cts" (cur_cts (attrs self)) ;;
  cts_row <- se_of_result (ndarray_getitem cur_cts idx) ;;
  se_ret {| onehot_seq := onehot; profile := map astype_float32 cts_row |}.
End methods.
End ChromBPNetDataset.

(* ===================================================================== *)
(** ** class DataModule                                                   *)
(* ===================================================================== *)

(** The configuration object, with the fields dataset.py reads. *)
Module Config.
Record t : Type := {
  data_type : string;
  peaks : string;
  negatives : option string;
  background : option string;
  chrom_sizes : string;
  in_window : Z;
  out_window : Z;
  shift : Z;
  debug : bool;
  training_chroms : list string;
  validation_chroms : list string;
  test_chroms : list string;
  exclude_chroms : list string;
  fasta : string;
  bigwig : string;
  batch_size : Z;
  negative_sampling_ratio : Q
}.
End Config.

Module DataModule.
Section methods.
Context `{DataUtils} `{Pandas}.

Record t : Type := {
  config : Config.t;
  peaks : DataFrame;
  negatives : option DataFrame;
  data : DataFrame;
  background : option DataFrame;
  train_chroms : list string;
  val_chroms : list string;
  test_chroms : list string;
  chroms : list string;
  train_val : DataFrame;
  train_data : DataFrame;
  train_background : option DataFrame;
  val_data : DataFrame;
  test_data : DataFrame;
  train_dataset : option ChromBPNetDataset.t;
  val_dataset : option ChromBPNetDataset.t;
  test_dataset : option ChromBPNetDataset.t
}.

(** The object before any attribute but [config] is assigned. *)
Definition blank (config : Config.t) : t :=
  {| config := config; peaks := []; negatives := None; data := [];
     background := None; train_chroms := []; val_chroms := [];
     test_chroms := []; chroms := []; train_val := []; train_data := [];
     train_background := None; val_data := []; test_data := [];
     train_dataset := None; val_dataset := None; test_dataset := None |}.

Definition set_regions (p : DataFrame) (n : option DataFrame)
    (d : DataFrame) (self : t) : t :=
  {| config := config self; peaks := p; negatives := n; data := d;
     background := background self; train_chroms := train_chroms self;
     val_chroms := val_chroms self; test_chroms := test_chroms self;
     chroms := chroms self; train_val := train_val self;
     train_data := train_data self;
     train_background := train_background self;
     val_data := val_data self; test_data := test_data self;
     train_dataset := train_dataset self; val_dataset := val_dataset self;
     test_dataset := test_dataset self |}.

Definition set_background (b : DataFrame) (self : t) : t :=
  {| config := config self; peaks := peaks self;
     negatives := negatives self; data := data self;
     background := Some b; train_chroms := train_chroms self;
     val_chroms := val_chroms self; test_chroms := test_chroms self;
     chroms := chroms self; train_val := train_val self;
     train_data := train_data self;
     train_background := train_background self;
     val_data := val_data self; test_data := test_data self;
     train_dataset := train_dataset self; val_dataset := val_dataset self;
     test_dataset := test_dataset self |}.

Definition set_chroms (tr va te : list string) (self : t) : t :=
  {| config := config self; peaks := peaks self;
     negatives := negatives self; data := data self;
     background := background self; train_chroms := tr;
     val_chroms := va; test_chroms := te; chroms := tr ++ va ++ te;
     train_val := train_val self; train_data := train_data self;
     train_background := train_background self;
     val_data := val_data self; test_data := test_data self;
     train_dataset := train_dataset self; val_dataset := val_dataset self;
     test_dataset := test_dataset self |}.

Definition set_splits (tv tr : DataFrame) (bg : option DataFrame)
    (va te : DataFrame) (self : t) : t :=
  {| config := config self; peaks := peaks self;
     negatives := negatives self; data := data self;
     background := background self; train_chroms := train_chroms self;
     val_chroms := val_chroms self; test_chroms := test_chroms self;
     chroms := chroms self; train_val := tv; train_data := tr;
     train_background := bg; val_data := va; test_data := te;
     train_dataset := train_dataset self; val_dataset := val_dataset self;
     test_dataset := test_dataset self |}.

Definition set_datasets (tr va te : option ChromBPNetDataset.t)
    (self : t) : t :=
  {| config := config self; peaks := peaks self;
     negatives := negatives self; data := data self;
     background := background self; train_chroms := train_chroms self;
     val_chroms := val_chroms self; test_chroms := test_chroms self;
     chroms := chroms self; train_val := train_val self;
     train_data := train_data self;
     train_background := train_background self;
     val_data := val_data self; test_data := test_data self;
     train_dataset := tr; val_dataset := va; test_dataset := te |}.

Definition load (path : string) (is_peak : bool) : SE t DataFrame :=
  self <- se_get ;;
  se_of_result
    (external "load_region_df"
       (load_region_df path (Config.chrom_sizes (config self))
          (Config.in_window (config self)) (Config.shift (config self))
          is_peak)).

Definition _debug_subsample : SE t unit :=
  self <- se_get ;;
  p <- se_of_result
    (DataFrame_sample (peaks self)
       (py_int ((1 # 100) * inject_Z (Z.of_nat (length (peaks self))))) 42) ;;
  se_modify (set_regions p (negatives self) (data self)) ;;;
  match negatives self with
  | Some negs =>
      n <- se_of_result
        (DataFrame_sample negs
           (py_int ((1 # 10) * inject_Z (Z.of_nat (length p)))) 42) ;;
      se_modify (set_regions p (Some n) (data self)) ;;;
      d <- se_of_result (pd_concat [Some p; Some n]) ;;
      se_modify (set_regions p (Some n) d)
  | None => se_modify (set_regions p None p)
  end.

Definition _load_regions : SE t unit :=
  self <- se_get ;;
  p <- load (Config.peaks (config self)) true ;;
  se_modify (set_regions p (negatives self) (data self)) ;;;
  match Config.negatives (config self) with
  | Some path =>
      n <- load path false ;;
      se_modify (set_regions p (Some n) (data self)) ;;;
      d <- se_of_result (pd_concat [Some p; Some n]) ;;
      se_modify (set_regions p (Some n) d)
  | None => se_modify (set_regions p None p)
  end ;;;
  match Config.background (config self) with
  | Some path => b <- load path false ;; se_modify (set_background b)
  | None => se_ret tt
  end ;;;
  if Config.debug (config self) then _debug_subsample else se_ret tt.

(** [[i for i in chroms if i not in exclude]] *)
Definition not_excluded (exclude chroms : list string) : list string :=
  List.filter (λ i, bool_decide (i ∉ exclude)) chroms.

Definition _setup_chromosomes : SE t unit :=
  self <- se_get ;;
  let exclude := Config.exclude_chroms (config self) in
  se_modify
    (set_chroms
       (not_excluded exclude (Config.training_chroms (config self)))
       (not_excluded exclude (Config.validation_chroms (config self)))
       (not_excluded exclude (Config.test_chroms (config self)))).

Definition _split_data : SE t unit :=
  self <- se_get ;;
  let train_val := select_chroms (data self) (val_chroms self ++ train_chroms self) in
  let train_data := select_chroms (data self) (train_chroms self) in
  train <-
    match Config.background (config self) with
    | Some _ =>
        if decide (Config.data_type (config self) = "longrange") then
          (* add background to train data *)
          bg <- match background self with
                | Some b => se_ret b
                | None => se_raise (AttributeError "background")
                end ;;
          let train_background := select_chroms bg (train_chroms self) in
          d <- se_of_result (pd_concat [Some train_data; Some train_background]) ;;
          se_ret (d, Some train_background)
        else se_ret (train_data, train_background self)
    | None => se_ret (train_data, train_background self)
    end ;;
  se_modify
    (set_splits train_val train.1 train.2
       (select_chroms (data self) (val_chroms self))
       (select_chroms (data self) (test_chroms self))).

Definition __init__ (config : Config.t) : result t :=
  let body : SE t unit :=
    (* Set dataset class based on data type *)
    if decide (Config.data_type config = "profile") then
      (* Load and process data *)
      _load_regions ;;; _setup_chromosomes ;;; _split_data
    else
      se_raise (ValueError ("Invalid data type: " +:+ Config.data_type config)) in
  match body (blank config) with
  | (Ok _, self) => Ok self
  | (Raise e, _) => Raise e
  end.

(** Methods called after construction run on the object and numpy's
    global generator. *)
Definition M (A : Type) : Type := SE (t * rng) A.

(** Call a function on a frame held in an attribute: the frame is passed
    by reference, so what the callee does to it stays in the attribute. *)
Definition by_reference {A} (get : t → DataFrame)
    (set : DataFrame → t → t) (f : SE DataFrame A) : M A :=
  λ '(self, g), let '(r, d) := f (get self) in (r, (set d self, g)).

Definition set_train_data (d : DataFrame) (self : t) : t :=
  set_splits (train_val self) d (train_background self)
    (val_data self) (test_data self) self.

Definition set_val_data (d : DataFrame) (self : t) : t :=
  set_splits (train_val self) (train_data self) (train_background self)
    d (test_data self) self.

Definition set_test_data (d : DataFrame) (self : t) : t :=
  set_splits (train_val self) (train_data self) (train_background self)
    (val_data self) d self.

(** [self.dataset_class(peak_regions=..., nonpeak_regions=..., ...)] with
    the arguments that [setup] takes from the configuration; the remaining
    ones ([max_jitter], the ratio, [add_revcomp]) depend on the stage. *)
Definition new_dataset (peaks nonpeaks : DataFrame) (max_jitter : Z)
    (ratio : Q) (add_revcomp : bool) : M ChromBPNetDataset.t :=
  λ '(self, g),
    let cfg := config self in
    let '(r, g') :=
      ChromBPNetDataset.__init__ (Some peaks) (Some nonpeaks)
        (Config.fasta cfg) (Config.batch_size cfg) (Config.in_window cfg)
        (Config.out_window cfg) max_jitter ratio (Config.bigwig cfg)
        add_revcomp false false g in
    (r, (self, g')).

Definition assign (f : t → t) : M unit :=
  λ '(self, g), (Ok tt, (f self, g)).

Definition set_train_dataset (ds : ChromBPNetDataset.t) (self : t) : t :=
  set_datasets (Some ds) (val_dataset self) (test_dataset self) self.

Definition set_val_dataset (ds : ChromBPNetDataset.t) (self : t) : t :=
  set_datasets (train_dataset self) (Some ds) (test_dataset self) self.

Definition set_test_dataset (ds : ChromBPNetDataset.t) (self : t) : t :=
  set_datasets (train_dataset self) (val_dataset self) (Some ds) self.

Definition setup (stage : string) : M unit :=
  self <- (λ w, (Ok w.1, w)) ;;
  let cfg := config self in
  if decide (stage = "fit") then
    train <- by_reference train_data set_train_data split_peak_and_nonpeak ;;
    val <- by_reference val_data set_val_data split_peak_and_nonpeak ;;
    ds <- new_dataset train.1 train.2 (Config.shift cfg)
            (Config.negative_sampling_ratio cfg) true ;;
    assign (set_train_dataset ds) ;;;
    ds <- new_dataset val.1 val.2 0
            (Config.negative_sampling_ratio cfg) false ;;
    assign (set_val_dataset ds)
  else if decide (stage = "test") then
    test <- by_reference test_data set_test_data split_peak_and_nonpeak ;;
    ds <- new_dataset test.1 test.2 0 (-1) false ;;
    assign (set_test_dataset ds)
  else se_ret tt.
End methods.
End DataModule.

(* ===================================================================== *)
(** ** Sampling region frames with numpy's global generator               *)
(* ===================================================================== *)


(** Run a computation on a frame held in a local variable: what the callee
    writes to the frame is lost with the variable. *)
Definition se_local {S A} (frame : DataFrame) (m : SE DataFrame A) : SE S A :=
  λ s, ((m frame).1, s).

Section pandas_sample.
Context `{NumpyRandom}.

(** [df.take(positions)] *)
Definition DataFrame_take (df : DataFrame) (positions : list nat)
  : result DataFrame :=
  match ndarray_take (NdArray [] df) positions with
  | Ok a => Ok (rows a)
  | Raise e => Raise e
  end.

(** [df.sample(n=n, replace=False)] with no random_state: pandas rejects a
    negative [n], draws the row positions with
    [np.random.choice(len(df), size=n, replace=False)] and takes these
    rows. *)
Definition DataFrame_sample_global (df : DataFrame) (n : Z)
  : SE rng DataFrame :=
  if n <? 0 then
    se_raise
      (ValueError "A negative number of rows requested. Please provide `n` >= 0.")
  else
    sampled_indices <- choice (Z.of_nat (length df)) n ;;
    se_of_result (DataFrame_take df sampled_indices).

End pandas_sample.

(* ===================================================================== *)
(** ** DataModule.chrom_dataset                                           *)
(* ===================================================================== *)

Module DataModuleQueries.
Section methods.
Context `{DataUtils} `{Pandas}.
Import DataModule.

(** The [chrom] argument: a string, or a list of chromosome names. *)
Inductive chrom_arg : Type :=
| ChromStr (s : string)
| ChromList (l : list string).

(** The chromosomes a [chrom] argument stands for: 'train', 'val' and
    'test' name the lists of the module, 'all' their concatenation, any
    other string the chromosome of that name; a list is taken as it is. *)
Definition chromosomes_of (self : t) (chrom : chrom_arg) : list string :=
  match chrom with
  | ChromStr s =>
      if decide (s ∈ ["train"; "val"; "test"]) then
        if decide (s = "train") then train_chroms self
        else if decide (s = "val") then val_chroms self
        else test_chroms self
      else if decide (s = "all") then chroms self
      else [s]
  | ChromList l => l
  end.

Definition chrom_dataset (chrom : chrom_arg) (negative_sampling_ratio : Q)
  : M ChromBPNetDataset.t :=
  self <- (λ w, (Ok w.1, w)) ;;
  let chrom := chromosomes_of self chrom in
  let regions := select_chroms (data self) chrom in
  parts <- se_local regions split_peak_and_nonpeak ;;
  let peaks := parts.1 in
  nonpeaks <-
    (if Qlt_le_dec 0 negative_sampling_ratio then
       if Qlt_le_dec (inject_Z (Z.of_nat (length peaks)) * negative_sampling_ratio)
                     (inject_Z (Z.of_nat (length parts.2)))
       then
         nonpeaks <- se_snd
           (DataFrame_sample_global parts.2
              (py_int (negative_sampling_ratio
                       * inject_Z (Z.of_nat (length peaks))))) ;;
         regions <- se_of_result (pd_concat [Some peaks; Some nonpeaks]) ;;
         se_ret nonpeaks
       else se_ret parts.2
     else se_ret parts.2) ;;
  new_dataset peaks nonpeaks 0 (-1) false.
End methods.
End DataModuleQueries.

(* ===================================================================== *)
(** ** chrombpnet.logger: create_logger                                   *)
(* ===================================================================== *)

(** A shallow embedding of [src/chrombpnet/logger.py] over the part of
    Python's [logging] that it uses: the root logger and the dictionary of
    named loggers, the handler list of a logger, and the opening of a log
    file.  Handlers are objects: [ident] is the identity of a handler, by
    which Python compares them. *)
Module logger.

Definition NOTSET : Z := 0.
Definition DEBUG : Z := 10.
Definition INFO : Z := 20.

Inductive Stream : Type :=
| Stderr
| FileStream (path : string).

Record Handler : Type := {
  ident : nat;
  stream : Stream;
  handler_level : Z;
  formatter : option string
}.

Record Logger : Type := {
  level : Z;
  handlers : list Handler
}.

(** What [logging.getLogger] returns: the root logger or an entry of the
    logger dictionary. *)
Inductive logger_ref : Type :=
| Root
| Named (name : string).

(** The file system as far as [open(path, 'w')] is concerned: opening
    creates or truncates the file, or fails (OSError). *)
Class FileSystem : Type := {
  fs : Type;
  open_w : string → fs → option fs
}.

Section methods.
Context `{FileSystem}.

(** The state of the [logging] module, the number of handler objects
    created so far, and the file system. *)
Record world : Type := {
  root : Logger;
  loggerDict : gmap string Logger;
  created : nat;
  files : fs
}.

(** [logging.getLogger(name)]: an empty name and the name of the root
    logger give the root logger; a name that is not in the dictionary yet
    gets a new logger there. *)
Definition new_logger : Logger := {| level := NOTSET; handlers := [] |}.

Definition getLogger (name : string) : SE world logger_ref :=
  if decide (name = "") then se_ret Root
  else if decide (name = "root") then se_ret Root
  else
    se_modify (λ w,
      {| root := root w;
         loggerDict :=
           match loggerDict w !! name with
           | Some _ => loggerDict w
           | None => <[name:=new_logger]> (loggerDict w)
           end;
         created := created w; files := files w |}) ;;;
    se_ret (Named name).

(** The object behind a reference, and a method call that changes it. *)
Definition deref (r : logger_ref) (w : world) : Logger :=
  match r with
  | Root => root w
  | Named name => default new_logger (loggerDict w !! name)
  end.

Definition call (r : logger_ref) (method : Logger → Logger) : SE world unit :=
  se_modify (λ w,
    match r with
    | Root =>
        {| root := method (root w); loggerDict := loggerDict w;
           created := created w; files := files w |}
    | Named name =>
        {| root := root w;
           loggerDict := <[name:=method (deref r w)]> (loggerDict w);
           created := created w; files := files w |}
    end).

(** [logger.setLevel(level)] for an integer level. *)
Definition setLevel (lv : Z) (l : Logger) : Logger :=
  {| level := lv; handlers := handlers l |}.

(** [self.handlers.remove(hdlr)]: the first entry that is [hdlr] goes. *)
Fixpoint list_remove (hdlr : Handler) (hs : list Handler) : list Handler :=
  match hs with
  | [] => []
  | h :: hs' =>
      if decide (ident h = ident hdlr) then hs'
      else h :: list_remove hdlr hs'
  end.

(** [logger.removeHandler(hdlr)]:
    [if hdlr in self.handlers: self.handlers.remove(hdlr)] *)
Definition removeHandler (hdlr : Handler) (l : Logger) : Logger :=
  {| level := level l; handlers := list_remove hdlr (handlers l) |}.

(** [logger.addHandler(hdlr)]:
    [if not (hdlr in self.handlers): self.handlers.append(hdlr)] *)
Definition addHandler (hdlr : Handler) (l : Logger) : Logger :=
  if decide (ident hdlr ∈ map ident (handlers l)) then l
  else {| level := level l; handlers := handlers l ++ [hdlr] |}.

(** [for h in logger.handlers: logger.removeHandler(h)].  The iterator of a
    Python list holds a position [i] into the list object, which the body
    shrinks; the loop ends when [i] is past the end of the list.  Every turn
    removes an entry, so [fuel = len(logger.handlers)] turns are enough. *)
Fixpoint remove_loop (fuel i : nat) (l : Logger) : Logger :=
  match fuel with
  | O => l
  | S fuel' =>
      match handlers l !! i with
      | Some h => remove_loop fuel' (S i) (removeHandler h l)
      | None => l
      end
  end.

Definition remove_handlers (l : Logger) : Logger :=
  remove_loop (length (handlers l)) 0 l.

(** A new handler object: [logging.StreamHandler()] writes to sys.stderr,
    [logging.FileHandler(path, mode='w')] opens the file first. *)
Definition new_handler (s : Stream) : SE world Handler :=
  λ w, (Ok {| ident := created w; stream := s; handler_level := NOTSET;
              formatter := None |},
        {| root := root w; loggerDict := loggerDict w;
           created := S (created w); files := files w |}).

Definition StreamHandler : SE world Handler := new_handler Stderr.

Definition FileHandler (path : string) : SE world Handler :=
  (λ w, match open_w path (files w) with
        | Some files' =>
            (Ok tt, {| root := root w; loggerDict := loggerDict w;
                       created := created w; files := files' |})
        | None => (Raise (ExternalError "open"), w)
        end) ;;;
  new_handler (FileStream path).

Definition handler_setLevel (lv : Z) (h : Handler) : Handler :=
  {| ident := ident h; stream := stream h; handler_level := lv;
     formatter := formatter h |}.

Definition setFormatter (fmt : string) (h : Handler) : Handler :=
  {| ident := ident h; stream := stream h; handler_level := handler_level h;
     formatter := Some fmt |}.

(** The truth value of the [fh] argument: False, or a path, which counts
    as true unless it is the empty string. *)
Definition log_file (fh : option string) : option string :=
  match fh with
  | Some path => if decide (path = "") then None else Some path
  | None => None
  end.

Definition create_logger (name : string) (ch : bool) (fh : option string)
    (levelname : Z) (overwrite : bool) : SE world logger_ref :=
  logger <- getLogger name ;;
  call logger (setLevel levelname) ;;;
  (if overwrite then call logger remove_handlers else se_ret tt) ;;;
  let formatter := "%(asctime)s - %(name)s - %(levelname)s - %(message)s" in
  (* handler *)
  (if ch then
     ch <- StreamHandler ;;
     let ch := handler_setLevel INFO ch in
     let ch := setFormatter formatter ch in
     call logger (addHandler ch)
   else se_ret tt) ;;;
  match log_file fh with
  | Some path =>
      fh <- FileHandler path ;;
      let fh := handler_setLevel DEBUG fh in
      let fh := setFormatter formatter fh in
      call logger (addHandler fh)
  | None => se_ret tt
  end ;;;
  se_ret logger.
End methods.
End logger.

(* ===================================================================== *)
(** ** Vocabulary of the statements                                       *)
(* ===================================================================== *)

Section dataset_vocabulary.
Context `{DataUtils}.
Import ChromBPNetDataset.

(** The source arrays of the object. *)
Definition sources (self : t) :=
  (peak_seqs self, peak_cts self, peak_coords self,
   nonpeak_seqs self, nonpeak_cts self, nonpeak_coords self).

(** The arrays a successful call assigns. *)
Definition materialized (self : t) :=
  (seqs (attrs self), cts (attrs self), coords (attrs self),
   cur_seqs (attrs self), cur_cts (attrs self), cur_coords (attrs self)).



(** The object [__init__] builds before it calls [crop_revcomp_data]. *)
Definition fresh_object
    (loaded : option seqs_array * option cts_array * option coords_array *
              option seqs_array * option cts_array * option coords_array)
    (batch_size inputlen outputlen : Z) (ratio : Q)
    (add_revcomp return_coords shuffle : bool) (regions : DataFrame) : t :=
  let '(ps, pc, pco, ns, nc, nco) := loaded in
  {| peak_seqs := ps; nonpeak_seqs := ns; peak_cts := pc;
     nonpeak_cts := nc; peak_coords := pco; nonpeak_coords := nco;
     negative_sampling_ratio := ratio; inputlen := inputlen;
     outputlen := outputlen; batch_size := batch_size;
     add_revcomp := add_revcomp; return_coords := return_coords;
     shuffle_at_epoch_start := shuffle; regions := regions;
     attrs := no_cache |}.

End dataset_vocabulary.

Section datamodule_vocabulary.
Context `{DataUtils} `{Pandas}.
Import DataModule.

(** 1 when the proposition holds, 0 otherwise. *)
Definition indicator (P : Prop) `{Decision P} : nat :=
  if decide P then 1%nat else 0%nat.

(** In how many of the three splits a region appears, and how many of the
    three configured lists name a chromosome. *)
Definition outputs_holding (dm : t) (r : Region) : nat :=
  (indicator (r ∈ train_data dm) + indicator (r ∈ val_data dm)
   + indicator (r ∈ test_data dm))%nat.

Definition lists_naming (cfg : Config.t) (c : string) : nat :=
  (indicator (c ∈ Config.training_chroms cfg)
   + indicator (c ∈ Config.validation_chroms cfg)
   + indicator (c ∈ Config.test_chroms cfg))%nat.

(** The claim C4 as it is worded: after the split every region on an
    excluded chromosome is in no output and every other region is in
    exactly one. *)
Definition split_is_a_partition (cfg : Config.t) (dm : t) : Prop :=
  ∀ r, r ∈ data dm →
    (chrom r ∈ Config.exclude_chroms cfg → outputs_holding dm r = 0%nat)
    ∧ (chrom r ∉ Config.exclude_chroms cfg → outputs_holding dm r = 1%nat).

(** The claim C5 as it is worded: chromosome lists that overlap after
    exclusion make the construction fail with a configuration error. *)
Definition share_a_chromosome (a b : list string) : Prop :=
  ∃ c, c ∈ a ∧ c ∈ b.


(** The claim C9 as it is worded, for the partitioning function: the
    frame passed to it is afterwards what it was before. *)
Definition split_leaves_input_unchanged (data : DataFrame) : Prop :=
  (split_peak_and_nonpeak data).2 = data.

(** What [setup] leaves in a split that it partitions. *)
Definition after_split (partitioned : bool) (df : DataFrame) : DataFrame :=
  if partitioned then map coerce_is_peak df else df.

End datamodule_vocabulary.

(** ** Vocabulary of the further properties *)

(** How many of [N] non-peaks the subsampling of a frame keeps next to [P]
    peaks: [min(floor(r * P), N)] for a ratio [r > 0], all of them
    otherwise. *)
Definition negatives_kept (r : Q) (P N : nat) : Z :=
  if Qlt_le_dec 0 r
  then Z.min (Qfloor (r * inject_Z (Z.of_nat P))) (Z.of_nat N)
  else Z.of_nat N.

(** The entries at positions 1, 3, 5, ... of a list. *)
Fixpoint odd_positions {A} (l : list A) : list A :=
  match l with
  | _ :: x :: l' => x :: odd_positions l'
  | _ => []
  end.


Section logger_vocabulary.
Context `{logger.FileSystem}.
Import logger.

(** The logger that a name stands for. *)
Definition logger_of (name : string) : logger_ref :=
  if decide (name = "") then Root
  else if decide (name = "root") then Root
  else Named name.

(** The handlers of a logger are distinct objects that exist already. *)
Definition handlers_ok (r : logger_ref) (w : world) : Prop :=
  NoDup (map ident (handlers (deref r w)))
  ∧ Forall (λ h, (ident h < created w)%nat) (handlers (deref r w)).

(** The handlers that [create_logger] makes. *)
Definition log_format : string :=
  "%(asctime)s - %(name)s - %(levelname)s - %(message)s".

Definition stream_handler (id : nat) : Handler :=
  {| ident := id; stream := Stderr; handler_level := INFO;
     formatter := Some log_format |}.

Definition file_handler (id : nat) (path : string) : Handler :=
  {| ident := id; stream := FileStream path; handler_level := DEBUG;
     formatter := Some log_format |}.

Definition stream_part (ch : bool) (id : nat) : list Handler :=
  if ch then [stream_handler id] else [].

(** Every logger but [r] is in [w'] what it was in [w]. *)
Definition same_but (r : logger_ref) (w w' : world) : Prop :=
  ∀ r', r' ≠ r → deref r' w' = deref r' w.
End logger_vocabulary.

(* ===================================================================== *)
(** ** Concrete instances, used to run the model                          *)
(* ===================================================================== *)

Module Fixtures.
(** A linear congruential generator in the place of numpy's global
    generator; the bounded draw reduces the state modulo [m + 1]. *)
Definition lcg : NumpyRandom.
Proof.
  refine {| rng := Z;
            random_interval m g :=
              (Z.to_nat (g mod (Z.of_nat m + 1)),
               (g * 1103515245 + 12345) mod 2147483648) |}.
  intros m g; simpl.
  pose proof (Z.mod_pos_bound g (Z.of_nat m + 1)); lia.
Defined.

(** A state of that generator. *)
Definition seed (z : Z) : @rng lcg := z.

(** Arrays of integers, converted to rationals by [astype]; a coordinate
    row is (chromosome, start). *)
Definition dtypes : Dtypes :=
  {| num := Z; float32 := Q; coord := string * Z;
     astype_float32 := inject_Z |}.

(** Crop one window: [width] entries from [start]. *)
Definition window {A} (start : nat) (width : Z) (r : list A) : list A :=
  take (Z.to_nat width) (drop start r).

(** One random start per example, drawn in [0, max_start]. *)
Fixpoint crop_rows (max_start : nat) (seq_w cts_w : Z)
    (ss : list (list (list Z))) (cs : list (list Z)) (g : Z)
  : list (list (list Z)) * list (list Z) * Z :=
  match ss, cs with
  | s :: ss', c :: cs' =>
      let '(start, g1) := @random_interval lcg max_start g in
      let '(ss'', cs'', g2) := crop_rows max_start seq_w cts_w ss' cs' g1 in
      (window start seq_w s :: ss'', window start cts_w c :: cs'', g2)
  | _, _ => ([], [], g)
  end.

Definition fx_random_crop (seqs : ndarray (list (list Z)))
    (cts : ndarray (list Z)) (seq_w cts_w : Z)
    (coords : ndarray (string * Z))
  : Z → option (ndarray (list (list Z)) * ndarray (list Z)
                * ndarray (string * Z)) * Z :=
  λ g,
    let width := default 0%nat (head (tail_shape seqs)) in
    if (Z.of_nat width <? seq_w)
       || negb (length (rows seqs) =? length (rows cts))%nat
    then (None, g)
    else
      let '(ss, cs, g') :=
        crop_rows (width - Z.to_nat seq_w) seq_w cts_w
          (rows seqs) (rows cts) g in
      (Some (NdArray (Z.to_nat seq_w :: tail (tail_shape seqs)) ss,
             NdArray [Z.to_nat cts_w] cs, coords), g').

(** Reverse complement of a one-hot window and of its profile. *)
Definition revcomp (s : list (list Z)) : list (list Z) := reverse (map reverse s).

Fixpoint revcomp_rows (ss : list (list (list Z))) (cs : list (list Z)) (g : Z)
  : list (list (list Z)) * list (list Z) * Z :=
  match ss, cs with
  | s :: ss', c :: cs' =>
      let '(flip, g1) := @random_interval lcg 1 g in
      let '(ss'', cs'', g2) := revcomp_rows ss' cs' g1 in
      match flip with
      | O => (s :: ss'', c :: cs'', g2)
      | _ => (revcomp s :: ss'', reverse c :: cs'', g2)
      end
  | _, _ => ([], [], g)
  end.

Definition fx_crop_revcomp_augment (seqs : ndarray (list (list Z)))
    (cts : ndarray (list Z)) (coords : ndarray (string * Z))
    (seq_w cts_w : Z) (add_revcomp shuffle_rows : bool)
  : Z → option (ndarray (list (list Z)) * ndarray (list Z)
                * ndarray (string * Z)) * Z :=
  λ g,
    match fx_random_crop seqs cts seq_w cts_w coords g with
    | (None, g1) => (None, g1)
    | (Some (s, c, co), g1) =>
        let '(ss, cs, g2) :=
          if add_revcomp then revcomp_rows (rows s) (rows c) g1
          else (rows s, rows c, g1) in
        if shuffle_rows then
          let '(p, g3) := @permutation lcg (length ss) g2 in
          (Some (NdArray (tail_shape s) (omap (λ i, ss !! i) p),
                 NdArray (tail_shape c) (omap (λ i, cs !! i) p),
                 NdArray (tail_shape co) (omap (λ i, rows co !! i) p)), g3)
        else
          (Some (NdArray (tail_shape s) ss, NdArray (tail_shape c) cs, co),
           g2)
    end.

(** Every region yields the window A C G T A C ... of the width asked
    for (one-hot), the profile 1, 2, 3 ... and its (chromosome, 0)
    coordinate; a region set that is None yields None.  Peaks are read
    with the jitter margin on both sides, non-peaks without. *)
Definition fx_one_hot (i : nat) : list Z :=
  map (λ j, if (i mod 4 =? j)%nat then 1 else 0) (seq 0 4).

Definition fx_extract (regions : option DataFrame) (seq_w cts_w : Z)
  : option (ndarray (list (list Z))) * option (ndarray (list Z))
    * option (ndarray (string * Z)) :=
  match regions with
  | None => (None, None, None)
  | Some df =>
      (Some (NdArray [Z.to_nat seq_w; 4%nat]
               (map (λ _, map fx_one_hot (seq 0 (Z.to_nat seq_w))) df)),
       Some (NdArray [Z.to_nat cts_w]
               (map (λ _, map Z.of_nat (seq 1 (Z.to_nat cts_w))) df)),
       Some (NdArray [] (map (λ r, (chrom r, 0)) df)))
  end.

Definition fx_load_data (peak_regions nonpeak_regions : option DataFrame)
    (fasta bw : string) (inputlen outputlen max_jitter : Z) :=
  let '(ps, pc, pco) :=
    fx_extract peak_regions (inputlen + 2 * max_jitter)
      (outputlen + 2 * max_jitter) in
  let '(ns, nc, nco) := fx_extract nonpeak_regions inputlen outputlen in
  Some (ps, pc, pco, ns, nc, nco).

(** Region files: a path names its frame. *)
Definition fx_frame (name : string) (n : nat) (is_peak : bool) : DataFrame :=
  map (λ i, {| chrom := name; other := [Z.of_nat i]; is_peak := CBool is_peak |})
      (seq 0 n).

Definition fx_load_region_df (path chrom_sizes : string)
    (in_window shift : Z) (is_peak : bool) : option DataFrame :=
  if decide (path = "peaks.bed") then
    Some (fx_frame "chr1" 2 is_peak ++ fx_frame "chr2" 1 is_peak
        ++ fx_frame "chrM" 1 is_peak)%list
  else if decide (path = "negatives.bed") then
    Some (fx_frame "chr1" 3 is_peak ++ fx_frame "chr3" 1 is_peak)%list
  else None.

Definition data_utils : @DataUtils lcg dtypes :=
  @Build_DataUtils lcg dtypes
    fx_load_region_df fx_load_data fx_random_crop fx_crop_revcomp_augment.

Definition pandas : Pandas :=
  {| DataFrame_sample df n seed :=
       if (n <? 0) || (Z.of_nat (length df) <? n)
       then Raise (ValueError "Cannot take a larger sample than population when 'replace=False'")
       else Ok (take (Z.to_nat n) df) |}.

Definition fx_config : Config.t :=
  {| Config.data_type := "profile"; Config.peaks := "peaks.bed";
     Config.negatives := Some "negatives.bed"; Config.background := None;
     Config.chrom_sizes := "chrom.sizes"; Config.in_window := 4;
     Config.out_window := 2; Config.shift := 1; Config.debug := false;
     Config.training_chroms := ["chr1"]; Config.validation_chroms := ["chr2"];
     Config.test_chroms := ["chr3"]; Config.exclude_chroms := ["chrM"];
     Config.fasta := "genome.fa"; Config.bigwig := "signal.bw";
     Config.batch_size := 2; Config.negative_sampling_ratio := 1 # 2 |}.

(** The same configuration with no validation chromosome: "chr2" is then
    in no list, and not excluded. *)
Definition fx_config_unlisted : Config.t :=
  {| Config.data_type := "profile"; Config.peaks := "peaks.bed";
     Config.negatives := Some "negatives.bed"; Config.background := None;
     Config.chrom_sizes := "chrom.sizes"; Config.in_window := 4;
     Config.out_window := 2; Config.shift := 1; Config.debug := false;
     Config.training_chroms := ["chr1"]; Config.validation_chroms := [];
     Config.test_chroms := ["chr3"]; Config.exclude_chroms := ["chrM"];
     Config.fasta := "genome.fa"; Config.bigwig := "signal.bw";
     Config.batch_size := 2; Config.negative_sampling_ratio := 1 # 2 |}.


(** ** Concrete arrays, datasets and modules *)

#[local] Existing Instance lcg.
#[local] Existing Instance dtypes.
#[local] Existing Instance data_utils.
#[local] Existing Instance pandas.

(** Three non-peak examples. *)
Definition fx_nonpeak_seqs : seqs_array :=
  NdArray [2%nat; 4%nat]
    [[[1;0;0;0]; [0;1;0;0]]; [[0;0;1;0]; [0;0;0;1]]; [[0;1;0;0]; [0;1;0;0]]].
Definition fx_nonpeak_cts : cts_array := NdArray [2%nat] [[1; 2]; [3; 4]; [5; 6]].
Definition fx_nonpeak_coords : coords_array :=
  NdArray [] [("chr1", 10); ("chr1", 20); ("chr3", 30)].

(** A training dataset (ratio 1/2, reverse complement) and a test dataset
    (ratio -1) over two peaks and three non-peaks, built with the
    generator in state 7. *)
Definition fx_peaks : DataFrame := fx_frame "chr1" 2 true.
Definition fx_nonpeaks : DataFrame := fx_frame "chr1" 3 false.

Definition fx_new (ratio : Q) (add_revcomp : bool)
  : result ChromBPNetDataset.t * rng :=
  ChromBPNetDataset.__init__ (Some fx_peaks) (Some fx_nonpeaks)
    "genome.fa" 2 4 2 1 ratio "signal.bw" add_revcomp false false (seed 7).

Definition fx_unbuilt (ratio : Q) : ChromBPNetDataset.t :=
  fresh_object
    (None, None, None, None, None, None) 2 4 2 ratio false false false [].

Definition fx_train : ChromBPNetDataset.t :=
  Eval vm_compute in
  match fx_new (1 # 2) true with
  | (Ok ds, _) => ds
  | (Raise _, _) => fx_unbuilt (1 # 2)
  end.

Definition fx_test : ChromBPNetDataset.t :=
  Eval vm_compute in
  match fx_new (-1) false with
  | (Ok ds, _) => ds
  | (Raise _, _) => fx_unbuilt (-1)
  end.

Definition fx_cur_seqs : seqs_array :=
  Eval vm_compute in
  default (NdArray [] []) (ChromBPNetDataset.cur_seqs (ChromBPNetDataset.attrs fx_train)).
Definition fx_cur_cts : cts_array :=
  Eval vm_compute in
  default (NdArray [] []) (ChromBPNetDataset.cur_cts (ChromBPNetDataset.attrs fx_train)).

(** The object the test dataset is built from, and the refresh that
    built it. *)
Definition fx_test_before : ChromBPNetDataset.t :=
  Eval vm_compute in
  ChromBPNetDataset.with_attrs (λ _, ChromBPNetDataset.no_cache) fx_test.

Definition fx_test_nonpeak_seqs : seqs_array :=
  Eval vm_compute in
  default (NdArray [] []) (ChromBPNetDataset.nonpeak_seqs fx_test).
Definition fx_test_nonpeak_cts : cts_array :=
  Eval vm_compute in
  default (NdArray [] []) (ChromBPNetDataset.nonpeak_cts fx_test).
Definition fx_test_nonpeak_coords : coords_array :=
  Eval vm_compute in
  default (NdArray [] []) (ChromBPNetDataset.nonpeak_coords fx_test).

Definition fx_module (cfg : Config.t) : DataModule.t :=
  match DataModule.__init__ cfg with
  | Ok dm => dm
  | Raise _ => DataModule.blank cfg
  end.

Definition fx_region (c : string) (i : Z) (p : bool) : Region :=
  {| chrom := c; other := [i]; is_peak := CBool p |}.

(** A frame whose [is_peak] column holds an integer. *)
Definition fx_integer_frame : DataFrame :=
  [{| chrom := "chr1"; other := [100]; is_peak := CInt 1 |};
   {| chrom := "chr1"; other := [900]; is_peak := CInt 0 |}].
End Fixtures.

(* ===================================================================== *)
(** ** More concrete instances                                            *)
(* ===================================================================== *)

Module MoreFixtures.
Import Fixtures.
#[local] Existing Instance lcg.
#[local] Existing Instance dtypes.
#[local] Existing Instance data_utils.
#[local] Existing Instance pandas.

Definition fx_train_nonpeak_seqs : seqs_array :=
  Eval vm_compute in
  default (NdArray [] []) (ChromBPNetDataset.nonpeak_seqs fx_train).


(** The test dataset after it lost its non-peak coordinates: a refresh
    stacks the sequences and the counts and then raises. *)
Definition fx_broken : ChromBPNetDataset.t :=
  {| ChromBPNetDataset.peak_seqs := ChromBPNetDataset.peak_seqs fx_test;
     ChromBPNetDataset.nonpeak_seqs := ChromBPNetDataset.nonpeak_seqs fx_test;
     ChromBPNetDataset.peak_cts := ChromBPNetDataset.peak_cts fx_test;
     ChromBPNetDataset.nonpeak_cts := ChromBPNetDataset.nonpeak_cts fx_test;
     ChromBPNetDataset.peak_coords := ChromBPNetDataset.peak_coords fx_test;
     ChromBPNetDataset.nonpeak_coords := None;
     ChromBPNetDataset.negative_sampling_ratio := -1;
     ChromBPNetDataset.inputlen := 4; ChromBPNetDataset.outputlen := 2;
     ChromBPNetDataset.batch_size := 2;
     ChromBPNetDataset.add_revcomp := false;
     ChromBPNetDataset.return_coords := false;
     ChromBPNetDataset.shuffle_at_epoch_start := false;
     ChromBPNetDataset.regions := ChromBPNetDataset.regions fx_test;
     ChromBPNetDataset.attrs := ChromBPNetDataset.attrs fx_test |}.

(** A dataset of the three non-peaks alone, with the ratio 1/2, and the
    object that its first refresh started from. *)
Definition fx_negatives_only : ChromBPNetDataset.t :=
  Eval vm_compute in
  match ChromBPNetDataset.__init__ None (Some fx_nonpeaks)
          "genome.fa" 2 4 2 1 (1 # 2) "signal.bw" true false false (seed 7)
  with
  | (Ok ds, _) => ds
  | (Raise _, _) => fx_unbuilt (1 # 2)
  end.

Definition fx_negatives_only_before : ChromBPNetDataset.t :=
  Eval vm_compute in
  ChromBPNetDataset.with_attrs (λ _, ChromBPNetDataset.no_cache)
    fx_negatives_only.

(** The configuration with a background file. *)
Definition fx_config_background : Config.t :=
  {| Config.data_type := "profile"; Config.peaks := "peaks.bed";
     Config.negatives := Some "negatives.bed";
     Config.background := Some "negatives.bed";
     Config.chrom_sizes := "chrom.sizes"; Config.in_window := 4;
     Config.out_window := 2; Config.shift := 1; Config.debug := false;
     Config.training_chroms := ["chr1"]; Config.validation_chroms := ["chr2"];
     Config.test_chroms := ["chr3"]; Config.exclude_chroms := ["chrM"];
     Config.fasta := "genome.fa"; Config.bigwig := "signal.bw";
     Config.batch_size := 2; Config.negative_sampling_ratio := 1 # 2 |}.

(** The configuration with a background file that does not load. *)
Definition fx_config_missing_background : Config.t :=
  {| Config.data_type := "profile"; Config.peaks := "peaks.bed";
     Config.negatives := Some "negatives.bed";
     Config.background := Some "background.bed";
     Config.chrom_sizes := "chrom.sizes"; Config.in_window := 4;
     Config.out_window := 2; Config.shift := 1; Config.debug := false;
     Config.training_chroms := ["chr1"]; Config.validation_chroms := ["chr2"];
     Config.test_chroms := ["chr3"]; Config.exclude_chroms := ["chrM"];
     Config.fasta := "genome.fa"; Config.bigwig := "signal.bw";
     Config.batch_size := 2; Config.negative_sampling_ratio := 1 # 2 |}.

(** The configured module after [setup('test')] and after [setup('fit')],
    with the generator in state 7. *)
Definition fx_after_test : DataModule.t :=
  Eval vm_compute in (DataModule.setup "test" (fx_module fx_config, seed 7)).2.1.
Definition fx_after_fit : DataModule.t :=
  Eval vm_compute in (DataModule.setup "fit" (fx_module fx_config, seed 7)).2.1.

(** The datasets of "chr1" (ratio 1/2), of all chromosomes and of the
    excluded "chrM". *)
Definition fx_chrom_dataset (name : string) (ratio : Q)
  : ChromBPNetDataset.t :=
  match (DataModuleQueries.chrom_dataset (DataModuleQueries.ChromStr name)
           ratio (fx_module fx_config, seed 7)).1 with
  | Ok ds => ds
  | Raise _ => fx_unbuilt ratio
  end.
Definition fx_all : ChromBPNetDataset.t :=
  Eval vm_compute in fx_chrom_dataset "all" (-1).
Definition fx_chrM : ChromBPNetDataset.t :=
  Eval vm_compute in fx_chrom_dataset "chrM" (-1).

(** The dataset of the training chromosomes, asked of the module after
    [setup('fit')]. *)
Definition fx_train_regions : ChromBPNetDataset.t :=
  Eval vm_compute in
  match (DataModuleQueries.chrom_dataset (DataModuleQueries.ChromStr "train")
           (-1) (fx_after_fit, seed 11)).1 with
  | Ok ds => ds
  | Raise _ => fx_unbuilt (-1)
  end.

(** A file system that records the files opened for writing, and in which
    "logs/run.log" cannot be opened (there is no directory "logs"). *)
Definition fx_files : logger.FileSystem :=
  {| logger.fs := list string;
     logger.open_w path opened :=
       if decide (path = "logs/run.log") then None
       else Some (path :: opened) |}.

(** A state of that file system: the files opened so far. *)
Definition fx_opened (paths : list string) : @logger.fs fx_files := paths.

(** The [logging] module with three stream handlers on the root logger and
    no other logger. *)
Definition fx_world : @logger.world fx_files :=
  {| logger.root :=
       {| logger.level := 30;
          logger.handlers :=
            [stream_handler 0; stream_handler 1; stream_handler 2] |};
     logger.loggerDict := ∅; logger.created := 3;
     logger.files := fx_opened [] |}.
End MoreFixtures.

(* ===================================================================== *)
(** * Properties                                                          *)
(* ===================================================================== *)

(** ** The monad *)

(** Follow the control flow: split on the innermost scrutinee of a match of
    the goal, or reuse what an earlier split recorded about it. *)
Ltac split_scrutinee x :=
  match x with
  | context [match ?y with _ => _ end] => split_scrutinee y
  | _ =>
      match goal with
      | E : x = _ |- _ => rewrite E
      | _ => destruct x eqn:?
      end
  end.

Ltac case_step :=
  match goal with
  | |- context [match ?x with _ => _ end] => split_scrutinee x; simpl
  end.

Lemma se_bind_ok {S A B} (m : SE S A) (k : A → SE S B) s a s' :
  m s = (Ok a, s') → se_bind m k s = k a s'.
Proof. intros Hm. unfold se_bind. by rewrite Hm. Qed.

Lemma se_bind_raise {S A B} (m : SE S A) (k : A → SE S B) s e s' :
  m s = (Raise e, s') → se_bind m k s = (Raise e, s').
Proof. intros Hm. unfold se_bind. by rewrite Hm. Qed.

(** ** numpy.random: sampling without replacement *)

Section numpy_random_facts.
Context `{NumpyRandom}.

Lemma swap_Permutation {A} (x : list A) i j : swap x i j ≡ₚ x.
Proof.
  unfold swap.
  destruct (x !! i) as [a|] eqn:Hi; [|done].
  destruct (x !! j) as [b|] eqn:Hj; [|done].
  by apply Permutation_insert_swap.
Qed.

Lemma shuffle_loop_Permutation {A} i (x : list A) g :
  (shuffle_loop i x g).1 ≡ₚ x.
Proof.
  revert x g. induction i as [|i IH]; intros x g; simpl; [done|].
  destruct (random_interval (S i) g) as [j g1].
  rewrite IH. apply swap_Permutation.
Qed.

Lemma permutation_Permutation n g : (permutation n g).1 ≡ₚ seq 0 n.
Proof. apply shuffle_loop_Permutation. Qed.

(** Every swap of the shuffle is a real exchange: the position drawn is at
    most the position being filled, so both are inside the list. *)
Lemma shuffle_swap_exchanges {A} (x : list A) (i : nat) (g : rng) :
  (i < length x)%nat →
  let j := (random_interval i g).1 in
  swap x i j !! i = x !! j ∧ swap x i j !! j = x !! i.
Proof.
  intros Hi. pose proof (random_interval_le i g) as Hj.
  generalize dependent ((random_interval i g).1). intros j Hj; simpl.
  unfold swap.
  destruct (lookup_lt_is_Some_2 x i Hi) as [a Ha].
  destruct (lookup_lt_is_Some_2 x j) as [b Hb]; [lia|].
  rewrite Ha, Hb. split.
  - destruct (decide (i = j)) as [Heq|Hne].
    + subst j. rewrite list_lookup_insert_eq by (rewrite length_insert; lia).
      congruence.
    + rewrite list_lookup_insert_ne by done.
      by rewrite list_lookup_insert_eq by lia.
  - by rewrite list_lookup_insert_eq by (rewrite length_insert; lia).
Qed.

Lemma choice_ok (a size : Z) g :
  0 ≤ size ≤ a →
  ∃ idx g', choice a size g = (Ok idx, g')
    ∧ Z.of_nat (length idx) = size
    ∧ NoDup idx
    ∧ Forall (λ i, Z.of_nat i < a) idx.
Proof.
  intros [Hsize Ha]. unfold choice.
  assert ((a <=? 0) && negb (size =? 0) = false) as ->.
  { apply andb_false_iff.
    destruct (Z.leb_spec a 0); [right|by left].
    assert (size = 0) as -> by lia. done. }
  assert ((a <? size) = false) as -> by (apply Z.ltb_ge; lia).
  assert ((size <? 0) = false) as -> by (apply Z.ltb_ge; lia).
  pose proof (permutation_Permutation (Z.to_nat a) g) as Hperm.
  destruct (permutation (Z.to_nat a) g) as [p g'] eqn:Hp. simpl in Hperm.
  exists (take (Z.to_nat size) p), g'. split; [done|].
  assert (NoDup p) as Hnd by (rewrite Hperm; apply NoDup_seq).
  assert (length p = Z.to_nat a) as Hlen
    by (rewrite Hperm; apply length_seq).
  split_and!.
  - rewrite length_take. lia.
  - rewrite <-(take_drop (Z.to_nat size) p) in Hnd.
    by apply NoDup_app in Hnd as (? & _ & _).
  - apply Forall_take, Forall_forall. intros i Hi.
    rewrite Hperm in Hi. apply elem_of_seq in Hi. lia.
Qed.
End numpy_random_facts.

(** ** numpy: arrays *)

Lemma vstack_Ok_inv {R} (a b v : ndarray R) :
  vstack a b = Ok v →
  tail_shape a = tail_shape b ∧ v = NdArray (tail_shape b) (rows a ++ rows b).
Proof.
  unfold vstack. destruct (decide _) as [Heq|]; [|discriminate].
  intros [= <-]. by rewrite Heq.
Qed.


Lemma ndarray_getitem_nonneg {R} (a : ndarray R) (idx : Z) :
  0 ≤ idx < len a →
  ∃ r, rows a !! Z.to_nat idx = Some r ∧ ndarray_getitem a idx = Ok r.
Proof.
  intros Hidx. unfold ndarray_getitem, len in *.
  destruct (rows a !! Z.to_nat idx) as [r|] eqn:Hr.
  - exists r. split; [done|].
    rewrite orb_false_intro by lia.
    assert ((idx <? 0) = false) as -> by lia. by rewrite Hr.
  - apply lookup_ge_None in Hr. lia.
Qed.

Lemma ndarray_getitem_negative {R} (a : ndarray R) (idx : Z) :
  - len a ≤ idx < 0 → ndarray_getitem a idx = ndarray_getitem a (len a + idx).
Proof.
  intros Hidx.
  destruct (ndarray_getitem_nonneg a (len a + idx)) as (r & Hr & ->); [lia|].
  unfold ndarray_getitem.
  rewrite orb_false_intro by lia.
  assert ((idx <? 0) = true) as -> by lia.
  by rewrite (Z.add_comm idx), Hr.
Qed.

Lemma ndarray_getitem_out_of_range {R} (a : ndarray R) (idx : Z) :
  len a ≤ idx ∨ idx < - len a →
  ndarray_getitem a idx = Raise (IndexError idx (len a)).
Proof.
  intros Hidx. unfold ndarray_getitem.
  assert ((idx <? - len a) || (len a <=? idx) = true) as ->; [|done].
  apply orb_true_iff. lia.
Qed.

(** Entry [(j, i)] of the transpose is entry [(i, j)] of the matrix. *)
Lemma transpose_lookup {A} (ncols : nat) (m : list (list A)) i j r x :
  Forall (λ r, length r = ncols) m →
  m !! i = Some r → r !! j = Some x →
  ∃ col, transpose ncols m !! j = Some col ∧ col !! i = Some x.
Proof.
  intros Hshape. revert i. induction Hshape as [|r0 m Hr0 Hm IH]; intros i Hi Hj.
  - done.
  - destruct i as [|i]; simplify_eq/=.
    + destruct (transpose (length r) m !! j) as [col|] eqn:Hcol.
      * exists (x :: col). split; [|done].
        rewrite lookup_zip_with, Hj; simpl. by rewrite Hcol.
      * exfalso. apply lookup_ge_None in Hcol.
        apply lookup_lt_Some in Hj.
        assert (length (transpose (length r) m) = length r) as Hlen; [|lia].
        clear -Hm. induction Hm as [|r1 m Hr1 Hm IH]; simpl.
        -- by rewrite length_replicate.
        -- rewrite length_zip_with. lia.
    + destruct (IH i Hi Hj) as (col & Hcol & Hx).
      assert (is_Some (r0 !! j)) as [y Hy].
      { apply lookup_lt_is_Some. apply lookup_lt_Some in Hj.
        apply list_elem_of_lookup_2 in Hi.
        rewrite Forall_forall in Hm. rewrite (Hm _ Hi) in Hj. lia. }
      exists (y :: col). split; [|done].
      rewrite lookup_zip_with, Hy; simpl. by rewrite Hcol.
Qed.

Lemma ndarray_take_ok {R} (a : ndarray R) (idx : list nat) :
  Forall (λ i, (i < length (rows a))%nat) idx →
  ∃ rs, ndarray_take a idx = Ok (NdArray (tail_shape a) rs)
    ∧ Forall2 (λ i r, rows a !! i = Some r) idx rs.
Proof.
  intros Hidx. unfold ndarray_take.
  destruct (mapM (λ i, rows a !! i) idx) as [rs|] eqn:Hm.
  - exists rs. split; [done|]. by apply mapM_Some.
  - apply mapM_None, Exists_exists in Hm as (i & Hi & Hnone).
    rewrite Forall_forall in Hidx. apply Hidx in Hi.
    apply lookup_ge_None in Hnone. lia.
Qed.

Lemma py_int_floor (x : Q) : (0 <= x)%Q → py_int x = Qfloor x.
Proof.
  destruct x as [n d]. unfold Qle, py_int, Qfloor; simpl. intros Hn.
  apply Z.quot_div_nonneg; lia.
Qed.

(** ** subsample_nonpeak_data *)

Section subsample_facts.
Context `{NumpyRandom} `{Dtypes}.

End subsample_facts.

(** ** ChromBPNetDataset.crop_revcomp_data *)

Section dataset_facts.
Context `{DataUtils}.
Import ChromBPNetDataset.

(** Unfold the monadic code of a method down to its case analysis. *)
Ltac unfold_method :=
  unfold crop_revcomp_data, crop_peaks, stack_peaks_and, __len__,
    __getitem__, np_random, array, getattr, setattr, self_, se_snd,
    external_random, external, se_bind, se_of_result, se_ret, se_raise,
    se_get, se_modify;
  simpl.

Lemma with_attrs_id (self : t) : with_attrs (λ _, attrs self) self = self.
Proof. by destruct self. Qed.

(** What a call does, seen from the cache: whatever the cache held, the
    outcome [r] and the generator afterwards [g'] are the same, and the new
    cache is the old one overwritten by [W]; the attributes set by the
    constructor stay.  Overwriting twice is overwriting once, and a
    successful call overwrites all six materialized arrays. *)
Lemma crop_revcomp_data_overwrites (self : t) (g : rng) :
  ∃ (r : result unit) (W : cache → cache) (g' : rng),
    (∀ c, crop_revcomp_data (with_attrs (λ _, c) self, g)
          = (r, (with_attrs (λ _, W c) self, g')))
    ∧ (∀ c, W (W c) = W c)
    ∧ (∀ u, r = Ok u → ∀ c c',
         materialized (with_attrs (λ _, W c) self)
         = materialized (with_attrs (λ _, W c') self)).
Proof.
  destruct self as [ps ns pc nc pco nco r il ol bs ar rc sh rg c0].
  unfold materialized. unfold_method.
  repeat case_step;
    match goal with
    | |- ∃ r W g', (∀ c, (?res, (@?st c, ?gf)) = _) ∧ _ =>
        exists res, (λ c, attrs (st c)), gf
    end;
    (split_and!;
     [reflexivity..|intros ? Hu; try discriminate Hu; reflexivity]).
Qed.

Lemma crop_revcomp_data_frame (self : t) (g : rng) :
  (crop_revcomp_data (self, g)).2.1
  = with_attrs (λ _, attrs (crop_revcomp_data (self, g)).2.1) self.
Proof.
  destruct (crop_revcomp_data_overwrites self g) as (r & W & g' & Hrun & _).
  pose proof (Hrun (attrs self)) as Hfirst.
  rewrite with_attrs_id in Hfirst. by rewrite Hfirst.
Qed.

(** C8.  A refresh leaves the six source arrays (and every other
    attribute stored by the constructor) as they were, whether it succeeds
    or raises; and it computes from them alone: started from any other
    cache contents with the same generator state, it has the same outcome,
    leaves the generator in the same state and, when it succeeds, assigns
    the same arrays. *)
Theorem crop_revcomp_data_recomputes_from_sources
    (self : t) (previous : cache) (g : rng) :
  let w := crop_revcomp_data (self, g) in
  let w' := crop_revcomp_data (with_attrs (λ _, previous) self, g) in
  sources w.2.1 = sources self
  ∧ w.2.1 = with_attrs (λ _, attrs w.2.1) self
  ∧ w'.1 = w.1 ∧ w'.2.2 = w.2.2
  ∧ (∀ u, w.1 = Ok u → materialized w'.2.1 = materialized w.2.1).
Proof.
  intros w w'.
  destruct (crop_revcomp_data_overwrites self g)
    as (r & W & g' & Hrun & _ & Hmat).
  assert (w = (r, (with_attrs (λ _, W (attrs self)) self, g'))) as ->.
  { unfold w. by rewrite <-(with_attrs_id self) at 1. }
  assert (w' = (r, (with_attrs (λ _, W previous) self, g'))) as ->
    by apply Hrun.
  simpl. split_and!; try done.
  intros u Hu. by apply (Hmat u).
Qed.

(** C2.  Refreshing once more from the same generator state repeats the
    first refresh exactly: same outcome, same object (hence the same
    seqs, cts, coords and cur_* arrays), same generator state afterwards.
    All draws of a refresh are taken from the one generator state that is
    threaded through it. *)
Theorem crop_revcomp_data_same_seed (self : t) (g : rng) :
  crop_revcomp_data ((crop_revcomp_data (self, g)).2.1, g)
  = crop_revcomp_data (self, g).
Proof.
  destruct (crop_revcomp_data_overwrites self g)
    as (r & W & g' & Hrun & Hidem & _).
  pose proof (Hrun (attrs self)) as Hfirst.
  rewrite with_attrs_id in Hfirst.
  rewrite Hfirst; simpl. by rewrite Hrun, Hidem.
Qed.

(** C6.  With a ratio [r <= 0] the sampler is not called (the sampled_*
    attributes stay as they were) and a successful refresh materializes
    the whole non-peak population in its original order: seqs, cts and
    coords end with the non-peak arrays, after the block of cropped peaks
    (which is what [random_crop] returned, and is empty when there is no
    peak array). *)
Theorem crop_revcomp_data_keeps_all_nonpeaks
    (self self' : t) (g g' : rng) (u : unit)
    (ns : seqs_array) (nc : cts_array) (nco : coords_array) :
  (negative_sampling_ratio self <= 0)%Q →
  nonpeak_seqs self = Some ns →
  nonpeak_cts self = Some nc →
  nonpeak_coords self = Some nco →
  crop_revcomp_data (self, g) = (Ok u, (self', g')) →
  ∃ ps pc pco,
    seqs (attrs self') = Some (NdArray (tail_shape ns) (ps ++ rows ns))
    ∧ cts (attrs self') = Some (NdArray (tail_shape nc) (pc ++ rows nc))
    ∧ coords (attrs self') = Some (NdArray (tail_shape nco) (pco ++ rows nco))
    ∧ match peak_seqs self, peak_cts self, peak_coords self with
      | Some pseqs, Some pcts, Some pcoords =>
          ∃ cropped g1,
            random_crop pseqs pcts (inputlen self) (outputlen self)
              pcoords g = (Some cropped, g1)
            ∧ ps = rows cropped.1.1 ∧ pc = rows cropped.1.2
            ∧ pco = rows cropped.2
      | _, _, _ => ps = [] ∧ pc = [] ∧ pco = []
      end
    ∧ sampled_nonpeak_seqs (attrs self') = sampled_nonpeak_seqs (attrs self)
    ∧ sampled_nonpeak_cts (attrs self') = sampled_nonpeak_cts (attrs self)
    ∧ sampled_nonpeak_coords (attrs self')
      = sampled_nonpeak_coords (attrs self).
Proof.
  destruct self as [ps ns0 pc nc0 pco nco0 r il ol bs ar rc sh rg c0].
  simpl. intros Hr -> -> ->. unfold_method.
  repeat case_step; intros [= <- <- <-]; simpl.
  - exfalso. by eapply Qlt_not_le.
  - repeat match goal with
           | E : vstack _ _ = Ok _ |- _ => apply vstack_Ok_inv in E as [_ ->]
           end.
    eexists _, _, _. split_and!; try done. by eexists _, _.
  - exists [], [], []. by destruct ns, nc, nco.
Qed.




Lemma crop_revcomp_data_Ok_materialized (self self' : t) (g g' : rng) u :
  crop_revcomp_data (self, g) = (Ok u, (self', g')) →
  is_Some (seqs (attrs self')) ∧ is_Some (cts (attrs self'))
  ∧ is_Some (coords (attrs self')) ∧ is_Some (cur_seqs (attrs self'))
  ∧ is_Some (cur_cts (attrs self')) ∧ is_Some (cur_coords (attrs self')).
Proof.
  destruct self as [ps ns pc nc pco nco r il ol bs ar rc sh rg c0].
  unfold_method.
  repeat case_step; intros [= <- <- <-]; simpl; by split_and!.
Qed.

Lemma init_unfold peak_regions nonpeak_regions genome_fasta batch_size
    inputlen outputlen max_jitter ratio cts_bw_file add_revcomp
    return_coords shuffle g :
  __init__ peak_regions nonpeak_regions genome_fasta batch_size inputlen
    outputlen max_jitter ratio cts_bw_file add_revcomp return_coords
    shuffle g
  = match load_data peak_regions nonpeak_regions genome_fasta cts_bw_file
            inputlen outputlen max_jitter with
    | None => (Raise (ExternalError "load_data"), g)
    | Some loaded =>
        match pd_concat [peak_regions; nonpeak_regions] with
        | Raise e => (Raise e, g)
        | Ok regions =>
            match crop_revcomp_data
                    (fresh_object loaded batch_size inputlen outputlen
                       ratio add_revcomp return_coords shuffle regions,
                     g) with
            | (Ok _, (self', g')) => (Ok self', g')
            | (Raise e, (_, g')) => (Raise e, g')
            end
        end
    end.
Proof.
  unfold __init__, se_bind, se_of_result, external.
  destruct (load_data _ _ _ _ _ _ _)
    as [[[[[[ps pc] pco] ns] nc] nco]|]; [|done].
  by destruct (pd_concat _).
Qed.


(** ** ChromBPNetDataset.__getitem__ and __len__ *)

(** A retrieval reads the object and nothing else: whatever the index
    and whatever the outcome, the object and the generator are as
    before. *)
Lemma getitem_reads_only (idx : Z) (w : t * rng) : (__getitem__ idx w).2 = w.
Proof.
  destruct w as [self g]. unfold_method. by repeat case_step.
Qed.

Lemma len_materialized (self : t) (g : rng) (cs : seqs_array) :
  cur_seqs (attrs self) = Some cs → __len__ (self, g) = (Ok (len cs), (self, g)).
Proof. intros Hcs. unfold_method. by rewrite Hcs. Qed.

(** What [__getitem__] computes once both rows are found. *)
Lemma getitem_rows (self : t) (g : rng) (cs : seqs_array) (cc : cts_array)
    (idx : Z) row crow :
  cur_seqs (attrs self) = Some cs → cur_cts (attrs self) = Some cc →
  ndarray_getitem cs idx = Ok row → ndarray_getitem cc idx = Ok crow →
  __getitem__ idx (self, g)
  = (Ok {| onehot_seq :=
             transpose (default 0%nat (last (tail_shape cs)))
               (map (map astype_float32) row);
           profile := map astype_float32 crow |}, (self, g)).
Proof.
  intros Hcs Hcc Hrow Hcrow. unfold_method.
  by rewrite Hcs, Hrow, Hcc, Hcrow.
Qed.

Lemma getitem_raises (self : t) (g : rng) (cs : seqs_array) (idx : Z) e :
  cur_seqs (attrs self) = Some cs → ndarray_getitem cs idx = Raise e →
  __getitem__ idx (self, g) = (Raise e, (self, g)).
Proof. intros Hcs Hrow. unfold_method. by rewrite Hcs, Hrow. Qed.

(** C3.  On a materialized dataset (cur_seqs and cur_cts assigned, with
    as many rows each), [__len__] is the number of rows; for
    [0 <= idx < len] [__getitem__] returns the one-hot window at [idx]
    converted to float32 and transposed (entry [(j, a)] of the result is
    entry [(a, j)] of the window) and the profile at [idx] converted to
    float32; for [idx >= len] it raises IndexError; and in every case the
    object and the generator are left as they were: no refresh happens. *)
Theorem getitem_in_range
    (self : t) (g : rng) (cs : seqs_array) (cc : cts_array) :
  cur_seqs (attrs self) = Some cs →
  cur_cts (attrs self) = Some cc →
  length (rows cc) = length (rows cs) →
  __len__ (self, g) = (Ok (len cs), (self, g))
  ∧ (∀ idx, 0 ≤ idx < len cs →
       ∃ row crow,
         rows cs !! Z.to_nat idx = Some row
         ∧ rows cc !! Z.to_nat idx = Some crow
         ∧ __getitem__ idx (self, g)
           = (Ok {| onehot_seq :=
                      transpose (default 0%nat (last (tail_shape cs)))
                        (map (map astype_float32) row);
                    profile := map astype_float32 crow |}, (self, g))
         ∧ (∀ a j base x,
              Forall (λ r, length r = default 0%nat (last (tail_shape cs))) row →
              row !! a = Some base → base !! j = Some x →
              ∃ channel,
                transpose (default 0%nat (last (tail_shape cs)))
                  (map (map astype_float32) row) !! j = Some channel
                ∧ channel !! a = Some (astype_float32 x)))
  ∧ (∀ idx, len cs ≤ idx →
       __getitem__ idx (self, g) = (Raise (IndexError idx (len cs)), (self, g)))
  ∧ (∀ idx, (__getitem__ idx (self, g)).2 = (self, g)).
Proof.
  intros Hcs Hcc Hlen. split_and!.
  - by apply len_materialized.
  - intros idx Hidx.
    destruct (ndarray_getitem_nonneg cs idx Hidx) as (row & Hrow & Hget).
    destruct (ndarray_getitem_nonneg cc idx) as (crow & Hcrow & Hgetc).
    { unfold len in *. lia. }
    exists row, crow. split_and!; try done.
    + by apply (getitem_rows self g cs cc).
    + intros a j base x Hshape Hbase Hx.
      eapply transpose_lookup.
      * apply Forall_fmap. eapply Forall_impl; [exact Hshape|].
        intros r Hr; simpl. by rewrite length_map.
      * by rewrite list_lookup_fmap, Hbase.
      * by rewrite list_lookup_fmap, Hx.
  - intros idx Hidx. apply (getitem_raises self g cs); [done|].
    apply ndarray_getitem_out_of_range. by left.
  - intros idx. apply getitem_reads_only.
Qed.

(** C10.  On a materialized dataset, an index [idx] with
    [-len <= idx < 0] does not raise: [__getitem__] returns the example at
    position [len + idx]; IndexError is raised exactly for [idx >= len] and
    for [idx < -len]. *)
Theorem getitem_negative_index
    (self : t) (g : rng) (cs : seqs_array) (cc : cts_array) :
  cur_seqs (attrs self) = Some cs →
  cur_cts (attrs self) = Some cc →
  length (rows cc) = length (rows cs) →
  (∀ idx, - len cs ≤ idx < 0 →
     __getitem__ idx (self, g) = __getitem__ (len cs + idx) (self, g)
     ∧ ∃ example, (__getitem__ idx (self, g)).1 = Ok example)
  ∧ (∀ idx,
       (∃ i n, (__getitem__ idx (self, g)).1 = Raise (IndexError i n))
       ↔ (len cs ≤ idx ∨ idx < - len cs)).
Proof.
  intros Hcs Hcc Hlen.
  assert (len cc = len cs) as Hlen' by (unfold len; lia).
  assert (∀ idx, - len cs ≤ idx < len cs →
            ∃ example, __getitem__ idx (self, g) = (Ok example, (self, g)))
    as Hok.
  { intros idx Hidx. destruct (decide (0 ≤ idx)) as [Hpos|Hneg].
    - destruct (ndarray_getitem_nonneg cs idx) as (row & _ & Hget); [lia|].
      destruct (ndarray_getitem_nonneg cc idx) as (crow & _ & Hgetc); [lia|].
      eexists. by apply (getitem_rows self g cs cc).
    - destruct (ndarray_getitem_nonneg cs (len cs + idx)) as (row & _ & Hget);
        [lia|].
      destruct (ndarray_getitem_nonneg cc (len cc + idx))
        as (crow & _ & Hgetc); [lia|].
      rewrite <-ndarray_getitem_negative in Hget by lia.
      rewrite <-ndarray_getitem_negative in Hgetc by lia.
      eexists. by apply (getitem_rows self g cs cc). }
  split.
  - intros idx Hidx. split.
    + destruct (ndarray_getitem_nonneg cs (len cs + idx)) as (row & _ & Hget);
        [lia|].
      destruct (ndarray_getitem_nonneg cc (len cc + idx))
        as (crow & _ & Hgetc); [lia|].
      rewrite Hlen' in Hgetc.
      rewrite (getitem_rows self g cs cc (len cs + idx) row crow) by done.
      apply (getitem_rows self g cs cc); try done.
      * by rewrite ndarray_getitem_negative by lia.
      * rewrite ndarray_getitem_negative by lia. by rewrite Hlen'.
    + destruct (Hok idx) as [example Hex]; [lia|].
      exists example. by rewrite Hex.
  - intros idx. split.
    + intros (i & n & Hraise).
      destruct (decide (- len cs ≤ idx < len cs)) as [Hin|]; [|lia].
      destruct (Hok idx Hin) as [example Hex].
      by rewrite Hex in Hraise.
    + intros Hout. exists idx, (len cs).
      rewrite (getitem_raises self g cs idx (IndexError idx (len cs))); try done.
      by apply ndarray_getitem_out_of_range.
Qed.
End dataset_facts.

(** ** DataModule: splitting by chromosome *)

Section datamodule_facts.
Context `{DataUtils} `{Pandas}.
Import DataModule.

Ltac unfold_dm :=
  unfold _load_regions, _debug_subsample, _setup_chromosomes, _split_data,
    load, se_bind, se_of_result, se_ret, se_raise, se_get, se_modify,
    external;
  simpl.

Lemma load_regions_config (self : t) :
  config (_load_regions self).2 = config self.
Proof. unfold_dm. by repeat case_step. Qed.

(** The splits of a constructed module are the rows of [data] on the
    chromosomes of each list that are not excluded. *)
Lemma init_Ok_inv (cfg : Config.t) (dm : t) :
  __init__ cfg = Ok dm →
  let keep := not_excluded (Config.exclude_chroms cfg) in
  Config.data_type cfg = "profile"
  ∧ config dm = cfg
  ∧ (_load_regions (blank cfg)).1 = Ok tt
  ∧ data dm = data (_load_regions (blank cfg)).2
  ∧ train_chroms dm = keep (Config.training_chroms cfg)
  ∧ val_chroms dm = keep (Config.validation_chroms cfg)
  ∧ test_chroms dm = keep (Config.test_chroms cfg)
  ∧ train_data dm = select_chroms (data dm) (train_chroms dm)
  ∧ val_data dm = select_chroms (data dm) (val_chroms dm)
  ∧ test_data dm = select_chroms (data dm) (test_chroms dm).
Proof.
  unfold __init__. destruct (decide _) as [Hprofile|]; [|done].
  unfold se_bind at 1.
  pose proof (load_regions_config (blank cfg)) as Hcfg.
  destruct (_load_regions (blank cfg)) as [[[]|e] s1]; [|done].
  simpl in Hcfg. unfold_dm. rewrite !Hcfg, Hprofile. simpl.
  destruct (Config.background cfg); simpl; intros [= <-]; simpl; by rewrite ?Hcfg.
Qed.

Lemma elem_of_select_chroms (df : DataFrame) (chroms : list string) r :
  r ∈ select_chroms df chroms ↔ r ∈ df ∧ chrom r ∈ chroms.
Proof.
  unfold select_chroms, isin.
  rewrite (list_elem_of_In (List.filter _ _)), filter_In.
  by rewrite bool_decide_eq_true, <-list_elem_of_In.
Qed.

Lemma elem_of_not_excluded (exclude chroms : list string) c :
  c ∈ not_excluded exclude chroms ↔ c ∈ chroms ∧ c ∉ exclude.
Proof.
  unfold not_excluded.
  rewrite (list_elem_of_In (List.filter _ _)), filter_In.
  by rewrite bool_decide_eq_true, <-list_elem_of_In.
Qed.

Lemma indicator_iff (P Q : Prop) `{Decision P} `{Decision Q} :
  (P ↔ Q) → indicator P = indicator Q.
Proof. intros HPQ. unfold indicator. repeat case_decide; tauto. Qed.

Lemma indicator_False (P : Prop) `{Decision P} : ¬ P → indicator P = 0%nat.
Proof. intros HP. unfold indicator. by case_decide. Qed.

Lemma init_split_membership (cfg : Config.t) (dm : t) (r : Region) :
  __init__ cfg = Ok dm →
  r ∈ data dm →
  (r ∈ train_data dm ↔
     chrom r ∈ Config.training_chroms cfg
     ∧ chrom r ∉ Config.exclude_chroms cfg)
  ∧ (r ∈ val_data dm ↔
       chrom r ∈ Config.validation_chroms cfg
       ∧ chrom r ∉ Config.exclude_chroms cfg)
  ∧ (r ∈ test_data dm ↔
       chrom r ∈ Config.test_chroms cfg
       ∧ chrom r ∉ Config.exclude_chroms cfg).
Proof.
  intros Hinit Hr.
  destruct (init_Ok_inv cfg dm Hinit)
    as (_ & _ & _ & _ & Htr & Hva & Hte & Htrain & Hval & Htest).
  rewrite Htrain, Hval, Htest, Htr, Hva, Hte.
  rewrite !elem_of_select_chroms, !elem_of_not_excluded. tauto.
Qed.

(** Construction goes through whenever the region files load: nothing
    else is checked once the data type is 'profile'. *)
Lemma init_profile (cfg : Config.t) :
  Config.data_type cfg = "profile" →
  match _load_regions (blank cfg) with
  | (Ok _, loaded) => ∃ dm, __init__ cfg = Ok dm ∧ data dm = data loaded
  | (Raise e, _) => __init__ cfg = Raise e
  end.
Proof.
  intros Hprofile.
  assert (__init__ cfg
          = match (_load_regions ;;; _setup_chromosomes ;;; _split_data)
                    (blank cfg) with
            | (Ok _, self) => Ok self
            | (Raise e, _) => Raise e
            end) as ->.
  { unfold __init__. by rewrite decide_True by done. }
  pose proof (load_regions_config (blank cfg)) as Hcfg.
  destruct (_load_regions (blank cfg)) as [[[]|e] s1] eqn:Hload.
  - rewrite (se_bind_ok _ _ _ _ _ Hload).
    simpl in Hcfg. unfold_dm. rewrite !Hcfg, Hprofile. simpl.
    destruct (Config.background cfg); simpl; by eexists.
  - by rewrite (se_bind_raise _ _ _ _ _ Hload).
Qed.

(** C4 (amended).  After the split a region on an excluded chromosome is
    in none of train, val and test; a region on any other chromosome is in
    train exactly when training_chroms names its chromosome, and likewise
    for val and test: it appears in as many outputs as lists name its
    chromosome, so in exactly one when exactly one list does. *)
Theorem split_follows_the_lists (cfg : Config.t) (dm : t) (r : Region) :
  __init__ cfg = Ok dm →
  r ∈ data dm →
  (chrom r ∈ Config.exclude_chroms cfg →
     (r ∉ train_data dm) ∧ (r ∉ val_data dm) ∧ (r ∉ test_data dm)
     ∧ outputs_holding dm r = 0%nat)
  ∧ (chrom r ∉ Config.exclude_chroms cfg →
       (r ∈ train_data dm ↔ chrom r ∈ Config.training_chroms cfg)
       ∧ (r ∈ val_data dm ↔ chrom r ∈ Config.validation_chroms cfg)
       ∧ (r ∈ test_data dm ↔ chrom r ∈ Config.test_chroms cfg)
       ∧ outputs_holding dm r = lists_naming cfg (chrom r)
       ∧ (lists_naming cfg (chrom r) = 1%nat → outputs_holding dm r = 1%nat)).
Proof.
  intros Hinit Hr.
  destruct (init_split_membership cfg dm r Hinit Hr) as (Htr & Hva & Hte).
  unfold outputs_holding, lists_naming. split; intros Hex.
  - assert (r ∉ train_data dm) by tauto.
    assert (r ∉ val_data dm) by tauto.
    assert (r ∉ test_data dm) by tauto.
    split_and!; try done. by rewrite !indicator_False.
  - assert (r ∈ train_data dm ↔ chrom r ∈ Config.training_chroms cfg)
      as Htr' by tauto.
    assert (r ∈ val_data dm ↔ chrom r ∈ Config.validation_chroms cfg)
      as Hva' by tauto.
    assert (r ∈ test_data dm ↔ chrom r ∈ Config.test_chroms cfg)
      as Hte' by tauto.
    rewrite (indicator_iff _ _ Htr'), (indicator_iff _ _ Hva'),
      (indicator_iff _ _ Hte').
    by split_and!.
Qed.


(** ** split_peak_and_nonpeak and DataModule.setup *)

Lemma coerce_is_peak_bool (r : Region) b :
  is_peak r = CBool b → coerce_is_peak r = r.
Proof. destruct r as [c o p]; simpl. intros ->. by destruct b. Qed.

Lemma coerce_is_peak_idemp (r : Region) :
  coerce_is_peak (coerce_is_peak r) = coerce_is_peak r.
Proof.
  apply (coerce_is_peak_bool _ (astype_bool (astype_int (is_peak r)))).
  done.
Qed.

Lemma setup_frames (stage : string) (dm : t) (g : rng) :
  let dm' := (setup stage (dm, g)).2.1 in
  train_data dm' = after_split (bool_decide (stage = "fit")) (train_data dm)
  ∧ val_data dm' = after_split (bool_decide (stage = "fit")) (val_data dm)
  ∧ test_data dm'
    = after_split (bool_decide (stage ≠ "fit" ∧ stage = "test")) (test_data dm)
  ∧ data dm' = data dm ∧ peaks dm' = peaks dm
  ∧ negatives dm' = negatives dm ∧ train_val dm' = train_val dm.
Proof.
  unfold setup, by_reference, new_dataset, assign, split_peak_and_nonpeak,
    se_bind, se_modify, se_get, se_ret; simpl.
  destruct (decide (stage = "fit")) as [Hfit|Hfit];
    [|destruct (decide (stage = "test")) as [Htest|Htest]].
  - rewrite (bool_decide_eq_true_2 _ Hfit), bool_decide_eq_false_2 by tauto.
    simpl. repeat case_step; by split_and!.
  - rewrite (bool_decide_eq_false_2 _ Hfit), bool_decide_eq_true_2 by tauto.
    simpl. repeat case_step; by split_and!.
  - rewrite (bool_decide_eq_false_2 _ Hfit), bool_decide_eq_false_2 by tauto.
    simpl. by split_and!.
Qed.

(** C9 (amended).  [split_peak_and_nonpeak] writes to the frame it is
    given: it replaces the [is_peak] column by its coercion to bool, and
    changes nothing else (same rows in the same order, same chromosomes,
    same other columns); when the column already holds booleans the frame
    is unchanged, and a second call changes nothing more.  The peaks and
    non-peaks it returns are the rows of the coerced frame with [is_peak]
    true and false.  [setup] makes this call on train_data and val_data
    (stage 'fit') or on test_data (stage 'test'), so it leaves those
    frames coerced, whether or not the datasets can then be built; data,
    peaks, negatives and train_val are left as they were. *)
Theorem split_peak_and_nonpeak_coerces_is_peak
    (frame : DataFrame) (stage : string) (dm : t) (g : rng) :
  let out := split_peak_and_nonpeak frame in
  let dm' := (setup stage (dm, g)).2.1 in
  out.2 = map coerce_is_peak frame
  ∧ out.1 = Ok (List.filter is_peak_mask out.2,
                List.filter (λ r, negb (is_peak_mask r)) out.2)
  ∧ map chrom out.2 = map chrom frame
  ∧ map other out.2 = map other frame
  ∧ (Forall (λ r, ∃ b, is_peak r = CBool b) frame → out.2 = frame)
  ∧ (split_peak_and_nonpeak out.2).2 = out.2
  ∧ train_data dm' = after_split (bool_decide (stage = "fit")) (train_data dm)
  ∧ val_data dm' = after_split (bool_decide (stage = "fit")) (val_data dm)
  ∧ test_data dm'
    = after_split (bool_decide (stage ≠ "fit" ∧ stage = "test")) (test_data dm)
  ∧ data dm' = data dm ∧ peaks dm' = peaks dm
  ∧ negatives dm' = negatives dm ∧ train_val dm' = train_val dm.
Proof.
  intros out dm'. subst out dm'.
  unfold split_peak_and_nonpeak, se_bind, se_modify, se_get, se_ret; simpl.
  split_and!; try done.
  - by rewrite <-list_fmap_compose.
  - by rewrite <-list_fmap_compose.
  - intros Hbool. induction Hbool as [|r frame [b Hr] _ IH]; [done|]; simpl.
    by rewrite IH, (coerce_is_peak_bool r b).
  - rewrite <-list_fmap_compose. apply list_fmap_ext.
    intros i r _. apply coerce_is_peak_idemp.
  - apply setup_frames.
  - apply setup_frames.
  - apply setup_frames.
  - apply setup_frames.
  - apply setup_frames.
  - apply setup_frames.
  - apply setup_frames.
Qed.
End datamodule_facts.

(* ===================================================================== *)
(** * Further properties of the code                                      *)
(* ===================================================================== *)

(** ** Lists *)

Lemma List_filter_sublist {A} (f : A → bool) (l : list A) :
  List.filter f l `sublist_of` l.
Proof.
  induction l as [|x l IH]; simpl; [constructor|].
  destruct (f x); by constructor.
Qed.

Lemma List_filter_partition {A} (f : A → bool) (l : list A) :
  (List.filter f l ++ List.filter (λ x, negb (f x)) l)%list ≡ₚ l.
Proof.
  induction l as [|x l IH]; simpl; [done|].
  destruct (f x); simpl.
  - by rewrite IH.
  - by rewrite <-Permutation_middle, IH.
Qed.

Lemma elem_of_List_filter {A} (f : A → bool) (l : list A) x :
  x ∈ List.filter f l ↔ x ∈ l ∧ f x = true.
Proof.
  by rewrite (list_elem_of_In (List.filter _ _)), filter_In, <-list_elem_of_In.
Qed.

(** Reading a list at a permutation of its positions permutes it. *)
Lemma lookup_all_positions_from {A} (pre l : list A) :
  omap (λ i, (pre ++ l)%list !! i) (seq (length pre) (length l)) = l.
Proof.
  revert pre. induction l as [|x l IH]; intros pre; simpl; [done|].
  rewrite list_lookup_middle by done. simpl. f_equal.
  specialize (IH (pre ++ [x])%list).
  rewrite length_app, Nat.add_1_r in IH.
  by replace ((pre ++ [x]) ++ l)%list with (pre ++ x :: l)%list in IH
    by (by rewrite <-app_assoc).
Qed.

Lemma lookup_all_positions {A} (l : list A) :
  omap (λ i, l !! i) (seq 0 (length l)) = l.
Proof. apply (lookup_all_positions_from [] l). Qed.

Lemma Forall2_lookup_omap {A} (l : list A) (idx : list nat) (rs : list A) :
  Forall2 (λ i r, l !! i = Some r) idx rs → omap (λ i, l !! i) idx = rs.
Proof.
  induction 1 as [|i r idx rs Hi _ IH]; simpl; [done|].
  rewrite Hi. f_equal. exact IH.
Qed.


(** ** Python's int() on a rational *)

Lemma py_int_le_m1 (x : Q) : (x <= -1)%Q → py_int x ≤ -1.
Proof.
  destruct x as [n d]. unfold Qle, py_int; simpl. intros Hn.
  apply Z.quot_le_upper_bound; lia.
Qed.


(** ** numpy.random.choice *)

Section more_numpy_random_facts.
Context `{NumpyRandom}.



(** A negative size is an error, and no number is drawn. *)
Lemma choice_negative (a size : Z) (g : rng) :
  size < 0 → ∃ msg, choice a size g = (Raise (ValueError msg), g).
Proof.
  intros Hsize. unfold choice.
  destruct ((a <=? 0) && negb (size =? 0)); [by eexists|].
  destruct (a <? size); [by eexists|].
  assert ((size <? 0) = true) as -> by (apply Z.ltb_lt; lia).
  by eexists.
Qed.
End more_numpy_random_facts.

(** ** subsample_nonpeak_data at the edges *)

Section subsample_edges.
Context `{NumpyRandom} `{Dtypes}.



(** X2.  When [ratio * peak_count <= -1] the requested size is negative and
    the sampler raises ValueError without drawing a number: this is why
    its caller tests the sign of the ratio first. *)
Theorem subsample_nonpeak_data_negative_count
    (nonpeak_seqs : seqs_array) (nonpeak_cts : cts_array)
    (nonpeak_coords : coords_array) (peak_count : Z) (r : Q) (g : rng) :
  (r * inject_Z peak_count <= -1)%Q →
  ∃ msg,
    subsample_nonpeak_data nonpeak_seqs nonpeak_cts nonpeak_coords
      peak_count r g = (Raise (ValueError msg), g).
Proof.
  intros Hneg. apply py_int_le_m1 in Hneg. unfold subsample_nonpeak_data.
  destruct (choice_negative (len nonpeak_seqs)
              (Z.min (py_int (r * inject_Z peak_count)) (len nonpeak_seqs)) g)
    as [msg Hchoice]; [lia|].
  exists msg. by rewrite (se_bind_raise _ _ _ _ _ Hchoice).
Qed.

End subsample_edges.

(** ** numpy: more on arrays *)

Lemma ndarray_getitem_Ok_elem {R} (a : ndarray R) (idx : Z) (r : R) :
  ndarray_getitem a idx = Ok r → r ∈ rows a.
Proof.
  unfold ndarray_getitem.
  repeat case_step; intros [= <-]; by eapply list_elem_of_lookup_2.
Qed.

(** The transpose of an [n x ncols] matrix is [ncols x n]. *)
Lemma transpose_shape {A} (ncols : nat) (m : list (list A)) :
  Forall (λ r, length r = ncols) m →
  length (transpose ncols m) = ncols
  ∧ Forall (λ col, length col = length m) (transpose ncols m).
Proof.
  induction 1 as [|r m Hr Hm [IHlen IHcols]]; simpl.
  - rewrite length_replicate. split; [done|].
    apply Forall_forall. intros col Hcol.
    by apply elem_of_replicate in Hcol as [-> _].
  - rewrite length_zip_with, IHlen, Hr. split; [lia|].
    apply Forall_lookup. intros j col Hcol.
    apply lookup_zip_with_Some in Hcol as (x & col' & -> & _ & Hcol').
    simpl. f_equal. by eapply (Forall_lookup_1 _ _ _ _ IHcols).
Qed.

(** ** ChromBPNetDataset: more on the refresh and on retrieval *)

Section more_dataset_facts.
Context `{DataUtils}.
Import ChromBPNetDataset.

Ltac unfold_dataset :=
  unfold crop_revcomp_data, crop_peaks, stack_peaks_and, __len__,
    __getitem__, np_random, array, getattr, setattr, self_, se_snd,
    external_random, external, se_bind, se_of_result, se_ret, se_raise,
    se_get, se_modify;
  simpl.



(** What a retrieval returns depends on cur_seqs and cur_cts only. *)
Lemma getitem_depends_on_current (self1 self2 : t) (g1 g2 : rng) (idx : Z) :
  cur_seqs (attrs self1) = cur_seqs (attrs self2) →
  cur_cts (attrs self1) = cur_cts (attrs self2) →
  (__getitem__ idx (self1, g1)).1 = (__getitem__ idx (self2, g2)).1
  ∧ (__len__ (self1, g1)).1 = (__len__ (self2, g2)).1.
Proof.
  unfold_dataset. intros -> ->. by repeat case_step.
Qed.

(** X5.  A refresh that raises leaves cur_seqs, cur_cts and cur_coords as
    they were: [__len__] and [__getitem__] keep answering from the arrays
    of the last successful refresh (or keep raising AttributeError when
    there was none). *)
Theorem crop_revcomp_data_failure_keeps_current
    (self self' : t) (g g' : rng) (e : exn) :
  crop_revcomp_data (self, g) = (Raise e, (self', g')) →
  cur_seqs (attrs self') = cur_seqs (attrs self)
  ∧ cur_cts (attrs self') = cur_cts (attrs self)
  ∧ cur_coords (attrs self') = cur_coords (attrs self)
  ∧ (∀ idx h h',
       (__getitem__ idx (self', h')).1 = (__getitem__ idx (self, h)).1)
  ∧ (∀ h h', (__len__ (self', h')).1 = (__len__ (self, h)).1).
Proof.
  intros Hrun.
  assert (cur_seqs (attrs self') = cur_seqs (attrs self)
          ∧ cur_cts (attrs self') = cur_cts (attrs self)
          ∧ cur_coords (attrs self') = cur_coords (attrs self))
    as (Hs & Hc & Hco).
  { revert Hrun.
    destruct self as [ps ns pc nc pco nco r il ol bs ar rc sh rg c0].
    unfold_dataset.
    repeat case_step; intros [= <- <- <-]; simpl; by split_and!. }
  split_and!; try done.
  - intros idx h h'.
    by apply (proj1 (getitem_depends_on_current self' self h' h idx Hs Hc)).
  - intros h h'.
    by apply (proj2 (getitem_depends_on_current self' self h' h 0 Hs Hc)).
Qed.

(** X6.  On arrays of the documented shapes (windows of [L] positions by [C]
    channels, profiles of [K] positions) every example that [__getitem__]
    returns has a one-hot matrix of [C] rows of [L] entries (channels
    first) and a profile of [K] entries. *)
Theorem getitem_shape
    (self : t) (g : rng) (cs : seqs_array) (cc : cts_array)
    (L C K : nat) (idx : Z) (example : sample) :
  cur_seqs (attrs self) = Some cs →
  cur_cts (attrs self) = Some cc →
  tail_shape cs = [L; C] →
  Forall (λ window,
            length window = L ∧ Forall (λ base, length base = C) window)
         (rows cs) →
  Forall (λ counts, length counts = K) (rows cc) →
  (__getitem__ idx (self, g)).1 = Ok example →
  length (onehot_seq example) = C
  ∧ Forall (λ channel, length channel = L) (onehot_seq example)
  ∧ length (profile example) = K.
Proof.
  intros Hcs Hcc Htail Hwindows Hprofiles. unfold_dataset.
  rewrite Hcs, Hcc, Htail. simpl.
  repeat case_step; intros [= <-]; simpl.
  match goal with
  | E : ndarray_getitem cs _ = Ok ?row |- _ =>
      apply ndarray_getitem_Ok_elem in E;
      apply (proj1 (Forall_forall _ _) Hwindows) in E as [HL HC]
  end.
  match goal with
  | E : ndarray_getitem cc _ = Ok ?row |- _ =>
      apply ndarray_getitem_Ok_elem in E;
      apply (proj1 (Forall_forall _ _) Hprofiles) in E as HK
  end.
  rewrite length_map. split_and!; [| |done].
  - apply transpose_shape, Forall_fmap.
    eapply Forall_impl; [exact HC|]. intros base Hbase; simpl.
    by rewrite length_map.
  - rewrite <-HL, <-(length_map (map astype_float32)).
    apply transpose_shape, Forall_fmap.
    eapply Forall_impl; [exact HC|]. intros base Hbase; simpl.
    by rewrite length_map.
Qed.

(** With a ratio [r <= 0] a successful refresh keeps every non-peak
    sequence, after the cropped peaks. *)
Lemma crop_revcomp_data_unsampled
    (self self' : t) (g g' : rng) (u : unit) (ns : seqs_array) :
  (negative_sampling_ratio self <= 0)%Q →
  nonpeak_seqs self = Some ns →
  crop_revcomp_data (self, g) = (Ok u, (self', g')) →
  ∃ ps, seqs (attrs self') = Some (NdArray (tail_shape ns) (ps ++ rows ns)).
Proof.
  destruct self as [ps ns0 pc nc pco nco r il ol bs ar rc sh rg c0].
  simpl. intros Hr ->. unfold_dataset.
  repeat case_step; intros [= <- <- <-]; simpl.
  - exfalso. by eapply Qlt_not_le.
  - repeat match goal with
           | E : vstack _ _ = Ok _ |- _ => apply vstack_Ok_inv in E as [_ ->]
           end.
    by eexists.
  - exists []. by destruct ns.
Qed.

(** What a successful construction went through. *)
Lemma dataset_init_Ok_inv peak_regions nonpeak_regions genome_fasta
    batch_size inputlen outputlen max_jitter ratio cts_bw_file add_revcomp
    return_coords shuffle g (self : t) g' :
  __init__ peak_regions nonpeak_regions genome_fasta batch_size inputlen
    outputlen max_jitter ratio cts_bw_file add_revcomp return_coords
    shuffle g = (Ok self, g') →
  ∃ loaded regions,
    load_data peak_regions nonpeak_regions genome_fasta cts_bw_file
      inputlen outputlen max_jitter = Some loaded
    ∧ pd_concat [peak_regions; nonpeak_regions] = Ok regions
    ∧ crop_revcomp_data
        (fresh_object loaded batch_size inputlen outputlen ratio
           add_revcomp return_coords shuffle regions, g)
      = (Ok tt, (self, g'))
    ∧ ChromBPNetDataset.regions self = regions
    ∧ negative_sampling_ratio self = ratio
    ∧ ChromBPNetDataset.add_revcomp self = add_revcomp
    ∧ ChromBPNetDataset.inputlen self = inputlen
    ∧ ChromBPNetDataset.outputlen self = outputlen.
Proof.
  rewrite init_unfold.
  destruct (load_data _ _ _ _ _ _ _) as [loaded|]; [|done].
  destruct (pd_concat _) as [regions|]; [|done].
  set (fresh := fresh_object _ _ _ _ _ _ _ _ _).
  pose proof (crop_revcomp_data_frame fresh g) as Hframe.
  destruct (crop_revcomp_data (fresh, g)) as [[[]|e] [self1 g1]] eqn:Hrun;
    [|done].
  intros [= <- <-]. exists loaded, regions. simpl in Hframe.
  split_and!; try done; rewrite Hframe; unfold fresh, fresh_object;
    by destruct loaded as [[[[[? ?] ?] ?] ?] ?].
Qed.
End more_dataset_facts.

(** ** split_peak_and_nonpeak as a partition *)

Lemma is_peak_mask_coerce (r : Region) :
  is_peak_mask (coerce_is_peak r) = negb (astype_int (is_peak r) =? 0).
Proof. done. Qed.

(** X7.  The two frames that [split_peak_and_nonpeak] returns partition the
    rows of the coerced frame, each in the order of the frame: a row is
    a peak when its [is_peak] cell, read as an integer, is not 0, and a
    non-peak when it is 0. *)
Theorem split_peak_and_nonpeak_partitions (frame : DataFrame) :
  ∃ peaks non_peaks,
    (split_peak_and_nonpeak frame).1 = Ok (peaks, non_peaks)
    ∧ (peaks ++ non_peaks)%list ≡ₚ map coerce_is_peak frame
    ∧ (length peaks + length non_peaks = length frame)%nat
    ∧ peaks `sublist_of` map coerce_is_peak frame
    ∧ non_peaks `sublist_of` map coerce_is_peak frame
    ∧ (∀ r, r ∈ peaks ↔
         ∃ r0, r0 ∈ frame ∧ r = coerce_is_peak r0
               ∧ astype_int (is_peak r0) ≠ 0)
    ∧ (∀ r, r ∈ non_peaks ↔
         ∃ r0, r0 ∈ frame ∧ r = coerce_is_peak r0
               ∧ astype_int (is_peak r0) = 0).
Proof.
  unfold split_peak_and_nonpeak, se_bind, se_modify, se_get, se_ret; simpl.
  eexists _, _. split; [done|].
  pose proof (List_filter_partition is_peak_mask (map coerce_is_peak frame))
    as Hperm.
  split_and!.
  - done.
  - apply Permutation_length in Hperm.
    by rewrite length_app, length_map in Hperm.
  - apply List_filter_sublist.
  - apply List_filter_sublist.
  - intros r. rewrite elem_of_List_filter, list_elem_of_fmap. split.
    + intros [(r0 & -> & Hr0) Hmask]. exists r0. split_and!; try done.
      rewrite is_peak_mask_coerce in Hmask.
      apply negb_true_iff, Z.eqb_neq in Hmask. done.
    + intros (r0 & Hr0 & -> & Hne). split; [by exists r0|].
      rewrite is_peak_mask_coerce. by apply negb_true_iff, Z.eqb_neq.
  - intros r. rewrite elem_of_List_filter, list_elem_of_fmap. split.
    + intros [(r0 & -> & Hr0) Hmask]. exists r0. split_and!; try done.
      rewrite is_peak_mask_coerce, negb_involutive in Hmask.
      by apply Z.eqb_eq in Hmask.
    + intros (r0 & Hr0 & -> & Heq). split; [by exists r0|].
      rewrite is_peak_mask_coerce, negb_involutive. by apply Z.eqb_eq.
Qed.

(** ** DataModule: what construction leaves in the object *)

Lemma List_filter_filter {A} (f g : A → bool) (l : list A) :
  (∀ x, f x = true → g x = true) →
  List.filter f (List.filter g l) = List.filter f l.
Proof.
  intros Hfg. induction l as [|x l IH]; simpl; [done|].
  destruct (g x) eqn:Hg; simpl.
  - by rewrite IH.
  - destruct (f x) eqn:Hf; [|done]. apply Hfg in Hf. congruence.
Qed.

Lemma List_filter_length_disjoint {A} (f g : A → bool) (l : list A) :
  (∀ x, f x = true → g x = true → False) →
  length (List.filter (λ x, f x || g x) l)
  = (length (List.filter f l) + length (List.filter g l))%nat.
Proof.
  intros Hfg. induction l as [|x l IH]; simpl; [done|].
  destruct (f x) eqn:Hf, (g x) eqn:Hg; simpl; try lia.
  by destruct (Hfg x).
Qed.

Lemma List_filter_ext_bool {A} (f g : A → bool) (l : list A) :
  (∀ x, f x = g x) → List.filter f l = List.filter g l.
Proof.
  intros Hfg. induction l as [|x l IH]; simpl; [done|].
  by rewrite Hfg, IH.
Qed.

Lemma isin_app (a b : list string) (r : Region) :
  isin (a ++ b) r = isin a r || isin b r.
Proof.
  unfold isin. rewrite <-bool_decide_or.
  apply bool_decide_ext, elem_of_app.
Qed.

Section more_datamodule_facts.
Context `{DataUtils} `{Pandas}.
Import DataModule.

Ltac unfold_module :=
  unfold _load_regions, _debug_subsample, _setup_chromosomes, _split_data,
    load, se_bind, se_of_result, se_ret, se_raise, se_get, se_modify,
    external;
  simpl.

(** Loading assigns peaks, negatives, data and background, nothing else. *)
Lemma load_regions_keeps (self : t) :
  let s := (_load_regions self).2 in
  train_background s = train_background self
  ∧ train_dataset s = train_dataset self
  ∧ val_dataset s = val_dataset self
  ∧ test_dataset s = test_dataset self.
Proof. unfold_module. by repeat case_step. Qed.

Lemma load_regions_data (self : t) (s : t) :
  _load_regions self = (Ok tt, s) →
  data s = (peaks s ++ default [] (negatives s))%list
  ∧ (negatives s = None ↔ Config.negatives (config self) = None)
  ∧ (is_Some (Config.background (config self)) → is_Some (background s)).
Proof.
  unfold_module.
  repeat case_step; intros ?; simplify_eq/=; rewrite ?app_nil_r;
    split_and!; try done; try (intros [? [=]]).
Qed.

Lemma init_Ok_more (cfg : Config.t) (dm : t) :
  __init__ cfg = Ok dm →
  ∃ loaded,
    _load_regions (blank cfg) = (Ok tt, loaded)
    ∧ peaks dm = peaks loaded ∧ negatives dm = negatives loaded
    ∧ data dm = data loaded ∧ background dm = background loaded
    ∧ chroms dm = (train_chroms dm ++ val_chroms dm ++ test_chroms dm)%list
    ∧ train_val dm
      = select_chroms (data dm) (val_chroms dm ++ train_chroms dm)
    ∧ train_background dm = None
    ∧ train_dataset dm = None ∧ val_dataset dm = None
    ∧ test_dataset dm = None.
Proof.
  unfold __init__. destruct (decide _) as [Hprofile|]; [|done].
  unfold se_bind at 1.
  pose proof (load_regions_config (blank cfg)) as Hcfg.
  pose proof (load_regions_keeps (blank cfg)) as (Hbg & Htr & Hva & Hte).
  destruct (_load_regions (blank cfg)) as [[[]|e] s1]; [|done].
  simpl in *. unfold_module. rewrite !Hcfg, Hprofile. simpl.
  exists s1.
  destruct (Config.background cfg); simpl in *; simplify_eq/=;
    by split_and!.
Qed.

(** X8.  The chromosome lists of a constructed module hold no excluded
    chromosome: each is the configured list without the excluded names, in
    the configured order, and [chroms] is their concatenation, so a
    chromosome is in [chroms] exactly when a configured list names it and
    it is not excluded. *)
Theorem chroms_hold_no_excluded_chromosome (cfg : Config.t) (dm : t) :
  __init__ cfg = Ok dm →
  chroms dm = (train_chroms dm ++ val_chroms dm ++ test_chroms dm)%list
  ∧ train_chroms dm `sublist_of` Config.training_chroms cfg
  ∧ val_chroms dm `sublist_of` Config.validation_chroms cfg
  ∧ test_chroms dm `sublist_of` Config.test_chroms cfg
  ∧ (∀ c, c ∈ chroms dm ↔
       (c ∈ Config.training_chroms cfg ∨ c ∈ Config.validation_chroms cfg
        ∨ c ∈ Config.test_chroms cfg)
       ∧ c ∉ Config.exclude_chroms cfg).
Proof.
  intros Hinit.
  destruct (init_Ok_inv cfg dm Hinit)
    as (_ & _ & _ & _ & Htr & Hva & Hte & _).
  destruct (init_Ok_more cfg dm Hinit)
    as (loaded & _ & _ & _ & _ & _ & Hchroms & _).
  split_and!; try done.
  - rewrite Htr. apply List_filter_sublist.
  - rewrite Hva. apply List_filter_sublist.
  - rewrite Hte. apply List_filter_sublist.
  - intros c. rewrite Hchroms, Htr, Hva, Hte.
    rewrite !elem_of_app, !elem_of_not_excluded. tauto.
Qed.

(** X9.  [train_val] holds exactly the rows of [train_data] and of
    [val_data], in the order of [data]; [train_data] and [val_data] are
    its rows on the training and on the validation chromosomes. *)
Theorem train_val_is_train_and_val (cfg : Config.t) (dm : t) :
  __init__ cfg = Ok dm →
  (∀ r, r ∈ train_val dm ↔ r ∈ train_data dm ∨ r ∈ val_data dm)
  ∧ train_val dm `sublist_of` data dm
  ∧ train_data dm = select_chroms (train_val dm) (train_chroms dm)
  ∧ val_data dm = select_chroms (train_val dm) (val_chroms dm).
Proof.
  intros Hinit.
  destruct (init_Ok_inv cfg dm Hinit)
    as (_ & _ & _ & _ & _ & _ & _ & Htrain & Hval & _).
  destruct (init_Ok_more cfg dm Hinit)
    as (loaded & _ & _ & _ & _ & _ & _ & Htv & _).
  rewrite Htv, Htrain, Hval. split_and!.
  - intros r. rewrite !elem_of_select_chroms, elem_of_app. tauto.
  - apply List_filter_sublist.
  - unfold select_chroms. symmetry. apply List_filter_filter.
    intros r Hr. rewrite isin_app, Hr. apply orb_true_r.
  - unfold select_chroms. symmetry. apply List_filter_filter.
    intros r Hr. rewrite isin_app, Hr. done.
Qed.

(** X10.  Construction never adds background regions to the training data:
    the branch that would is guarded by the data type 'longrange', which
    the constructor rejects.  Whether or not a background file is
    configured (it is loaded when it is), [train_background] is never
    assigned and every training row comes from the peak file or from the
    negative file. *)
Theorem background_is_loaded_but_never_used (cfg : Config.t) (dm : t) :
  __init__ cfg = Ok dm →
  train_background dm = None
  ∧ (is_Some (Config.background cfg) → is_Some (background dm))
  ∧ train_data dm = select_chroms (data dm) (train_chroms dm)
  ∧ (∀ r, r ∈ train_data dm →
       r ∈ peaks dm ∨ ∃ negs, negatives dm = Some negs ∧ r ∈ negs).
Proof.
  intros Hinit.
  destruct (init_Ok_inv cfg dm Hinit)
    as (_ & _ & _ & _ & _ & _ & _ & Htrain & _).
  destruct (init_Ok_more cfg dm Hinit)
    as (loaded & Hload & Hp & Hn & Hd & Hb & _ & _ & Hbg & _).
  destruct (load_regions_data _ _ Hload) as (Hdata & _ & Hback).
  split_and!; try done.
  - rewrite Hb. exact Hback.
  - intros r. rewrite Htrain, elem_of_select_chroms, Hd, Hdata, Hp, Hn.
    rewrite elem_of_app. intros [[Hr|Hr] _]; [by left|right].
    destruct (negatives loaded) as [negs|]; [by exists negs|].
    by apply elem_of_nil in Hr.
Qed.

(** X11.  [data] is the peak frame followed by the negative frame (the peak
    frame alone when no negative file is configured), also after the debug
    subsampling. *)
Theorem data_is_peaks_then_negatives (cfg : Config.t) (dm : t) :
  __init__ cfg = Ok dm →
  data dm = (peaks dm ++ default [] (negatives dm))%list
  ∧ (negatives dm = None ↔ Config.negatives cfg = None).
Proof.
  intros Hinit.
  destruct (init_Ok_more cfg dm Hinit)
    as (loaded & Hload & Hp & Hn & Hd & _).
  destruct (load_regions_data _ _ Hload) as (Hdata & Hnone & _).
  by rewrite Hp, Hn, Hd.
Qed.

(** X12.  When the training and the validation chromosomes (after exclusion)
    share no chromosome, no region is both a training and a validation
    region, and [train_val] has as many rows as [train_data] and
    [val_data] together. *)
Theorem disjoint_lists_give_disjoint_splits (cfg : Config.t) (dm : t) :
  __init__ cfg = Ok dm →
  ¬ share_a_chromosome (train_chroms dm) (val_chroms dm) →
  (∀ r, ¬ (r ∈ train_data dm ∧ r ∈ val_data dm))
  ∧ length (train_val dm)
    = (length (train_data dm) + length (val_data dm))%nat.
Proof.
  intros Hinit Hdisjoint.
  destruct (init_Ok_inv cfg dm Hinit)
    as (_ & _ & _ & _ & _ & _ & _ & Htrain & Hval & _).
  destruct (init_Ok_more cfg dm Hinit)
    as (loaded & _ & _ & _ & _ & _ & _ & Htv & _).
  rewrite Htv, Htrain, Hval. split.
  - intros r. rewrite !elem_of_select_chroms. intros [[_ Htr] [_ Hva]].
    apply Hdisjoint. by exists (chrom r).
  - unfold select_chroms.
    rewrite (List_filter_ext_bool _ _ _ (isin_app _ _)).
    rewrite List_filter_length_disjoint; [lia|].
    intros r Hva Htr. apply Hdisjoint. exists (chrom r).
    unfold isin in *. by rewrite !bool_decide_eq_true in *.
Qed.

(** ** DataModule.setup: the datasets it builds *)

Lemma new_dataset_Ok_inv (p n : DataFrame) (j : Z) (r : Q) (a : bool)
    (dm dm' : t) (g g' : rng) (ds : ChromBPNetDataset.t) :
  new_dataset p n j r a (dm, g) = (Ok ds, (dm', g')) →
  dm' = dm
  ∧ ChromBPNetDataset.regions ds = (p ++ n)%list
  ∧ ChromBPNetDataset.negative_sampling_ratio ds = r
  ∧ ChromBPNetDataset.add_revcomp ds = a
  ∧ ChromBPNetDataset.inputlen ds = Config.in_window (config dm)
  ∧ ChromBPNetDataset.outputlen ds = Config.out_window (config dm)
  ∧ is_Some (ChromBPNetDataset.cur_seqs (ChromBPNetDataset.attrs ds))
  ∧ is_Some (ChromBPNetDataset.cur_cts (ChromBPNetDataset.attrs ds))
  ∧ (r <= 0 → ∀ ns,
       ChromBPNetDataset.nonpeak_seqs ds = Some ns →
       ∃ ps, ChromBPNetDataset.seqs (ChromBPNetDataset.attrs ds)
             = Some (NdArray (tail_shape ns) (ps ++ rows ns)))%Q.
Proof.
  unfold new_dataset.
  destruct (ChromBPNetDataset.__init__ _ _ _ _ _ _ _ _ _ _ _ _ _)
    as [res g1] eqn:Hnew.
  intros [= -> <- <-].
  destruct (dataset_init_Ok_inv _ _ _ _ _ _ _ _ _ _ _ _ _ _ _ Hnew)
    as (loaded & regions & Hload & Hconcat & Hrun & Hregions & Hratio
        & Hrev & Hin & Hout).
  simpl in Hconcat. rewrite app_nil_r in Hconcat.
  injection Hconcat as Hconcat.
  set (fresh := fresh_object _ _ _ _ _ _ _ _ _) in Hrun.
  destruct (crop_revcomp_data_Ok_materialized fresh ds g g1 tt Hrun)
    as (_ & _ & _ & Hcs & Hcc & _).
  split_and!; try done; [congruence|].
  intros Hr ns Hns.
  pose proof (crop_revcomp_data_frame fresh g) as Hframe.
  rewrite Hrun in Hframe; simpl in Hframe.
  apply (crop_revcomp_data_unsampled fresh ds g g1 tt ns); [| |exact Hrun].
  - unfold fresh. by destruct loaded as [[[[[? ?] ?] ?] ?] ?].
  - rewrite Hframe in Hns. unfold fresh.
    by destruct loaded as [[[[[? ?] ?] ?] ?] ?].
Qed.

(** X13.  [setup('test')] that returns has built the test dataset from the
    peaks and non-peaks of (the coerced) test_data, with the ratio -1 and
    without reverse complement: the dataset is materialized and its
    sequences end with every non-peak sequence that was loaded, none is
    sampled away.  The training and validation datasets are not
    touched. *)
Theorem setup_test_keeps_every_negative
    (dm dm' : t) (g g' : rng) (u : unit) :
  setup "test" (dm, g) = (Ok u, (dm', g')) →
  ∃ ds,
    test_dataset dm' = Some ds
    ∧ train_dataset dm' = train_dataset dm
    ∧ val_dataset dm' = val_dataset dm
    ∧ ChromBPNetDataset.regions ds ≡ₚ map coerce_is_peak (test_data dm)
    ∧ ChromBPNetDataset.negative_sampling_ratio ds = (-1)%Q
    ∧ ChromBPNetDataset.add_revcomp ds = false
    ∧ is_Some (ChromBPNetDataset.cur_seqs (ChromBPNetDataset.attrs ds))
    ∧ is_Some (ChromBPNetDataset.cur_cts (ChromBPNetDataset.attrs ds))
    ∧ (∀ ns,
         ChromBPNetDataset.nonpeak_seqs ds = Some ns →
         ∃ ps, ChromBPNetDataset.seqs (ChromBPNetDataset.attrs ds)
               = Some (NdArray (tail_shape ns) (ps ++ rows ns))).
Proof.
  unfold setup.
  destruct (decide ("test" = "fit")) as [[=]|_].
  destruct (decide ("test" = "test")) as [_|[]]; [|done].
  unfold se_bind, by_reference, assign; cbn -[new_dataset].
  destruct (new_dataset _ _ _ _ _ _) as [[ds|e] [dm1 g1]] eqn:Hnew; [|done].
  intros [= <- <-].
  apply new_dataset_Ok_inv in Hnew
    as (-> & Hregions & Hratio & Hrev & _ & _ & Hcs & Hcc & Hall).
  exists ds. simpl. split_and!; try done.
  - rewrite Hregions. apply List_filter_partition.
  - by apply Hall.
Qed.

(** What [setup('fit')] that returns has done. *)
Lemma setup_fit_Ok_inv (dm dm' : t) (g g' : rng) (u : unit) :
  setup "fit" (dm, g) = (Ok u, (dm', g')) →
  ∃ train val,
    train_dataset dm' = Some train
    ∧ val_dataset dm' = Some val
    ∧ test_dataset dm' = test_dataset dm
    ∧ ChromBPNetDataset.regions train
      = (List.filter is_peak_mask (map coerce_is_peak (train_data dm))
         ++ List.filter (λ r, negb (is_peak_mask r))
              (map coerce_is_peak (train_data dm)))%list
    ∧ ChromBPNetDataset.regions val
      = (List.filter is_peak_mask (map coerce_is_peak (val_data dm))
         ++ List.filter (λ r, negb (is_peak_mask r))
              (map coerce_is_peak (val_data dm)))%list
    ∧ ChromBPNetDataset.negative_sampling_ratio train
      = Config.negative_sampling_ratio (config dm)
    ∧ ChromBPNetDataset.negative_sampling_ratio val
      = Config.negative_sampling_ratio (config dm)
    ∧ ChromBPNetDataset.add_revcomp train = true
    ∧ ChromBPNetDataset.add_revcomp val = false
    ∧ is_Some (ChromBPNetDataset.cur_seqs (ChromBPNetDataset.attrs train))
    ∧ is_Some (ChromBPNetDataset.cur_seqs (ChromBPNetDataset.attrs val)).
Proof.
  unfold setup.
  destruct (decide ("fit" = "fit")) as [_|[]]; [|done].
  unfold se_bind, by_reference, assign; cbn -[new_dataset].
  destruct (new_dataset _ _ _ _ _ _) as [[train|e] [dm1 g1]] eqn:Htrain;
    [|done].
  apply new_dataset_Ok_inv in Htrain
    as (-> & Hregions & Hratio & Hrev & _ & _ & Hcs & _).
  cbn -[new_dataset].
  destruct (new_dataset _ _ _ _ _ _) as [[val|e] [dm2 g2]] eqn:Hval;
    [|done].
  apply new_dataset_Ok_inv in Hval
    as (-> & Hregions' & Hratio' & Hrev' & _ & _ & Hcs' & _).
  intros [= <- <-].
  exists train, val. simpl. by split_and!.
Qed.

(** X14.  [setup('fit')] that returns has built the training and the
    validation dataset, each from the peaks and non-peaks of its (coerced)
    split and each with the configured sampling ratio; the training
    dataset adds reverse complements, the validation dataset does not.
    Both are materialized; the test dataset is not touched. *)
Theorem setup_fit_builds_train_and_val
    (dm dm' : t) (g g' : rng) (u : unit) :
  setup "fit" (dm, g) = (Ok u, (dm', g')) →
  ∃ train val,
    train_dataset dm' = Some train
    ∧ val_dataset dm' = Some val
    ∧ test_dataset dm' = test_dataset dm
    ∧ ChromBPNetDataset.regions train ≡ₚ map coerce_is_peak (train_data dm)
    ∧ ChromBPNetDataset.regions val ≡ₚ map coerce_is_peak (val_data dm)
    ∧ ChromBPNetDataset.negative_sampling_ratio train
      = Config.negative_sampling_ratio (config dm)
    ∧ ChromBPNetDataset.negative_sampling_ratio val
      = Config.negative_sampling_ratio (config dm)
    ∧ ChromBPNetDataset.add_revcomp train = true
    ∧ ChromBPNetDataset.add_revcomp val = false
    ∧ is_Some (ChromBPNetDataset.cur_seqs (ChromBPNetDataset.attrs train))
    ∧ is_Some (ChromBPNetDataset.cur_seqs (ChromBPNetDataset.attrs val)).
Proof.
  intros Hrun.
  destruct (setup_fit_Ok_inv dm dm' g g' u Hrun)
    as (train & val & Htrain & Hval & Htest & Hrt & Hrv & Hratio & Hratio'
        & Hrev & Hrev' & Hcs & Hcs').
  exists train, val. split_and!; try done.
  - rewrite Hrt. apply List_filter_partition.
  - rewrite Hrv. apply List_filter_partition.
Qed.

(** [setup] leaves the configuration and the chromosome lists alone. *)
Lemma setup_keeps_lists (stage : string) (dm : t) (g : rng) :
  let dm' := (setup stage (dm, g)).2.1 in
  config dm' = config dm
  ∧ train_chroms dm' = train_chroms dm ∧ val_chroms dm' = val_chroms dm
  ∧ test_chroms dm' = test_chroms dm ∧ chroms dm' = chroms dm.
Proof.
  unfold setup, by_reference, new_dataset, assign, split_peak_and_nonpeak,
    se_bind, se_modify, se_get, se_ret; simpl.
  destruct (decide (stage = "fit")); [|destruct (decide (stage = "test"))];
    simpl; repeat case_step; by split_and!.
Qed.
End more_datamodule_facts.

(** ** Sampling rows of a frame *)

Lemma omap_submseteq {A B} (f : A → option B) (l k : list A) :
  l ⊆+ k → omap f l ⊆+ omap f k.
Proof.
  induction 1 as [|x l k _ IH|x y l|x l k _ IH|l k m _ IH1 _ IH2]; simpl.
  - done.
  - destruct (f x); [by constructor|done].
  - destruct (f x), (f y); try done. by constructor.
  - destruct (f x); [by constructor|done].
  - by etrans.
Qed.

(** Rows read at pairwise distinct positions form a sub-multiset of the
    list. *)
Lemma rows_at_submseteq {A} (l : list A) (idx : list nat) (rs : list A) :
  NoDup idx → Forall2 (λ i r, l !! i = Some r) idx rs → rs ⊆+ l.
Proof.
  intros Hnodup Hrows.
  assert (rs = omap (λ i, l !! i) idx) as ->
    by (symmetry; by apply Forall2_lookup_omap).
  assert (idx ⊆+ seq 0 (length l)) as Hsub; last first.
  { apply (omap_submseteq (λ i, l !! i)) in Hsub.
    by rewrite lookup_all_positions in Hsub. }
  apply NoDup_submseteq; [done|].
  intros i Hi. apply elem_of_seq. split; [lia|]. simpl.
  apply list_elem_of_lookup in Hi as [k Hk].
  destruct (Forall2_lookup_l _ _ _ _ _ Hrows Hk) as (r & _ & Hr).
  by apply lookup_lt_Some in Hr.
Qed.

Section sample_facts.
Context `{NumpyRandom}.

Lemma DataFrame_sample_global_ok (df : DataFrame) (n : Z) (g : rng) :
  0 ≤ n ≤ Z.of_nat (length df) →
  ∃ idx kept g',
    DataFrame_sample_global df n g = (Ok kept, g')
    ∧ Z.of_nat (length kept) = n
    ∧ NoDup idx
    ∧ Forall2 (λ i row, df !! i = Some row) idx kept
    ∧ kept ⊆+ df.
Proof.
  intros Hn. unfold DataFrame_sample_global.
  assert ((n <? 0) = false) as -> by (apply Z.ltb_ge; lia).
  destruct (choice_ok (Z.of_nat (length df)) n g)
    as (idx & g' & Hchoice & Hlen & Hnodup & Hbound); [lia|].
  destruct (ndarray_take_ok (NdArray [] df) idx) as (rs & Htake & Hrs).
  { eapply Forall_impl; [exact Hbound|]. intros; simpl in *; lia. }
  exists idx, rs, g'. simpl in Hrs.
  rewrite (se_bind_ok _ _ _ _ _ Hchoice).
  unfold se_of_result, DataFrame_take. rewrite Htake. simpl.
  apply Forall2_length in Hrs as Hl.
  split_and!; try done; [lia|]. by apply (rows_at_submseteq df idx).
Qed.

(** The test that guards the sampling of a frame makes the request
    feasible, and what it leaves unsampled is what the request would
    have kept anyway. *)
Lemma guard_makes_request_feasible (r : Q) (P N : nat) :
  (0 < r)%Q →
  (inject_Z (Z.of_nat P) * r < inject_Z (Z.of_nat N))%Q →
  py_int (r * inject_Z (Z.of_nat P)) = negatives_kept r P N
  ∧ 0 ≤ negatives_kept r P N < Z.of_nat N.
Proof.
  intros Hr Hguard. unfold negatives_kept.
  destruct (Qlt_le_dec 0 r) as [_|Hle]; [|by apply Qlt_not_le in Hr].
  assert (0 <= r * inject_Z (Z.of_nat P))%Q as Hprod.
  { apply Qmult_le_0_compat; [by apply Qlt_le_weak|].
    change 0%Q with (inject_Z 0). rewrite <-Zle_Qle. lia. }
  rewrite (py_int_floor _ Hprod).
  assert (0 ≤ Qfloor (r * inject_Z (Z.of_nat P))) as Hfloor.
  { change 0 with (Qfloor 0). by apply Qfloor_resp_le. }
  assert (Qfloor (r * inject_Z (Z.of_nat P)) < Z.of_nat N) as Hlt.
  { rewrite Zlt_Qlt. eapply Qle_lt_trans; [apply Qfloor_le|].
    by rewrite Qmult_comm. }
  lia.
Qed.

Lemma guard_keeps_everything (r : Q) (P N : nat) :
  (r <= 0)%Q ∨ (inject_Z (Z.of_nat N) <= inject_Z (Z.of_nat P) * r)%Q →
  negatives_kept r P N = Z.of_nat N.
Proof.
  intros Hskip. unfold negatives_kept.
  destruct (Qlt_le_dec 0 r) as [Hr|Hle]; [|done].
  destruct Hskip as [Hle|Hguard]; [by apply Qlt_not_le in Hr|].
  apply Z.min_r. rewrite <-(Qfloor_Z (Z.of_nat N)).
  apply Qfloor_resp_le. by rewrite Qmult_comm.
Qed.

(** What the guarded sampling of [negs] next to [peaks] does, in
    [concat_peaks_and_subsampled_negatives] and in [chrom_dataset]. *)
Lemma guarded_sample (peaks negs : DataFrame) (r : Q) (g : rng) :
  ∃ kept g',
    (if Qlt_le_dec 0 r then
       if Qlt_le_dec (inject_Z (Z.of_nat (length peaks)) * r)
                     (inject_Z (Z.of_nat (length negs)))
       then DataFrame_sample_global negs
              (py_int (r * inject_Z (Z.of_nat (length peaks)))) g
       else (Ok negs, g)
     else (Ok negs, g)) = (Ok kept, g')
    ∧ kept ⊆+ negs
    ∧ Z.of_nat (length kept) = negatives_kept r (length peaks) (length negs)
    ∧ ((r <= 0)%Q
       ∨ (inject_Z (Z.of_nat (length negs))
          <= inject_Z (Z.of_nat (length peaks)) * r)%Q →
       kept = negs ∧ g' = g).
Proof.
  destruct (Qlt_le_dec 0 r) as [Hr|Hr];
    [destruct (Qlt_le_dec _ _) as [Hguard|Hguard]|].
  - destruct (guard_makes_request_feasible r _ _ Hr Hguard) as [-> Hn].
    destruct (DataFrame_sample_global_ok negs
                (negatives_kept r (length peaks) (length negs)) g)
      as (idx & kept & g' & Hrun & Hlen & _ & _ & Hsub); [lia|].
    exists kept, g'. split_and!; try done.
    intros [Hle|Hle]; exfalso.
    + by apply Qlt_not_le in Hr.
    + by apply Qlt_not_le in Hguard.
  - exists negs, g. split_and!; try done.
    symmetry. apply guard_keeps_everything. by right.
  - exists negs, g. split_and!; try done.
    symmetry. apply guard_keeps_everything. by left.
Qed.


End sample_facts.

(** ** DataModule.chrom_dataset *)

Section chrom_dataset_facts.
Context `{DataUtils} `{Pandas}.
Import DataModule DataModuleQueries.

(** The call is a construction from the peaks of the selected rows and a
    guarded sample of their non-peaks. *)
Lemma chrom_dataset_run (dm : t) (g : rng) (which : chrom_arg) (r : Q) :
  let regions :=
    map coerce_is_peak (select_chroms (data dm) (chromosomes_of dm which)) in
  let peaks := List.filter is_peak_mask regions in
  let non_peaks := List.filter (λ r, negb (is_peak_mask r)) regions in
  ∃ kept g1,
    chrom_dataset which r (dm, g)
    = new_dataset peaks kept 0 (-1) false (dm, g1)
    ∧ kept ⊆+ non_peaks
    ∧ Z.of_nat (length kept)
      = negatives_kept r (length peaks) (length non_peaks)
    ∧ ((r <= 0)%Q → kept = non_peaks ∧ g1 = g).
Proof.
  intros regions peaks non_peaks.
  destruct (guarded_sample peaks non_peaks r g)
    as (kept & g1 & Hrun & Hsub & Hlen & Hskip).
  exists kept, g1. split_and!; try done; [|intros Hr; apply Hskip; by left].
  clear Hsub Hlen Hskip. revert Hrun.
  unfold chrom_dataset, se_local, split_peak_and_nonpeak, se_bind, se_snd,
    se_get, se_ret, se_modify, se_of_result.
  cbn -[new_dataset]. fold regions. fold peaks. fold non_peaks.
  destruct (Qlt_le_dec 0 r); [destruct (Qlt_le_dec _ _)|]; intros Hrun;
    try rewrite Hrun; by simplify_eq/=.
Qed.

(** The rows of the dataset that a successful call returns. *)
Lemma chrom_dataset_rows
    (dm dm' : t) (g g' : rng) (which : chrom_arg) (r : Q)
    (ds : ChromBPNetDataset.t) :
  chrom_dataset which r (dm, g) = (Ok ds, (dm', g')) →
  (∀ row, row ∈ ChromBPNetDataset.regions ds →
     ∃ r0, r0 ∈ data dm ∧ chrom r0 ∈ chromosomes_of dm which
           ∧ row = coerce_is_peak r0)
  ∧ (∀ r0, r0 ∈ data dm → chrom r0 ∈ chromosomes_of dm which →
       astype_int (is_peak r0) ≠ 0 →
       coerce_is_peak r0 ∈ ChromBPNetDataset.regions ds).
Proof.
  intros Hrun.
  destruct (chrom_dataset_run dm g which r)
    as (kept & g1 & Hcall & Hsub & Hlen & _).
  rewrite Hcall in Hrun.
  apply new_dataset_Ok_inv in Hrun as (_ & Hregions & _).
  split.
  - intros row. rewrite Hregions, elem_of_app. intros [Hrow|Hrow].
    + apply elem_of_List_filter in Hrow as [Hrow _].
      apply list_elem_of_fmap in Hrow as (r0 & -> & Hr0).
      apply elem_of_select_chroms in Hr0 as [? ?]. by exists r0.
    + apply (elem_of_submseteq _ _ _ Hrow) in Hsub.
      apply elem_of_List_filter in Hsub as [Hsub _].
      apply list_elem_of_fmap in Hsub as (r0 & -> & Hr0).
      apply elem_of_select_chroms in Hr0 as [? ?]. by exists r0.
  - intros r0 Hr0 Hchrom Hpeak. rewrite Hregions, elem_of_app. left.
    apply elem_of_List_filter. split.
    + apply list_elem_of_fmap. exists r0. split; [done|].
      by apply elem_of_select_chroms.
    + rewrite is_peak_mask_coerce. by apply negb_true_iff, Z.eqb_neq.
Qed.


(** X18.  [chrom_dataset('all')] on a constructed module serves no region of
    an excluded chromosome, whereas a chromosome named directly is served
    whether or not it is excluded: for a name other than 'train', 'val',
    'test' and 'all', the dataset holds rows of that chromosome only, and
    every peak of [data] on it. *)
Theorem chrom_dataset_applies_exclusion_to_keywords_only
    (cfg : Config.t) (dm dm' : t) (g g' : rng) (r : Q)
    (ds : ChromBPNetDataset.t) (name : string) :
  __init__ cfg = Ok dm →
  (chrom_dataset (ChromStr "all") r (dm, g) = (Ok ds, (dm', g')) →
     ∀ row, row ∈ ChromBPNetDataset.regions ds →
       chrom row ∉ Config.exclude_chroms cfg)
  ∧ (name ∉ ["train"; "val"; "test"; "all"] →
     chrom_dataset (ChromStr name) r (dm, g) = (Ok ds, (dm', g')) →
     (∀ row, row ∈ ChromBPNetDataset.regions ds → chrom row = name)
     ∧ (∀ r0, r0 ∈ data dm → chrom r0 = name →
          astype_int (is_peak r0) ≠ 0 →
          coerce_is_peak r0 ∈ ChromBPNetDataset.regions ds)).
Proof.
  intros Hinit. split.
  - intros Hrun row Hrow.
    destruct (chrom_dataset_run dm g (ChromStr "all") r)
      as (kept & g1 & Hcall & Hsub & _ & _).
    rewrite Hcall in Hrun.
    apply new_dataset_Ok_inv in Hrun as (_ & Hregions & _).
    assert (chrom row ∈ chroms dm) as Hin.
    { rewrite Hregions, elem_of_app in Hrow.
      assert (row ∈ map coerce_is_peak
                      (select_chroms (data dm) (chroms dm))) as Hsel.
      { destruct Hrow as [Hrow|Hrow].
        - by apply elem_of_List_filter in Hrow as [Hrow _].
        - apply (elem_of_submseteq _ _ _ Hrow) in Hsub.
          by apply elem_of_List_filter in Hsub as [Hsub _]. }
      apply list_elem_of_fmap in Hsel as (r0 & -> & Hr0).
      by apply elem_of_select_chroms in Hr0 as [_ ?]. }
    destruct (init_Ok_inv cfg dm Hinit)
      as (_ & _ & _ & _ & Htr & Hva & Hte & _).
    destruct (init_Ok_more cfg dm Hinit)
      as (loaded & _ & _ & _ & _ & _ & Hchroms & _).
    rewrite Hchroms, Htr, Hva, Hte in Hin.
    rewrite !elem_of_app, !elem_of_not_excluded in Hin. tauto.
  - intros Hname Hrun.
    assert (chromosomes_of dm (ChromStr name) = [name]) as Hsel.
    { rewrite !elem_of_cons, elem_of_nil in Hname. unfold chromosomes_of.
      rewrite decide_False by (rewrite !elem_of_cons, elem_of_nil; tauto).
      rewrite decide_False by tauto. done. }
    destruct (chrom_dataset_rows dm dm' g g' (ChromStr name) r ds Hrun)
      as (Hrows & Hpeaks).
    rewrite Hsel in Hrows, Hpeaks. split.
    + intros row Hrow. destruct (Hrows row Hrow) as (r0 & _ & Hc & ->).
      by apply list_elem_of_singleton in Hc.
    + intros r0 Hr0 Hc Hpeak. apply Hpeaks; try done.
      by apply list_elem_of_singleton.
Qed.

(** X19.  The two ways to the training regions agree.  On a constructed
    module that [setup('fit')] has set up, [chrom_dataset('train')] with a
    ratio [r <= 0] returns a dataset over the very regions of the training
    dataset: the peaks of the coerced training split followed by its
    non-peaks. *)
Theorem chrom_dataset_train_has_the_training_regions
    (cfg : Config.t) (dm dm' dm'' : t) (g g' h h' : rng) (u : unit)
    (r : Q) (ds : ChromBPNetDataset.t) :
  __init__ cfg = Ok dm →
  setup "fit" (dm, g) = (Ok u, (dm', g')) →
  (r <= 0)%Q →
  chrom_dataset (ChromStr "train") r (dm', h) = (Ok ds, (dm'', h')) →
  ∃ train,
    train_dataset dm' = Some train
    ∧ ChromBPNetDataset.regions ds = ChromBPNetDataset.regions train.
Proof.
  intros Hinit Hfit Hr Hrun.
  destruct (setup_fit_Ok_inv dm dm' g g' u Hfit)
    as (train & val & Htrain & _ & _ & Hregions & _).
  exists train. split; [done|].
  destruct (chrom_dataset_run dm' h (ChromStr "train") r)
    as (kept & h1 & Hcall & _ & _ & Hskip).
  destruct (Hskip Hr) as [-> ->].
  rewrite Hcall in Hrun.
  apply new_dataset_Ok_inv in Hrun as (_ & Hds & _).
  rewrite Hds, Hregions.
  pose proof (setup_frames "fit" dm g) as (_ & _ & _ & Hdata & _).
  pose proof (setup_keeps_lists "fit" dm g) as (_ & Htr & _).
  rewrite Hfit in Hdata, Htr. simpl in Hdata, Htr.
  destruct (init_Ok_inv cfg dm Hinit)
    as (_ & _ & _ & _ & _ & _ & _ & Htrain_data & _).
  assert (chromosomes_of dm' (ChromStr "train") = train_chroms dm') as ->
    by done.
  by rewrite Hdata, Htr, <-Htrain_data.
Qed.
End chrom_dataset_facts.

(** ** chrombpnet.logger.create_logger *)

Lemma odd_positions_sublist {A} (l : list A) : odd_positions l `sublist_of` l.
Proof.
  assert (∀ l : list A,
            odd_positions l `sublist_of` l
            ∧ ∀ x, odd_positions (x :: l) `sublist_of` x :: l) as Hboth.
  { clear l. induction l as [|y l [IH1 IH2]].
    - split; [constructor|]. intros x. apply sublist_nil_l.
    - split; [apply IH2|]. intros x. simpl.
      by apply sublist_cons, sublist_skip. }
  apply Hboth.
Qed.

Lemma odd_positions_length {A} (l : list A) :
  length (odd_positions l) = Nat.div2 (length l).
Proof.
  assert (∀ l : list A,
            length (odd_positions l) = Nat.div2 (length l)
            ∧ ∀ x, length (odd_positions (x :: l))
                   = Nat.div2 (length (x :: l))) as Hboth.
  { clear l. induction l as [|y l [IH1 IH2]].
    - by split.
    - split; [apply IH2|]. intros x. simpl. by rewrite IH1. }
  apply Hboth.
Qed.

Section logger_facts.
Context `{logger.FileSystem}.
Import logger.

Lemma list_remove_middle (a : Handler) (kept rest : list Handler) :
  ident a ∉ map ident kept →
  list_remove a (kept ++ a :: rest) = (kept ++ rest)%list.
Proof.
  induction kept as [|x kept IH]; simpl; intros Hnot.
  - by rewrite decide_True.
  - apply not_elem_of_cons in Hnot as [Hne Hnot].
    rewrite decide_False by done. by rewrite IH.
Qed.

(** The loop ends within [len(handlers)] turns, whatever the fuel beyond
    that, and leaves every other handler attached: the iterator steps
    over the entry that moved into the place of the one just removed. *)
Lemma remove_loop_spec (fuel : nat) (lv : Z) (kept rest : list Handler) :
  NoDup (map ident (kept ++ rest)) →
  (length rest ≤ fuel)%nat →
  remove_loop fuel (length kept) {| level := lv; handlers := kept ++ rest |}
  = {| level := lv; handlers := kept ++ odd_positions rest |}.
Proof.
  revert kept rest. induction fuel as [|fuel IH]; intros kept rest Hnd Hfuel.
  - destruct rest; [done|]. simpl in Hfuel. lia.
  - destruct rest as [|a [|b rest]]; cbn [remove_loop handlers odd_positions].
    + rewrite lookup_ge_None_2; [done|]. rewrite length_app. simpl. lia.
    + rewrite list_lookup_middle by done.
      unfold removeHandler; cbn [handlers level].
      rewrite list_remove_middle.
      * destruct fuel; [done|]. cbn [remove_loop handlers].
        rewrite lookup_ge_None_2; [done|]. rewrite length_app. simpl. lia.
      * rewrite fmap_app in Hnd. apply NoDup_app in Hnd as (_ & Hnd & _).
        intros Hin. apply (Hnd _ Hin). simpl. left.
    + rewrite list_lookup_middle by done.
      unfold removeHandler; cbn [handlers level].
      rewrite list_remove_middle.
      * specialize (IH (kept ++ [b])%list rest).
        rewrite length_app, Nat.add_1_r, <-!app_assoc in IH. simpl in IH.
        apply IH; [|simpl in Hfuel; lia].
        rewrite fmap_app in Hnd |- *. simpl in *.
        apply NoDup_app in Hnd as (Hk & Hdisj & Hrest).
        apply NoDup_cons in Hrest as [_ Hrest].
        apply NoDup_app. split_and!; [done| |done].
        intros x Hx Hin. apply (Hdisj x Hx). by right.
      * rewrite fmap_app in Hnd. apply NoDup_app in Hnd as (_ & Hnd & _).
        intros Hin. apply (Hnd _ Hin). simpl. left.
Qed.

Lemma remove_handlers_spec (l : Logger) :
  NoDup (map ident (handlers l)) →
  remove_handlers l
  = {| level := level l; handlers := odd_positions (handlers l) |}.
Proof.
  intros Hnd. destruct l as [lv hs]. unfold remove_handlers. simpl.
  by apply (remove_loop_spec (length hs) lv [] hs).
Qed.

Lemma addHandler_fresh (h : Handler) (l : Logger) :
  Forall (λ x, (ident x < ident h)%nat) (handlers l) →
  addHandler h l = {| level := level l; handlers := handlers l ++ [h] |}.
Proof.
  intros Hfresh. unfold addHandler. rewrite decide_False; [done|].
  intros Hin. apply list_elem_of_fmap in Hin as (x & Hx & Hin).
  apply (proj1 (Forall_forall _ _) Hfresh) in Hin. lia.
Qed.

(** The steps of [create_logger], seen through the loggers, the number of
    handlers created and the file system. *)
Lemma getLogger_run (name : string) (w : world) :
  ∃ w1, getLogger name w = (Ok (logger_of name), w1)
    ∧ (∀ r, deref r w1 = deref r w)
    ∧ created w1 = created w ∧ files w1 = files w.
Proof.
  unfold getLogger, logger_of.
  destruct (decide (name = "")); [by eexists|].
  destruct (decide (name = "root")); [by eexists|].
  eexists. split; [done|]. simpl. split_and!; try done.
  intros [|name']; simpl; [done|].
  destruct (loggerDict w !! name) as [l|] eqn:Hl; [done|].
  destruct (decide (name' = name)) as [->|Hne].
  - by rewrite lookup_insert_eq, Hl.
  - by rewrite lookup_insert_ne.
Qed.

Lemma call_run (r : logger_ref) (method : Logger → Logger) (w : world) :
  ∃ w1, call r method w = (Ok tt, w1)
    ∧ deref r w1 = method (deref r w)
    ∧ same_but r w w1
    ∧ created w1 = created w ∧ files w1 = files w.
Proof.
  unfold call, se_modify, same_but. eexists. split; [done|].
  destruct r as [|name]; simpl.
  - split_and!; try done. by intros [|name'].
  - rewrite lookup_insert_eq. split_and!; try done.
    intros [|name'] Hne; simpl; [done|].
    rewrite lookup_insert_ne; [done|congruence].
Qed.

Lemma new_handler_run (s : Stream) (w : world) :
  ∃ w1,
    new_handler s w
    = (Ok {| ident := created w; stream := s; handler_level := NOTSET;
             formatter := None |}, w1)
    ∧ (∀ r, deref r w1 = deref r w)
    ∧ created w1 = S (created w) ∧ files w1 = files w.
Proof. eexists. split; [done|]. by split_and!. Qed.

(** What a call does to the logger it configures, to the other loggers
    and to the file system, in its three outcomes: no log file asked for,
    the log file opened, and the log file not opened. *)
Lemma create_logger_run (name : string) (ch : bool) (fh : option string)
    (lv : Z) (overwrite : bool) (w : world) :
  let r := logger_of name in
  let old := handlers (deref r w) in
  let kept := if overwrite then odd_positions old else old in
  let chs := stream_part ch (created w) in
  let n := (created w + length chs)%nat in
  handlers_ok r w →
  ∃ res w',
    create_logger name ch fh lv overwrite w = (res, w')
    ∧ same_but r w w'
    ∧ match log_file fh with
      | None =>
          res = Ok r
          ∧ deref r w' = {| level := lv; handlers := kept ++ chs |}
          ∧ created w' = n ∧ files w' = files w
      | Some path =>
          match open_w path (files w) with
          | Some files' =>
              res = Ok r
              ∧ deref r w'
                = {| level := lv;
                     handlers := kept ++ chs ++ [file_handler n path] |}
              ∧ created w' = S n ∧ files w' = files'
          | None =>
              res = Raise (ExternalError "open")
              ∧ deref r w' = {| level := lv; handlers := kept ++ chs |}
              ∧ created w' = n ∧ files w' = files w
          end
      end.
Proof.
  intros r old kept chs n [Hnd Hbound]. unfold create_logger.
  (* logger = logging.getLogger(name) *)
  destruct (getLogger_run name w) as (w1 & Hget & Hd1 & Hc1 & Hf1).
  rewrite (se_bind_ok _ _ _ _ _ Hget). fold r.
  (* logger.setLevel(levelname) *)
  destruct (call_run r (setLevel lv) w1) as (w2 & Hset & Hd2 & Hs2 & Hc2 & Hf2).
  rewrite (se_bind_ok _ _ _ _ _ Hset).
  rewrite Hd1 in Hd2. fold old in Hnd, Hbound.
  (* the loop *)
  assert (∃ w3,
            (if overwrite then call r remove_handlers else se_ret tt) w2
            = (Ok tt, w3)
            ∧ deref r w3 = {| level := lv; handlers := kept |}
            ∧ same_but r w2 w3
            ∧ created w3 = created w ∧ files w3 = files w)
    as (w3 & Hloop & Hd3 & Hs3 & Hc3 & Hf3).
  { unfold kept. destruct overwrite.
    - destruct (call_run r remove_handlers w2)
        as (w3 & Hrm & Hd3 & Hs3 & Hc3 & Hf3).
      exists w3. split_and!; try done; try congruence.
      rewrite Hd3, Hd2. unfold setLevel.
      by rewrite remove_handlers_spec.
    - exists w2. split_and!; try done; try congruence. }
  rewrite (se_bind_ok _ _ _ _ _ Hloop).
  assert (Forall (λ h, (ident h < created w)%nat) kept) as Hkept.
  { unfold kept. destruct overwrite; [|done].
    apply Forall_forall. intros h Hh.
    apply (proj1 (Forall_forall _ _) Hbound).
    eapply elem_of_submseteq; [exact Hh|].
    apply sublist_submseteq, odd_positions_sublist. }
  (* the stream handler *)
  assert (∃ w4,
            (if ch
             then ch <- StreamHandler ;;
                  call r (addHandler
                            (setFormatter
                               "%(asctime)s - %(name)s - %(levelname)s - %(message)s"
                               (handler_setLevel INFO ch)))
             else se_ret tt) w3 = (Ok tt, w4)
            ∧ deref r w4 = {| level := lv; handlers := kept ++ chs |}
            ∧ same_but r w3 w4
            ∧ created w4 = n ∧ files w4 = files w)
    as (w4 & Hstream & Hd4 & Hs4 & Hc4 & Hf4).
  { unfold chs, n, stream_part. destruct ch; simpl.
    - destruct (new_handler_run Stderr w3) as (w3' & Hnew & Hd & Hc & Hf).
      unfold StreamHandler. rewrite (se_bind_ok _ _ _ _ _ Hnew).
      destruct (call_run r
                  (addHandler
                     (setFormatter log_format
                        (handler_setLevel INFO
                           {| ident := created w3; stream := Stderr;
                              handler_level := NOTSET; formatter := None |})))
                  w3')
        as (w4 & Hadd & Hd4 & Hs4 & Hc4' & Hf4').
      exists w4. split_and!; try done.
      + rewrite Hd4, Hd, Hd3, addHandler_fresh; simpl.
        * by rewrite Hc3.
        * by rewrite Hc3.
      + intros r' Hr'. rewrite (Hs4 r' Hr'). apply Hd.
      + lia.
      + congruence.
    - exists w3. rewrite app_nil_r. split_and!; try done; try lia. }
  rewrite (se_bind_ok _ _ _ _ _ Hstream).
  assert (same_but r w w4) as Hs.
  { intros r' Hr'.
    rewrite (Hs4 r' Hr'), (Hs3 r' Hr'), (Hs2 r' Hr'). apply Hd1. }
  assert (Forall (λ h, (ident h < n)%nat) (kept ++ chs)) as Hall.
  { apply Forall_app. split.
    - eapply Forall_impl; [exact Hkept|]. intros h Hh; simpl in *. lia.
    - unfold chs, n, stream_part. destruct ch; simpl; [|done].
      apply Forall_singleton. simpl. lia. }
  (* the file handler *)
  destruct (log_file fh) as [path|].
  - unfold FileHandler. unfold se_bind at 1 2 3. simpl. rewrite Hf4.
    destruct (open_w path (files w)) as [files'|].
    + simpl. unfold se_bind, se_modify, se_ret. simpl.
      eexists _, _. split; [done|]. split_and!; try done.
      * intros r' Hr'. rewrite <-(Hs r' Hr').
        destruct r as [|name0], r' as [|name']; simpl; try done.
        rewrite lookup_insert_ne; [done|congruence].
      * destruct r as [|name0]; simpl in *.
        -- rewrite Hd4, Hc4, addHandler_fresh; simpl; [|done].
           by rewrite <-app_assoc.
        -- rewrite lookup_insert_eq; simpl.
           rewrite Hd4, Hc4, addHandler_fresh; simpl; [|done].
           by rewrite <-app_assoc.
      * destruct r; simpl; by rewrite Hc4.
      * by destruct r.
    + eexists _, _. split; [done|]. by split_and!.
  - unfold se_bind, se_ret. eexists _, _. split; [done|]. by split_and!.
Qed.




(** X20.  [overwrite=True] does not detach all handlers.  The loop removes
    handlers from the list it is iterating over, so the iterator skips
    every second one: the handlers at positions 1, 3, 5, ... of the old
    list (half of them, rounded down) stay attached, in front of the
    handlers that the call adds: some old handler stays whenever the
    logger had two or more. *)
Theorem create_logger_overwrite_keeps_every_other_handler
    (name : string) (ch : bool) (fh : option string) (lv : Z)
    (w w' : world) (res : result logger_ref) :
  handlers_ok (logger_of name) w →
  create_logger name ch fh lv true w = (res, w') →
  let old := handlers (deref (logger_of name) w) in
  ∃ new,
    handlers (deref (logger_of name) w') = (odd_positions old ++ new)%list
    ∧ odd_positions old `sublist_of` old
    ∧ length (odd_positions old) = Nat.div2 (length old)
    ∧ ((2 ≤ length old)%nat → odd_positions old ≠ [])
    ∧ Forall (λ h, (created w ≤ ident h)%nat) new.
Proof.
  intros Hok Hrun old.
  assert ((2 ≤ length old)%nat → odd_positions old ≠ []) as Hleft.
  { destruct old as [|h0 [|h1 rest]]; simpl; [lia|lia|done]. }
  destruct (create_logger_run name ch fh lv true w Hok)
    as (res' & w1 & Hrun' & _ & Hcases).
  rewrite Hrun in Hrun'. injection Hrun' as <- <-.
  assert (Forall (λ h, (created w ≤ ident h)%nat)
            (stream_part ch (created w))) as Hch.
  { unfold stream_part. destruct ch; [|done].
    apply Forall_singleton. simpl. lia. }
  destruct (log_file fh) as [path|];
    [destruct (open_w path (files w)) as [files'|]|];
    destruct Hcases as (_ & -> & _); simpl.
  - eexists. split_and!; [done|apply odd_positions_sublist
                          |apply odd_positions_length|done|].
    apply Forall_app. split; [done|]. apply Forall_singleton. simpl. lia.
  - eexists. split_and!; [done|apply odd_positions_sublist
                          |apply odd_positions_length|done|done].
  - eexists. split_and!; [done|apply odd_positions_sublist
                          |apply odd_positions_length|done|done].
Qed.

(** X21.  Without [overwrite], handlers pile up: the call never detaches a
    handler, it appends the ones it creates, which are new objects.  So
    each call with [ch] true attaches one more stream handler, and a
    logger configured twice writes every record to sys.stderr twice. *)
Theorem create_logger_accumulates_handlers
    (name : string) (ch : bool) (fh : option string) (lv : Z)
    (w w' : world) (res : result logger_ref) :
  handlers_ok (logger_of name) w →
  create_logger name ch fh lv false w = (res, w') →
  let old := handlers (deref (logger_of name) w) in
  ∃ new,
    handlers (deref (logger_of name) w') = (old ++ new)%list
    ∧ Forall (λ h, (created w ≤ ident h)%nat) new
    ∧ (ch = true → stream_handler (created w) ∈ new)
    ∧ (res = Ok (logger_of name) →
       length new
       = ((if ch then 1 else 0) + (if log_file fh is Some _ then 1 else 0))%nat).
Proof.
  intros Hok Hrun old.
  destruct (create_logger_run name ch fh lv false w Hok)
    as (res' & w1 & Hrun' & _ & Hcases).
  rewrite Hrun in Hrun'. injection Hrun' as <- <-.
  assert (Forall (λ h, (created w ≤ ident h)%nat)
            (stream_part ch (created w))) as Hch.
  { unfold stream_part. destruct ch; [|done].
    apply Forall_singleton. simpl. lia. }
  assert (ch = true → stream_handler (created w) ∈ stream_part ch (created w))
    as Hin.
  { intros ->. simpl. apply list_elem_of_here. }
  assert (length (stream_part ch (created w)) = if ch then 1 else 0)%nat
    as Hlen by (by destruct ch).
  destruct (log_file fh) as [path|];
    [destruct (open_w path (files w)) as [files'|]|];
    destruct Hcases as (Hres & -> & _); simpl.
  - eexists. split_and!; [done| | |].
    + apply Forall_app. split; [done|]. apply Forall_singleton. simpl. lia.
    + intros Hc. apply elem_of_app. left. by apply Hin.
    + intros _. rewrite length_app, Hlen. simpl. lia.
  - eexists. split_and!; [done|done|done|]. by rewrite Hres.
  - eexists. split_and!; [done|done|done|]. intros _. rewrite Hlen. lia.
Qed.


(** X23.  The call is not undone when the log file cannot be opened: it
    raises, but by then the logger has its new level, has lost the
    handlers that [overwrite] removes and has the new stream handler
    attached.  The file system is as before. *)
Theorem create_logger_open_failure_is_not_rolled_back
    (name : string) (ch : bool) (fh : option string) (lv : Z)
    (overwrite : bool) (w : world) (path : string) :
  handlers_ok (logger_of name) w →
  log_file fh = Some path →
  open_w path (files w) = None →
  let old := handlers (deref (logger_of name) w) in
  ∃ w',
    create_logger name ch fh lv overwrite w
    = (Raise (ExternalError "open"), w')
    ∧ level (deref (logger_of name) w') = lv
    ∧ handlers (deref (logger_of name) w')
      = ((if overwrite then odd_positions old else old)
         ++ stream_part ch (created w))%list
    ∧ files w' = files w.
Proof.
  intros Hok Hfile Hopen old.
  destruct (create_logger_run name ch fh lv overwrite w Hok)
    as (res & w' & Hrun & _ & Hcases).
  rewrite Hfile, Hopen in Hcases.
  destruct Hcases as (-> & Hlogger & _ & Hfiles).
  exists w'. by rewrite Hlogger.
Qed.
End logger_facts.

(** ** Datasets of one kind, and files that do not load *)

Section single_kind_facts.
Context `{DataUtils}.
Import ChromBPNetDataset.

(** X24.  The sampling ratio plays a role only when the dataset has both
    peak and non-peak arrays.  Without peak arrays a successful refresh
    materializes the non-peak arrays as they are, whatever the ratio, and
    [random_crop] is not called: the generator goes to the augmentation
    directly.  Without non-peak arrays it materializes what [random_crop]
    returned for the peaks.  In both cases the sampled_nonpeak_*
    attributes are left as they were. *)
Theorem crop_revcomp_data_single_kind_ignores_ratio
    (self self' : t) (g g' : rng) (u : unit) :
  peak_seqs self = None ∨ nonpeak_seqs self = None →
  crop_revcomp_data (self, g) = (Ok u, (self', g')) →
  sampled_nonpeak_seqs (attrs self') = sampled_nonpeak_seqs (attrs self)
  ∧ sampled_nonpeak_cts (attrs self') = sampled_nonpeak_cts (attrs self)
  ∧ sampled_nonpeak_coords (attrs self')
    = sampled_nonpeak_coords (attrs self)
  ∧ (peak_seqs self = None →
       seqs (attrs self') = nonpeak_seqs self
       ∧ cts (attrs self') = nonpeak_cts self
       ∧ coords (attrs self') = nonpeak_coords self
       ∧ ∃ s c co cur,
           nonpeak_seqs self = Some s ∧ nonpeak_cts self = Some c
           ∧ nonpeak_coords self = Some co
           ∧ crop_revcomp_augment s c co (inputlen self) (outputlen self)
               (add_revcomp self) (shuffle_at_epoch_start self) g
             = (Some cur, g'))
  ∧ (nonpeak_seqs self = None →
       ∃ ps pc pco cropped g1,
         peak_seqs self = Some ps ∧ peak_cts self = Some pc
         ∧ peak_coords self = Some pco
         ∧ random_crop ps pc (inputlen self) (outputlen self) pco g
           = (Some cropped, g1)
         ∧ seqs (attrs self') = Some cropped.1.1
         ∧ cts (attrs self') = Some cropped.1.2
         ∧ coords (attrs self') = Some cropped.2).
Proof.
  destruct self as [ps ns pc nc pco nco r il ol bs ar rc sh rg c0].
  simpl. intros Hkind.
  unfold crop_revcomp_data, crop_peaks, stack_peaks_and, np_random, array,
    setattr, self_, se_snd, external_random, external, se_bind,
    se_of_result, se_ret, se_raise; simpl.
  destruct Hkind as [-> | ->].
  - repeat case_step; intros [= <- <- <-]; simpl.
    split_and!; try done. intros _. split_and!; try done.
    by eexists _, _, _, _.
  - repeat case_step; intros [= <- <- <-]; simpl.
    split_and!; try done. intros _. by eexists _, _, _, _, _.
Qed.
End single_kind_facts.

Section load_failures.
Context `{DataUtils} `{Pandas}.
Import DataModule.

(** X25.  A configured background file that cannot be loaded makes the
    construction fail (with the exception of the loader), although a
    constructed module never uses the background. *)
Theorem unloadable_background_aborts_construction
    (cfg : Config.t) (path : string) :
  Config.data_type cfg = "profile" →
  Config.background cfg = Some path →
  load_region_df path (Config.chrom_sizes cfg) (Config.in_window cfg)
    (Config.shift cfg) false = None →
  __init__ cfg = Raise (ExternalError "load_region_df").
Proof.
  intros Hprofile Hbg Hload.
  pose proof (init_profile cfg Hprofile) as Hinit.
  assert ((_load_regions (blank cfg)).1 = Raise (ExternalError "load_region_df"))
    as Hraise.
  { unfold _load_regions, _debug_subsample, load, se_bind, se_of_result,
      se_ret, se_raise, se_get, se_modify, external; simpl.
    rewrite Hbg.
    repeat case_step; try done; simpl in *; congruence. }
  destruct (_load_regions (blank cfg)) as [[[]|e] s]; simpl in Hraise;
    [done|]. by simplify_eq.
Qed.
End load_failures.

(* ===================================================================== *)
(** * The model at work: concrete runs                                    *)
(* ===================================================================== *)

Section concrete_runs.
Import Fixtures.
#[local] Existing Instance lcg.
#[local] Existing Instance dtypes.
#[local] Existing Instance data_utils.
#[local] Existing Instance pandas.


Example fx_train_built : (fx_new (1 # 2) true).1 = Ok fx_train.
Proof. vm_compute. reflexivity. Qed.

Example fx_train_size :
  (ChromBPNetDataset.__len__ (fx_train, seed 0)).1 = Ok 3.
Proof. vm_compute. reflexivity. Qed.

Example fx_test_built : (fx_new (-1) false).1 = Ok fx_test.
Proof. vm_compute. reflexivity. Qed.

(** C8 on a refresh of the training dataset. *)
Lemma crop_revcomp_data_recomputes_from_sources_witness :
  sources (ChromBPNetDataset.crop_revcomp_data (fx_train, seed 3)).2.1
  = sources fx_train
  ∧ (ChromBPNetDataset.crop_revcomp_data
       (ChromBPNetDataset.with_attrs (λ _, ChromBPNetDataset.no_cache) fx_train,
        seed 3)).1
    = (ChromBPNetDataset.crop_revcomp_data (fx_train, seed 3)).1.
Proof.
  pose proof (crop_revcomp_data_recomputes_from_sources
                fx_train ChromBPNetDataset.no_cache (seed 3))
    as (Hsrc & _ & Hout & _).
  split; [exact Hsrc | exact Hout].
Defined.

(** C2 on the training dataset. *)
Lemma crop_revcomp_data_same_seed_witness :
  ChromBPNetDataset.crop_revcomp_data
    ((ChromBPNetDataset.crop_revcomp_data (fx_train, seed 3)).2.1, seed 3)
  = ChromBPNetDataset.crop_revcomp_data (fx_train, seed 3).
Proof. exact (crop_revcomp_data_same_seed fx_train (seed 3)). Defined.

(** C3 on the training dataset, which holds three examples. *)
Lemma getitem_in_range_witness :
  ChromBPNetDataset.__len__ (fx_train, seed 0) = (Ok 3, (fx_train, seed 0))
  ∧ (∃ example,
       ChromBPNetDataset.__getitem__ 2 (fx_train, seed 0)
       = (Ok example, (fx_train, seed 0))
       ∧ ChromBPNetDataset.onehot_seq example
         = map (map inject_Z)
             [[1; 0; 0; 0]; [0; 1; 0; 0]; [0; 0; 1; 0]; [0; 0; 0; 1]]
       ∧ ChromBPNetDataset.profile example = map inject_Z [1; 2])
  ∧ ChromBPNetDataset.__getitem__ 3 (fx_train, seed 0)
    = (Raise (IndexError 3 3), (fx_train, seed 0)).
Proof.
  destruct (getitem_in_range fx_train (seed 0) fx_cur_seqs fx_cur_cts)
    as (Hlen & Hget & Hout & _); [reflexivity..|].
  split_and!.
  - exact Hlen.
  - destruct (Hget 2) as (row & crow & Hrow & Hcrow & Hitem & _);
      [by vm_compute|].
    eexists. split; [exact Hitem|].
    vm_compute in Hrow, Hcrow. simplify_eq. by vm_compute.
  - apply (Hout 3). by vm_compute.
Defined.

(** C10 on the training dataset: index -1 is the last example. *)
Lemma getitem_negative_index_witness :
  ChromBPNetDataset.__getitem__ (-1) (fx_train, seed 0)
  = ChromBPNetDataset.__getitem__ 2 (fx_train, seed 0).
Proof.
  destruct (getitem_negative_index fx_train (seed 0) fx_cur_seqs fx_cur_cts)
    as (Hneg & _); [reflexivity..|].
  destruct (Hneg (-1)) as [Heq _]; [by vm_compute|]. exact Heq.
Defined.

(** C6 on the refresh that built the test dataset (ratio -1): two cropped
    peaks, then the three non-peaks. *)
Lemma crop_revcomp_data_keeps_all_nonpeaks_witness :
  ∃ ps pc pco,
    ChromBPNetDataset.seqs (ChromBPNetDataset.attrs fx_test)
    = Some (NdArray [4%nat; 4%nat] (ps ++ rows fx_test_nonpeak_seqs))
    ∧ ChromBPNetDataset.cts (ChromBPNetDataset.attrs fx_test)
      = Some (NdArray [2%nat] (pc ++ rows fx_test_nonpeak_cts))
    ∧ ChromBPNetDataset.coords (ChromBPNetDataset.attrs fx_test)
      = Some (NdArray [] (pco ++ rows fx_test_nonpeak_coords))
    ∧ length ps = 2%nat.
Proof.
  destruct (crop_revcomp_data_keeps_all_nonpeaks
              fx_test_before fx_test (seed 7)
              (ChromBPNetDataset.crop_revcomp_data (fx_test_before, seed 7)).2.2
              tt fx_test_nonpeak_seqs fx_test_nonpeak_cts
              fx_test_nonpeak_coords)
    as (ps & pc & pco & Hs & Hc & Hco & Hcrop & _).
  - by vm_compute.
  - reflexivity.
  - reflexivity.
  - reflexivity.
  - vm_compute. reflexivity.
  - exists ps, pc, pco. split_and!; [exact Hs | exact Hc | exact Hco |].
    simpl in Hcrop. destruct Hcrop as (cropped & g1 & Hrun & -> & _).
    vm_compute in Hrun. by simplify_eq.
Defined.


Example fx_module_built :
  DataModule.__init__ fx_config = Ok (fx_module fx_config).
Proof. vm_compute. reflexivity. Qed.

(** C4 (amended) on the configured module: the peak on the excluded "chrM"
    is in no split, the peak on "chr2" is in exactly one. *)
Lemma split_follows_the_lists_witness :
  outputs_holding (fx_module fx_config) (fx_region "chrM" 0 true) = 0%nat
  ∧ outputs_holding (fx_module fx_config) (fx_region "chr2" 0 true) = 1%nat.
Proof.
  split.
  - destruct (split_follows_the_lists fx_config (fx_module fx_config)
                (fx_region "chrM" 0 true)) as [Hexcluded _].
    + exact fx_module_built.
    + apply (bool_decide_unpack _). by vm_compute.
    + apply Hexcluded. apply (bool_decide_unpack _). by vm_compute.
  - destruct (split_follows_the_lists fx_config (fx_module fx_config)
                (fx_region "chr2" 0 true)) as [_ Hkept].
    + exact fx_module_built.
    + apply (bool_decide_unpack _). by vm_compute.
    + apply Hkept.
      * apply (bool_decide_unpack _). by vm_compute.
      * by vm_compute.
Defined.

(** C4, counterexample: with no validation chromosome configured, the
    peak on "chr2" (not excluded) is in the data and in none of the three
    outputs. *)
Lemma unlisted_chromosome_is_in_no_output :
  DataModule.__init__ fx_config_unlisted = Ok (fx_module fx_config_unlisted)
  ∧ ¬ split_is_a_partition fx_config_unlisted (fx_module fx_config_unlisted).
Proof.
  split; [by vm_compute|]. intros Hpartition.
  destruct (Hpartition (fx_region "chr2" 0 true)) as [_ Hone].
  - apply (bool_decide_unpack _). by vm_compute.
  - assert (outputs_holding (fx_module fx_config_unlisted)
              (fx_region "chr2" 0 true) = 0%nat) as Hzero by (by vm_compute).
    rewrite Hone in Hzero; [discriminate|].
    apply (bool_decide_unpack _). by vm_compute.
Qed.



(** C9, counterexample: a frame whose [is_peak] column holds the integers
    1 and 0 holds the booleans True and False after the call. *)
Lemma split_peak_and_nonpeak_changes_its_input :
  ¬ split_leaves_input_unchanged fx_integer_frame.
Proof. unfold split_leaves_input_unchanged. by vm_compute. Qed.

(** C9 (amended) on the integer frame, which is coerced, and on a boolean
    frame, which is left as it was. *)
Lemma split_peak_and_nonpeak_coerces_is_peak_witness :
  (split_peak_and_nonpeak fx_integer_frame).2
  = [{| chrom := "chr1"; other := [100]; is_peak := CBool true |};
     {| chrom := "chr1"; other := [900]; is_peak := CBool false |}]
  ∧ (split_peak_and_nonpeak fx_peaks).2 = fx_peaks.
Proof.
  split.
  - destruct (split_peak_and_nonpeak_coerces_is_peak fx_integer_frame
                "fit" (fx_module fx_config) (seed 7)) as (-> & _).
    reflexivity.
  - destruct (split_peak_and_nonpeak_coerces_is_peak fx_peaks
                "fit" (fx_module fx_config) (seed 7))
      as (_ & _ & _ & _ & Hbool & _).
    apply Hbool. repeat constructor; by eexists.
Defined.
End concrete_runs.

(* ===================================================================== *)
(** * The further properties at work                                      *)
(* ===================================================================== *)

Section more_concrete_runs.
Import Fixtures MoreFixtures.
#[local] Existing Instance lcg.
#[local] Existing Instance dtypes.
#[local] Existing Instance data_utils.
#[local] Existing Instance pandas.
#[local] Existing Instance fx_files.


(** Five peaks and the ratio -1. *)
Lemma subsample_nonpeak_data_negative_count_witness :
  ∃ msg,
    subsample_nonpeak_data fx_nonpeak_seqs fx_nonpeak_cts fx_nonpeak_coords
      5 (-1) (seed 42) = (Raise (ValueError msg), seed 42).
Proof.
  apply (subsample_nonpeak_data_negative_count
           fx_nonpeak_seqs fx_nonpeak_cts fx_nonpeak_coords 5 (-1) (seed 42)).
  by vm_compute.
Defined.



(** A refresh of the dataset without non-peak coordinates raises after it
    has stacked sequences and counts; retrieval still answers from the
    arrays of the construction. *)
Lemma crop_revcomp_data_failure_keeps_current_witness :
  (∃ e, (ChromBPNetDataset.crop_revcomp_data (fx_broken, seed 3)).1 = Raise e)
  ∧ ChromBPNetDataset.cts
      (ChromBPNetDataset.attrs
         (ChromBPNetDataset.crop_revcomp_data (fx_broken, seed 3)).2.1)
    ≠ ChromBPNetDataset.cts (ChromBPNetDataset.attrs fx_broken)
  ∧ (ChromBPNetDataset.__getitem__ 0
       (ChromBPNetDataset.crop_revcomp_data (fx_broken, seed 3)).2).1
    = (ChromBPNetDataset.__getitem__ 0 (fx_broken, seed 3)).1.
Proof.
  split_and!.
  - eexists. vm_compute. reflexivity.
  - by vm_compute.
  - destruct (crop_revcomp_data_failure_keeps_current fx_broken
                (ChromBPNetDataset.crop_revcomp_data (fx_broken, seed 3)).2.1
                (seed 3)
                (ChromBPNetDataset.crop_revcomp_data (fx_broken, seed 3)).2.2
                (TypeError "'NoneType' object where an array is needed"))
      as (_ & _ & _ & Hget & _).
    + vm_compute. reflexivity.
    + rewrite <-(Hget 0 (seed 3)
                   (ChromBPNetDataset.crop_revcomp_data (fx_broken, seed 3)).2.2).
      by destruct (ChromBPNetDataset.crop_revcomp_data (fx_broken, seed 3))
        as [r [self' g']].
Defined.

(** The training dataset holds windows of 4 positions by 4 channels and
    profiles of 2 positions. *)
Lemma getitem_shape_witness :
  ∃ example,
    (ChromBPNetDataset.__getitem__ 2 (fx_train, seed 0)).1 = Ok example
    ∧ length (ChromBPNetDataset.onehot_seq example) = 4%nat
    ∧ Forall (λ channel, length channel = 4%nat)
        (ChromBPNetDataset.onehot_seq example)
    ∧ length (ChromBPNetDataset.profile example) = 2%nat.
Proof.
  destruct (ChromBPNetDataset.__getitem__ 2 (fx_train, seed 0))
    as [[example|e] w] eqn:Hget; [|by vm_compute in Hget].
  exists example. split; [reflexivity|].
  apply (getitem_shape fx_train (seed 0) fx_cur_seqs fx_cur_cts
           4 4 2 2 example).
  - reflexivity.
  - reflexivity.
  - reflexivity.
  - apply (bool_decide_unpack _). by vm_compute.
  - apply (bool_decide_unpack _). by vm_compute.
  - by rewrite Hget.
Defined.

(** The configured module: "chrM" is excluded. *)
Lemma chroms_hold_no_excluded_chromosome_witness :
  DataModule.chroms (fx_module fx_config) = ["chr1"; "chr2"; "chr3"]
  ∧ "chrM" ∉ DataModule.chroms (fx_module fx_config).
Proof.
  destruct (chroms_hold_no_excluded_chromosome fx_config (fx_module fx_config))
    as (Hchroms & _ & _ & _ & Hin); [exact fx_module_built|].
  split.
  - rewrite Hchroms. by vm_compute.
  - intros HM. apply Hin in HM as [_ Hex]. apply Hex.
    apply (bool_decide_unpack _). by vm_compute.
Defined.

Lemma train_val_is_train_and_val_witness :
  fx_region "chr2" 0 true ∈ DataModule.train_val (fx_module fx_config)
  ∧ length (DataModule.train_val (fx_module fx_config)) = 6%nat.
Proof.
  destruct (train_val_is_train_and_val fx_config (fx_module fx_config))
    as (Hin & _); [exact fx_module_built|].
  split.
  - apply Hin. right. apply (bool_decide_unpack _). by vm_compute.
  - by vm_compute.
Defined.

Example fx_module_background_built :
  DataModule.__init__ fx_config_background
  = Ok (fx_module fx_config_background).
Proof. vm_compute. reflexivity. Qed.

(** With a background file configured, the background is loaded and the
    training data is as without it. *)
Lemma background_is_loaded_but_never_used_witness :
  is_Some (DataModule.background (fx_module fx_config_background))
  ∧ DataModule.train_background (fx_module fx_config_background) = None
  ∧ DataModule.train_data (fx_module fx_config_background)
    = DataModule.train_data (fx_module fx_config).
Proof.
  destruct (background_is_loaded_but_never_used fx_config_background
              (fx_module fx_config_background))
    as (Hnone & Hloaded & _); [exact fx_module_background_built|].
  split_and!.
  - apply Hloaded. by eexists.
  - exact Hnone.
  - by vm_compute.
Defined.

Lemma data_is_peaks_then_negatives_witness :
  DataModule.data (fx_module fx_config)
  = (DataModule.peaks (fx_module fx_config)
     ++ default [] (DataModule.negatives (fx_module fx_config)))%list
  ∧ length (DataModule.data (fx_module fx_config)) = 8%nat.
Proof.
  destruct (data_is_peaks_then_negatives fx_config (fx_module fx_config))
    as (Hdata & _); [exact fx_module_built|].
  split; [exact Hdata|]. by vm_compute.
Defined.

(** "chr1" trains and "chr2" validates: five and one rows, six together. *)
Lemma disjoint_lists_give_disjoint_splits_witness :
  length (DataModule.train_val (fx_module fx_config))
  = (length (DataModule.train_data (fx_module fx_config))
     + length (DataModule.val_data (fx_module fx_config)))%nat.
Proof.
  destruct (disjoint_lists_give_disjoint_splits fx_config
              (fx_module fx_config)) as (_ & Hlen).
  - exact fx_module_built.
  - intros (c & Htr & Hva). vm_compute in Htr, Hva.
    apply list_elem_of_singleton in Htr, Hva. by subst.
  - exact Hlen.
Defined.

(** The test split of the configured module: the one non-peak on "chr3". *)
Lemma setup_test_keeps_every_negative_witness :
  ∃ ds,
    DataModule.test_dataset fx_after_test = Some ds
    ∧ ChromBPNetDataset.negative_sampling_ratio ds = (-1)%Q
    ∧ length (ChromBPNetDataset.regions ds) = 1%nat.
Proof.
  destruct (setup_test_keeps_every_negative (fx_module fx_config)
              fx_after_test (seed 7)
              (DataModule.setup "test" (fx_module fx_config, seed 7)).2.2 tt)
    as (ds & Hds & _ & _ & Hregions & Hratio & _).
  - vm_compute. reflexivity.
  - exists ds. split_and!; [exact Hds | exact Hratio |].
    apply Permutation_length in Hregions. rewrite Hregions. by vm_compute.
Defined.

Lemma setup_fit_builds_train_and_val_witness :
  ∃ train val,
    DataModule.train_dataset fx_after_fit = Some train
    ∧ DataModule.val_dataset fx_after_fit = Some val
    ∧ ChromBPNetDataset.add_revcomp train = true
    ∧ ChromBPNetDataset.add_revcomp val = false
    ∧ length (ChromBPNetDataset.regions train) = 5%nat
    ∧ length (ChromBPNetDataset.regions val) = 1%nat.
Proof.
  destruct (setup_fit_builds_train_and_val (fx_module fx_config)
              fx_after_fit (seed 7)
              (DataModule.setup "fit" (fx_module fx_config, seed 7)).2.2 tt)
    as (train & val & Htrain & Hval & _ & Hrt & Hrv & _ & _ & Hat & Hav & _).
  - vm_compute. reflexivity.
  - exists train, val.
    apply Permutation_length in Hrt, Hrv.
    split_and!; [exact Htrain | exact Hval | exact Hat | exact Hav | |].
    + rewrite Hrt. by vm_compute.
    + rewrite Hrv. by vm_compute.
Defined.


(** 'all' leaves the peak on the excluded "chrM" out; 'chrM' serves it. *)
Lemma chrom_dataset_applies_exclusion_to_keywords_only_witness :
  (fx_region "chrM" 0 true ∉ ChromBPNetDataset.regions fx_all)
  ∧ fx_region "chrM" 0 true ∈ ChromBPNetDataset.regions fx_chrM.
Proof.
  split.
  - destruct (chrom_dataset_applies_exclusion_to_keywords_only fx_config
                (fx_module fx_config) (fx_module fx_config) (seed 7)
                (DataModuleQueries.chrom_dataset
                   (DataModuleQueries.ChromStr "all") (-1)
                   (fx_module fx_config, seed 7)).2.2
                (-1) fx_all "chrM") as (Hall & _);
      [exact fx_module_built|].
    intros Hin. apply Hall in Hin.
    + apply Hin. apply (bool_decide_unpack _). by vm_compute.
    + vm_compute. reflexivity.
  - destruct (chrom_dataset_applies_exclusion_to_keywords_only fx_config
                (fx_module fx_config) (fx_module fx_config) (seed 7)
                (DataModuleQueries.chrom_dataset
                   (DataModuleQueries.ChromStr "chrM") (-1)
                   (fx_module fx_config, seed 7)).2.2
                (-1) fx_chrM "chrM") as (_ & Hname);
      [exact fx_module_built|].
    destruct Hname as (_ & Hpeaks).
    + apply (bool_decide_unpack _). by vm_compute.
    + vm_compute. reflexivity.
    + apply (Hpeaks (fx_region "chrM" 0 true)).
      * apply (bool_decide_unpack _). by vm_compute.
      * reflexivity.
      * by vm_compute.
Defined.

(** The training dataset of the configured module and the dataset of
    its training chromosomes hold the same five regions. *)
Lemma chrom_dataset_train_has_the_training_regions_witness :
  ∃ train,
    DataModule.train_dataset fx_after_fit = Some train
    ∧ ChromBPNetDataset.regions fx_train_regions
      = ChromBPNetDataset.regions train
    ∧ length (ChromBPNetDataset.regions fx_train_regions) = 5%nat.
Proof.
  destruct (chrom_dataset_train_has_the_training_regions fx_config
              (fx_module fx_config) fx_after_fit fx_after_fit
              (seed 7)
              (DataModule.setup "fit" (fx_module fx_config, seed 7)).2.2
              (seed 11)
              (DataModuleQueries.chrom_dataset
                 (DataModuleQueries.ChromStr "train") (-1)
                 (fx_after_fit, seed 11)).2.2
              tt (-1) fx_train_regions)
    as (train & Htrain & Hregions).
  - exact fx_module_built.
  - vm_compute. reflexivity.
  - by vm_compute.
  - vm_compute. reflexivity.
  - exists train. split_and!; [exact Htrain | exact Hregions | reflexivity].
Defined.

(** A dataset of three non-peaks and no peak keeps the three, with the
    ratio 1/2 too. *)
Lemma crop_revcomp_data_single_kind_ignores_ratio_witness :
  (ChromBPNetDataset.negative_sampling_ratio fx_negatives_only == 1 # 2)%Q
  ∧ ChromBPNetDataset.seqs (ChromBPNetDataset.attrs fx_negatives_only)
    = Some fx_train_nonpeak_seqs
  ∧ len fx_train_nonpeak_seqs = 3.
Proof.
  destruct (crop_revcomp_data_single_kind_ignores_ratio
              fx_negatives_only_before fx_negatives_only (seed 7)
              (ChromBPNetDataset.crop_revcomp_data
                 (fx_negatives_only_before, seed 7)).2.2 tt)
    as (_ & _ & _ & Hnonpeaks & _).
  - left. reflexivity.
  - vm_compute. reflexivity.
  - destruct Hnonpeaks as (Hseqs & _); [reflexivity|].
    split_and!; [reflexivity | exact Hseqs | reflexivity].
Defined.

(** "background.bed" does not load. *)
Lemma unloadable_background_aborts_construction_witness :
  DataModule.__init__ fx_config_missing_background
  = Raise (ExternalError "load_region_df").
Proof.
  apply (unloadable_background_aborts_construction
           fx_config_missing_background "background.bed");
    reflexivity.
Defined.

(** ** create_logger on a root logger with three handlers *)

Lemma fx_world_ok : handlers_ok logger.Root fx_world.
Proof.
  split.
  - apply (bool_decide_unpack _). by vm_compute.
  - apply (bool_decide_unpack _). by vm_compute.
Defined.

(** Of the handlers 0, 1 and 2, handler 1 survives [overwrite=True]. *)
Lemma create_logger_overwrite_keeps_every_other_handler_witness :
  ∃ new,
    logger.handlers
      (logger.deref logger.Root
         (logger.create_logger "" true None 20 true fx_world).2)
    = stream_handler 1 :: new.
Proof.
  destruct (create_logger_overwrite_keeps_every_other_handler
              "" true None 20 fx_world
              (logger.create_logger "" true None 20 true fx_world).2
              (logger.create_logger "" true None 20 true fx_world).1)
    as (new & Hhandlers & _).
  - exact fx_world_ok.
  - by destruct (logger.create_logger "" true None 20 true fx_world).
  - exists new. exact Hhandlers.
Defined.

(** A second configuration of the root logger leaves four handlers. *)
Lemma create_logger_accumulates_handlers_witness :
  length
    (logger.handlers
       (logger.deref logger.Root
          (logger.create_logger "" true None 20 false fx_world).2))
  = 4%nat.
Proof.
  destruct (create_logger_accumulates_handlers
              "" true None 20 fx_world
              (logger.create_logger "" true None 20 false fx_world).2
              (logger.create_logger "" true None 20 false fx_world).1)
    as (new & Hhandlers & _ & _ & Hlen).
  - exact fx_world_ok.
  - by destruct (logger.create_logger "" true None 20 false fx_world).
  - change (logger_of "") with logger.Root in Hhandlers, Hlen.
    rewrite Hhandlers, length_app, Hlen; [done|]. by vm_compute.
Defined.


(** The log file cannot be opened: the call raises and the root logger is
    left with handler 1 and a new stream handler. *)
Lemma create_logger_open_failure_is_not_rolled_back_witness :
  ∃ w',
    logger.create_logger "" true (Some "logs/run.log") 10 true fx_world
    = (Raise (ExternalError "open"), w')
    ∧ logger.handlers (logger.deref logger.Root w')
      = [stream_handler 1; stream_handler 3].
Proof.
  destruct (create_logger_open_failure_is_not_rolled_back
              "" true (Some "logs/run.log") 10 true fx_world "logs/run.log")
    as (w' & Hrun & _ & Hhandlers & _).
  - exact fx_world_ok.
  - reflexivity.
  - reflexivity.
  - exists w'. split; [exact Hrun|]. exact Hhandlers.
Defined.
End more_concrete_runs.
